(** * dcd-api: the social graph, the comment threads and the content filter

    A shallow embedding of the Koa route handlers of
    [routes/follow.js], [routes/auth.js] (GET /me), the comment router
    ([/api/comment]) and [utils/contentFilter], with the Mongoose
    collections they read and write as explicit state.

    Conventions.
    - A collection of documents addressed by [_id] only is a finite map from
      ObjectId to document; the comment collection, whose documents are
      counted and filtered by query, is a list of documents.
    - A JavaScript string is the list of its UTF-16 code units; string
      literals of the source are written as UTF-8 literals and decoded by
      [js].
    - A handler takes the state before the request and returns the Koa
      response ([ctx.status], [ctx.body]) and the state afterwards.
    - The built-in [String.prototype.toLowerCase] is a parameter
      ([JsRuntime]) with the two facts of ECMAScript that the filter relies
      on. *)

From Stdlib Require Import NArith Ascii String.
From stdpp Require Import gmap strings list fin_maps.

Set Default Proof Using "Type".
Local Open Scope N_scope.

(* ===================================================================== *)
(** ** JavaScript strings *)
(* ===================================================================== *)

Module Js.

(** A string value: its UTF-16 code units. *)
Abbreviation jsString := (list N).

Definition bytes_of (s : string) : list N :=
  (λ c, N_of_ascii c) <$> list_ascii_of_string s.

(** UTF-8 to UTF-16, for the literals of the source file. *)
Fixpoint utf16_of_utf8 (bs : list N) : jsString :=
  match bs with
  | [] => []
  | b0 :: r0 =>
    if b0 <? 0x80 then b0 :: utf16_of_utf8 r0
    else if b0 <? 0xE0 then
      match r0 with
      | b1 :: r1 =>
          N.lor (N.shiftl (N.land b0 0x1F) 6) (N.land b1 0x3F)
            :: utf16_of_utf8 r1
      | _ => [0xFFFD]
      end
    else if b0 <? 0xF0 then
      match r0 with
      | b1 :: b2 :: r2 =>
          N.lor (N.shiftl (N.land b0 0x0F) 12)
            (N.lor (N.shiftl (N.land b1 0x3F) 6) (N.land b2 0x3F))
            :: utf16_of_utf8 r2
      | _ => [0xFFFD]
      end
    else
      match r0 with
      | b1 :: b2 :: b3 :: r3 =>
          let cp :=
            N.lor (N.shiftl (N.land b0 0x07) 18)
              (N.lor (N.shiftl (N.land b1 0x3F) 12)
                 (N.lor (N.shiftl (N.land b2 0x3F) 6) (N.land b3 0x3F))) in
          let v := cp - 0x10000 in
          (0xD800 + N.shiftr v 10) :: (0xDC00 + N.land v 0x3FF)
            :: utf16_of_utf8 r3
      | _ => [0xFFFD]
      end
  end.

Definition js (s : string) : jsString := utf16_of_utf8 (bytes_of s).
Arguments js : simpl never.

(** [s.length] *)
Definition strLength (s : jsString) : nat := length s.

(** [s.startsWith(w)] *)
Fixpoint startsWith (s w : jsString) {struct w} : bool :=
  match w, s with
  | [], _ => true
  | _ :: _, [] => false
  | a :: w', b :: s' => (a =? b) && startsWith s' w'
  end.

(** [s.includes(w)] *)
Fixpoint includes (s w : jsString) : bool :=
  startsWith s w ||
  match s with
  | [] => false
  | _ :: s' => includes s' w
  end.

(** WhiteSpace and LineTerminator of ECMAScript, which [trim] strips. *)
Definition isWhiteSpace (u : N) : bool :=
  (0x09 <=? u) && (u <=? 0x0D) || (u =? 0x20) || (u =? 0xA0)
  || (u =? 0x1680) || (0x2000 <=? u) && (u <=? 0x200A)
  || (u =? 0x2028) || (u =? 0x2029) || (u =? 0x202F) || (u =? 0x205F)
  || (u =? 0x3000) || (u =? 0xFEFF).

Fixpoint trimStart (s : jsString) : jsString :=
  match s with
  | u :: s' => if isWhiteSpace u then trimStart s' else s
  | [] => []
  end.

(** [s.trim()] *)
Definition trim (s : jsString) : jsString :=
  rev (trimStart (rev (trimStart s))).

(** [ws.join(sep)] *)
Fixpoint join (sep : jsString) (ws : list jsString) : jsString :=
  match ws with
  | [] => []
  | [w] => w
  | w :: ws' => w ++ sep ++ join sep ws'
  end.

(** Truthiness of a string: only the empty string is falsy. *)
Definition truthy (s : jsString) : bool :=
  match s with [] => false | _ => true end.

(** Code units without case: the decimal digits and the CJK unified
    ideographs U+4E00..U+9FFF. *)
Definition caseless (u : N) : bool :=
  (0x30 <=? u) && (u <=? 0x39) || (0x4E00 <=? u) && (u <=? 0x9FFF).

Definition isAscii (u : N) : bool := u <? 0x80.

(** Lower-casing of one ASCII code unit. *)
Definition asciiLower (u : N) : N :=
  if (0x41 <=? u) && (u <=? 0x5A) then u + 0x20 else u.

(** The built-in [toLowerCase] of the host, with what ECMAScript fixes
    of it on the two kinds of text the filter meets: ASCII letters are
    lowered and nothing else of an ASCII/caseless string changes, and a run
    of caseless code units survives wherever it occurs. *)
Class JsRuntime := {
  toLowerCase : jsString → jsString;
  toLowerCase_plain : ∀ s,
    forallb (λ u, isAscii u || caseless u) s = true →
    toLowerCase s = asciiLower <$> s;
  toLowerCase_keeps : ∀ p w q,
    forallb caseless w = true →
    ∃ p' q', toLowerCase (p ++ w ++ q) = p' ++ w ++ q'
}.

(** A host whose case table stops at ASCII: one instance of the
    interface, used to run the handlers on concrete requests. *)
Definition asciiToLowerCase (s : jsString) : jsString := asciiLower <$> s.

End Js.

Export Js.


(* ===================================================================== *)
(** ** utils/contentFilter *)
(* ===================================================================== *)

Module ContentFilter.

Local Open Scope string_scope.

(** [sensitiveWords] *)
Definition sensitiveWords : list jsString := js <$> [
    (* 暴力相关 *)
    "杀死"; "杀害"; "谋杀"; "暴力"; "打死"; "弄死"; "干掉"; "灭掉"; "血腥"; "残忍";
    "虐待"; "折磨"; "酷刑"; "屠杀"; "砍死"; "刺死"; "枪杀"; "爆炸"; "炸弹"; "恐怖";
    "袭击"; "攻击"; "伤害"; "毁灭"; "破坏"; "仇杀"; "报复"; "威胁"; "恐吓";
    (* 色情相关 *)
    "色情"; "淫秽"; "黄色"; "裸体"; "性交"; "做爱"; "强奸"; "猥亵"; "卖淫";
    "嫖娼"; "援交"; "包养"; "一夜情"; "约炮"; "开房";
    (* 政治敏感 *)
    "法轮功"; "六四"; "天安门"; "达赖"; "藏独"; "台独"; "疆独"; "港独";
    "反政府"; "颠覆"; "民运"; "异议"; "维权"; "抗议"; "游行"; "示威";
    (* 赌博相关 *)
    "赌博"; "赌场"; "博彩"; "彩票"; "老虎机"; "百家乐"; "21点"; "德州扑克";
    "网络赌博"; "地下赌场"; "赌资"; "赌债";
    (* 毒品相关 *)
    "毒品"; "大麻"; "海洛因"; "冰毒"; "摇头丸"; "可卡因"; "鸦片"; "吸毒";
    "贩毒"; "制毒"; "毒贩"; "毒瘾";
    (* 诈骗相关 *)
    "诈骗"; "骗钱"; "传销"; "非法集资"; "庞氏骗局"; "网络诈骗"; "电信诈骗";
    "刷单"; "洗钱"; "黑钱"; "假币";
    (* 其他不当内容 *)
    "自杀"; "跳楼"; "割腕"; "上吊"; "服毒"; "轻生"; "寻死"; "死去";
    "仇恨"; "歧视"; "种族主义"; "纳粹"; "希特勒"; "反人类"
  ].

(** [politicalSensitiveWords] *)
Definition politicalSensitiveWords : list jsString := js <$> [
    "习近平"; "李克强"; "王岐山"; "胡锦涛"; "江泽民"; "邓小平"; "毛泽东";
    "中南海"; "政治局"; "人大"; "政协"; "国务院"; "中宣部"; "统战部";
    "共产党"; "国民党"; "民进党"; "公民党"; "民主党"; "自由党";
    "革命"; "起义"; "造反"; "推翻"; "政变"; "军事政变"; "独裁"; "专制";
    "民主化"; "自由化"; "政治改革"; "体制改革"; "一党专政"
  ].

Local Close Scope string_scope.

(** What [checkSensitiveContent] returns. *)
Record CheckResult := {
  isValid : bool;
  foundWords : list jsString;
  message : jsString
}.

Section WithRuntime.
Context `{JsRuntime}.

(** One [for (const word of words)] loop of [checkSensitiveContent]:
    [if (textLower.includes(word.toLowerCase())) foundWords.push(word)]. *)
Definition scanWords (textLower : jsString) (words : list jsString)
    (foundWords : list jsString) : list jsString :=
  foldl (λ found word,
           if includes textLower (toLowerCase word)
           then found ++ [word] else found)
        foundWords words.

(** [checkSensitiveContent(text, strictMode = true)]; [None] is an omitted
    second argument. *)
Definition checkSensitiveContent (text : jsString) (strictMode : option bool)
    : CheckResult :=
  if negb (truthy text) then
    {| isValid := true; foundWords := []; message := [] |}
  else
    let textLower := toLowerCase text in
    let found := scanWords textLower sensitiveWords [] in
    let found :=
      if default true strictMode
      then scanWords textLower politicalSensitiveWords found
      else found in
    let valid := Nat.eqb (length found) 0 in
    {| isValid := valid;
       foundWords := found;
       message := if valid then []
                  else js "内容包含不当词汇: " ++ join (js ", ") found |}.

(** The [options] argument of [validateContent]; [None] is a key left out. *)
Record ValidateOptions := {
  minLength : option nat;
  maxLength : option nat;
  allowEmpty : option bool;
  strictMode : option bool
}.

(** What [validateContent] returns; [vFoundWords] is present on the
    sensitive-word rejection only. *)
Record Validation := {
  vIsValid : bool;
  vMessage : jsString;
  vFoundWords : option (list jsString)
}.

(** Template literal [`${n}`] for a length bound. *)
Fixpoint digitsOf (fuel n : nat) (acc : jsString) : jsString :=
  match fuel with
  | O => acc
  | S fuel' =>
    let acc' := (0x30 + N.of_nat (n mod 10))%N :: acc in
    if Nat.ltb n 10 then acc' else digitsOf fuel' (n / 10) acc'
  end.

Definition numberToString (n : nat) : jsString := digitsOf (S n) n [].

(** [validateContent(content, options = {})] *)
Definition validateContent (content : jsString) (options : ValidateOptions)
    : Validation :=
  let minLength := default 1%nat (minLength options) in
  let maxLength := default 10000%nat (maxLength options) in
  let allowEmpty := default false (allowEmpty options) in
  let strictMode := default true (strictMode options) in
  if negb (truthy content) || Nat.eqb (strLength (trim content)) 0 then
    if allowEmpty
    then {| vIsValid := true; vMessage := []; vFoundWords := None |}
    else {| vIsValid := false; vMessage := js "内容不能为空";
            vFoundWords := None |}
  else if Nat.ltb (strLength content) minLength then
    {| vIsValid := false;
       vMessage := js "内容长度不能少于" ++ numberToString minLength
                   ++ js "个字符";
       vFoundWords := None |}
  else if Nat.ltb maxLength (strLength content) then
    {| vIsValid := false;
       vMessage := js "内容长度不能超过" ++ numberToString maxLength
                   ++ js "个字符";
       vFoundWords := None |}
  else
    let sensitiveCheck := checkSensitiveContent content (Some strictMode) in
    if negb (isValid sensitiveCheck) then
      {| vIsValid := false;
         vMessage := js "内容包含不当词汇，请修改后重试";
         vFoundWords := Some (foundWords sensitiveCheck) |}
    else
      {| vIsValid := true; vMessage := js "内容验证通过";
         vFoundWords := None |}.

End WithRuntime.

End ContentFilter.

(* ===================================================================== *)
(** ** Requests, responses, thrown errors *)
(* ===================================================================== *)

(** An ObjectId in its 24-digit hexadecimal rendering, as tokens, request
    bodies and route parameters carry it. Requests are taken to carry
    identifiers that Mongoose can cast; [findById] of an identifier without
    document is [null]. *)
Abbreviation ObjectId := string.

(** A [Date], in milliseconds. *)
Abbreviation Date := N.

(** What a handler or a store call can throw. *)
Inductive Exn :=
  | TypeError        (* property access on [null] or [undefined] *)
  | ValidationError  (* a Mongoose schema validator rejects the document *)
  | StoreError.      (* the store does not answer *)

(** A computation that returns or throws. *)
Inductive Result (A : Type) :=
  | Ok (a : A)
  | Throw (e : Exn).
Arguments Ok {A} a.
Arguments Throw {A} e.

#[global] Instance Result_ret : MRet Result := λ A a, Ok a.
#[global] Instance Result_bind : MBind Result := λ A B f m,
  match m with
  | Ok a => f a
  | Throw e => Throw e
  end.

(** [try { m } catch (e) { h e }] *)
Definition tryCatch {A} (m : Result A) (h : Exn → A) : A :=
  match m with
  | Ok a => a
  | Throw e => h e
  end.

(** Reading a property of [o]: a [TypeError] when [o] is [null]. *)
Definition deref {A} (o : option A) : Result A :=
  match o with
  | Some a => Ok a
  | None => Throw TypeError
  end.

(** [ctx.status] and [ctx.body = { success, message, data, error }]. Koa
    answers 200 when a body is set and no status is. *)
Record Response (D : Type) := mkResponse {
  status : nat;
  success : bool;
  message : option jsString;
  data : option D;
  error : option Exn
}.
Arguments mkResponse {D} _ _ _ _ _.
Arguments status {D} _.
Arguments success {D} _.
Arguments message {D} _.
Arguments data {D} _.
Arguments error {D} _.

Definition reply {D} (st : nat) (ok : bool) (msg : jsString)
    : Response D :=
  mkResponse st ok (Some msg) None None.

Definition replyData {D} (st : nat) (ok : bool) (msg : option jsString)
    (d : D) : Response D :=
  mkResponse st ok msg (Some d) None.

Definition replyError {D} (st : nat) (msg : jsString) (e : Exn)
    : Response D :=
  mkResponse st false (Some msg) None (Some e).

(** The default message of Joi for a key [k] that is left out, and for one
    that is the empty string. *)
Definition joiRequired (k : string) : jsString :=
  [0x22] ++ js k ++ [0x22] ++ js " is required".
Definition joiEmpty (k : string) : jsString :=
  [0x22] ++ js k ++ [0x22] ++ js " is not allowed to be empty".

(** [Joi.string().required()] on key [k] with the messages given for
    [any.required] and [string.empty]. *)
Definition joiString {A} (truthyA : A → bool) (required empty : jsString)
    (v : option A) : jsString + A :=
  match v with
  | None => inl required
  | Some a => if truthyA a then inr a else inl empty
  end.

Definition idTruthy (s : ObjectId) : bool :=
  match s with EmptyString => false | _ => true end.

(** The payload that [koa-jwt] puts in [ctx.state.user]: what
    [jwt.sign({ userId, email, role }, ...)] signed. *)
Module Role.
Inductive t := admin | user.
#[global] Instance eq_dec : EqDecision t.
Proof. solve_decision. Defined.
End Role.

Module Token.
Record t := {
  userId : ObjectId;
  email : jsString;
  role : Role.t
}.
End Token.

(* ===================================================================== *)
(** ** models/User *)
(* ===================================================================== *)

Module User.

Record t := {
  username : jsString;
  email : jsString;
  password : jsString;
  role : Role.t;
  avatar : option jsString;
  createdAt : Date;
  isActive : bool;
  lastLogin : option Date;
  following : list ObjectId;       (* 关注的用户 *)
  followers : list ObjectId;       (* 粉丝 *)
  followersCount : nat;
  followingCount : nat;
  updatedAt : Date                 (* [timestamps: true] *)
}.

(** [new User({ username, email, password, role, avatar })]: the schema
    defaults fill the rest. *)
Definition create (username email password : jsString) (role : Role.t)
    (avatar : option jsString) (now : Date) : t :=
  {| username := username; email := email; password := password;
     role := role; avatar := avatar; createdAt := now; isActive := true;
     lastLogin := None; following := []; followers := [];
     followersCount := 0; followingCount := 0; updatedAt := now |}.

(** The update documents that the routes pass to [findByIdAndUpdate]. *)
Inductive update :=
  | push_following (id : ObjectId)   (* [{ $push: { following: id } }] *)
  | push_followers (id : ObjectId)   (* [{ $push: { followers: id } }] *)
  | pull_following (id : ObjectId)   (* [{ $pull: { following: id } }] *)
  | pull_followers (id : ObjectId)   (* [{ $pull: { followers: id } }] *)
  | set_counts (followersCount followingCount : nat).
                                     (* [{ followersCount, followingCount }] *)

Definition with_following (l : list ObjectId) (u : t) : t :=
  {| username := username u; email := email u; password := password u;
     role := role u; avatar := avatar u; createdAt := createdAt u;
     isActive := isActive u; lastLogin := lastLogin u;
     following := l; followers := followers u;
     followersCount := followersCount u; followingCount := followingCount u;
     updatedAt := updatedAt u |}.

Definition with_followers (l : list ObjectId) (u : t) : t :=
  {| username := username u; email := email u; password := password u;
     role := role u; avatar := avatar u; createdAt := createdAt u;
     isActive := isActive u; lastLogin := lastLogin u;
     following := following u; followers := l;
     followersCount := followersCount u; followingCount := followingCount u;
     updatedAt := updatedAt u |}.

Definition with_counts (nfollowers nfollowing : nat) (u : t) : t :=
  {| username := username u; email := email u; password := password u;
     role := role u; avatar := avatar u; createdAt := createdAt u;
     isActive := isActive u; lastLogin := lastLogin u;
     following := following u; followers := followers u;
     followersCount := nfollowers; followingCount := nfollowing;
     updatedAt := updatedAt u |}.

Definition with_updatedAt (now : Date) (u : t) : t :=
  {| username := username u; email := email u; password := password u;
     role := role u; avatar := avatar u; createdAt := createdAt u;
     isActive := isActive u; lastLogin := lastLogin u;
     following := following u; followers := followers u;
     followersCount := followersCount u; followingCount := followingCount u;
     updatedAt := now |}.

(** [$push] appends; [$pull] removes every element equal to the value. *)
Definition pull (id : ObjectId) (l : list ObjectId) : list ObjectId :=
  filter (λ x, x ≠ id) l.

Definition apply (upd : update) (u : t) : t :=
  match upd with
  | push_following id => with_following (following u ++ [id]) u
  | push_followers id => with_followers (followers u ++ [id]) u
  | pull_following id => with_following (pull id (following u)) u
  | pull_followers id => with_followers (pull id (followers u)) u
  | set_counts nfollowers nfollowing => with_counts nfollowers nfollowing u
  end.

(** [User.findById(id)] *)
Definition findById (id : ObjectId) (users : gmap ObjectId t) : option t :=
  users !! id.

(** [User.findByIdAndUpdate(id, upd)]: nothing happens without a document;
    with one, the schema's [timestamps] option stamps [updatedAt]. *)
Definition findByIdAndUpdate (id : ObjectId) (upd : update) (now : Date)
    (users : gmap ObjectId t) : gmap ObjectId t :=
  alter (λ u, with_updatedAt now (apply upd u)) id users.

(** [User.findByIdAndDelete(id)] *)
Definition findByIdAndDelete (id : ObjectId) (users : gmap ObjectId t)
    : gmap ObjectId t :=
  delete id users.

(** [query.populate(path)]: every id of the array is replaced by its
    document, and ids without document are dropped. *)
Definition populate (ids : list ObjectId) (users : gmap ObjectId t)
    : list (ObjectId * t) :=
  omap (λ id, (λ u, (id, u)) <$> users !! id) ids.

End User.

(* ===================================================================== *)
(** ** routes/follow *)
(* ===================================================================== *)

Module FollowRoutes.

(** [ctx.request.body] of POST /follow and POST /unfollow. *)
Record Body := { userId : option ObjectId }.

(** [Joi.object({ userId: Joi.string().required() }).validate(body)] *)
Definition validate (body : Body) : jsString + ObjectId :=
  joiString idTruthy (joiRequired "userId") (joiEmpty "userId") (userId body).

(** POST /api/follow/follow *)
Definition follow (user : Token.t) (body : Body) (now : Date)
    (users : gmap ObjectId User.t)
    : Response unit * gmap ObjectId User.t :=
  tryCatch
    (match validate body with
     | inl msg => Ok (reply 400 false msg, users)
     | inr userId =>
       (* 不能关注自己 *)
       if bool_decide (userId = Token.userId user) then
         Ok (reply 400 false (js "不能关注自己"), users)
       else
         (* 查找要关注的用户 *)
         match User.findById userId users with
         | None => Ok (reply 400 false (js "用户不存在"), users)
         | Some userToFollow =>
           (* 检查是否已经关注 *)
           currentUser ← deref (User.findById (Token.userId user) users);
           if bool_decide (userId ∈ User.following currentUser) then
             Ok (reply 400 false (js "已经关注该用户"), users)
           else
             (* 添加关注关系 *)
             let users1 :=
               User.findByIdAndUpdate (Token.userId user)
                 (User.push_following userId) now users in
             let users2 :=
               User.findByIdAndUpdate userId
                 (User.push_followers (Token.userId user)) now users1 in
             Ok (reply 200 true (js "关注成功"), users2)
         end
     end)
    (λ e, (replyError 500 (js "关注失败") e, users)).

(** POST /api/follow/unfollow *)
Definition unfollow (user : Token.t) (body : Body) (now : Date)
    (users : gmap ObjectId User.t)
    : Response unit * gmap ObjectId User.t :=
  tryCatch
    (match validate body with
     | inl msg => Ok (reply 400 false msg, users)
     | inr userId =>
       (* 查找要取消关注的用户 *)
       match User.findById userId users with
       | None => Ok (reply 400 false (js "用户不存在"), users)
       | Some userToUnfollow =>
         (* 检查是否已经关注 *)
         currentUser ← deref (User.findById (Token.userId user) users);
         if negb (bool_decide (userId ∈ User.following currentUser)) then
           Ok (reply 400 false (js "未关注该用户"), users)
         else
           (* 移除关注关系 *)
           let users1 :=
             User.findByIdAndUpdate (Token.userId user)
               (User.pull_following userId) now users in
           let users2 :=
             User.findByIdAndUpdate userId
               (User.pull_followers (Token.userId user)) now users1 in
           Ok (reply 200 true (js "取消关注成功"), users2)
       end
     end)
    (λ e, (replyError 500 (js "取消关注失败") e, users)).

(** One entry of the [following] and [followers] lists of GET /info. *)
Module Entry.
Record t := {
  _id : ObjectId;
  username : jsString;
  avatar : option jsString;
  isFollowing : bool
}.
End Entry.

(** [data] of GET /info. *)
Module Info.
Record t := {
  followingCount : nat;
  followersCount : nat;
  following : list Entry.t;
  followers : list Entry.t;
  isFollowing : bool
}.
End Info.

(** GET /api/follow/info *)
Definition info (user : Token.t) (users : gmap ObjectId User.t)
    : Response Info.t :=
  let userId := Token.userId user in
  if negb (idTruthy userId) then reply 400 false (js "用户ID不能为空")
  else
    match User.findById userId users with
    | None => reply 404 false (js "用户不存在")
    | Some doc =>
      let following := User.populate (User.following doc) users in
      let followers := User.populate (User.followers doc) users in
      (* 为每个关注的人添加关注状态 *)
      let followingWithStatus :=
        (λ f, {| Entry._id := f.1; Entry.username := User.username f.2;
                 Entry.avatar := User.avatar f.2;
                 Entry.isFollowing := true |}) <$> following in
      (* 为每个粉丝添加关注状态 *)
      let followersWithStatus :=
        (λ f, {| Entry._id := f.1; Entry.username := User.username f.2;
                 Entry.avatar := User.avatar f.2;
                 Entry.isFollowing :=
                   existsb (λ g, bool_decide (g.1 = f.1)) following |})
          <$> followers in
      replyData 200 true None
        {| Info.followingCount := length following;
           Info.followersCount := length followers;
           Info.following := followingWithStatus;
           Info.followers := followersWithStatus;
           Info.isFollowing :=
             existsb (λ f, bool_decide (f.1 = userId)) followers |}
    end.

End FollowRoutes.

(* ===================================================================== *)
(** ** routes/auth: GET /me *)
(* ===================================================================== *)

Module AuthRoutes.

(** The [Authorization] header: absent, or a bearer token that
    [jwt.verify] decodes ([Some]) or rejects by throwing ([None]). *)
Inductive Authorization :=
  | no_header
  | bearer (decoded : option Token.t).

(** [.select('-password')] *)
Definition select_without_password (u : User.t) : User.t :=
  {| User.username := User.username u; User.email := User.email u;
     User.password := []; User.role := User.role u;
     User.avatar := User.avatar u; User.createdAt := User.createdAt u;
     User.isActive := User.isActive u; User.lastLogin := User.lastLogin u;
     User.following := User.following u; User.followers := User.followers u;
     User.followersCount := User.followersCount u;
     User.followingCount := User.followingCount u;
     User.updatedAt := User.updatedAt u |}.

(** GET /api/auth/me *)
Definition me (authorization : Authorization) (now : Date)
    (users : gmap ObjectId User.t)
    : Response User.t * gmap ObjectId User.t :=
  match authorization with
  | no_header => (reply 400 false (js "未提供认证令牌"), users)
  | bearer None => (reply 400 false (js "无效的认证令牌"), users)
  | bearer (Some decoded) =>
    match User.findById (Token.userId decoded) users with
    | None => (reply 400 false (js "用户不存在"), users)
    | Some doc =>
      let user := select_without_password doc in
      (* 统计关注者和关注数量 *)
      let followersCount := length (User.followers user) in
      let followingCount := length (User.following user) in
      (* 更新用户模型中的计数字段（如果不一致的话） *)
      let users' :=
        if (negb (Nat.eqb (User.followersCount user) followersCount)
            || negb (Nat.eqb (User.followingCount user) followingCount))%bool
        then User.findByIdAndUpdate (Token.userId decoded)
               (User.set_counts followersCount followingCount) now users
        else users in
      (replyData 200 true None
         (User.with_counts followersCount followingCount user),
       users')
    end
  end.

End AuthRoutes.

(* ===================================================================== *)
(** ** The user collection over time *)
(* ===================================================================== *)

Module Social.
Import FollowRoutes AuthRoutes.

(** An ObjectId that the driver may generate for a new user: one that no
    document has and no list mentions. *)
Definition fresh (id : ObjectId) (users : gmap ObjectId User.t) : Prop :=
  users !! id = None ∧
  ∀ k u, users !! k = Some u →
         (id ∉ User.following u) ∧ (id ∉ User.followers u).

(** The states of the user collection that requests can produce. Documents
    enter through [new User({...}).save()], leave through
    [findByIdAndDelete]; the follow routes and GET /me are the handlers
    above; every other write of the repository (profile, status, password,
    login time) keeps both lists of the document it touches. *)
Inductive reachable : gmap ObjectId User.t → Prop :=
  | reach_empty : reachable ∅
  | reach_save id username email password role avatar now users :
      reachable users → fresh id users →
      reachable
        (<[id := User.create username email password role avatar now]> users)
  | reach_delete id users :
      reachable users → reachable (User.findByIdAndDelete id users)
  | reach_follow user body now users :
      reachable users → reachable (follow user body now users).2
  | reach_unfollow user body now users :
      reachable users → reachable (unfollow user body now users).2
  | reach_me authorization now users :
      reachable users → reachable (me authorization now users).2
  | reach_other id u u' users :
      reachable users → users !! id = Some u →
      User.following u' = User.following u →
      User.followers u' = User.followers u →
      reachable (<[id := u']> users).

(** The invariant of the data model: whoever appears in the followers of
    [b] has [b] in their own following. *)
Definition symmetric (users : gmap ObjectId User.t) : Prop :=
  ∀ a b ua ub,
    users !! a = Some ua → users !! b = Some ub →
    a ∈ User.followers ub → b ∈ User.following ua.

(** The relationship state of a user: the two lists. *)
Definition relationship (id : ObjectId) (users : gmap ObjectId User.t)
    : option (list ObjectId * list ObjectId) :=
  (λ u, (User.following u, User.followers u)) <$> users !! id.

(** The fields of a user document other than the two lists and the
    [updatedAt] stamp are the same in [u] and [u']. *)
Definition frame (u u' : User.t) : Prop :=
  User.username u' = User.username u
  ∧ User.email u' = User.email u
  ∧ User.password u' = User.password u
  ∧ User.role u' = User.role u
  ∧ User.avatar u' = User.avatar u
  ∧ User.createdAt u' = User.createdAt u
  ∧ User.isActive u' = User.isActive u
  ∧ User.lastLogin u' = User.lastLogin u
  ∧ User.followersCount u' = User.followersCount u
  ∧ User.followingCount u' = User.followingCount u.

(** [symmetric], as a check that runs. *)
Definition symmetricb (users : gmap ObjectId User.t) : bool :=
  forallb
    (λ entry : ObjectId * User.t,
       forallb
         (λ a, match users !! a with
               | Some ua => bool_decide (entry.1 ∈ User.following ua)
               | None => true
               end)
         (User.followers entry.2))
    (map_to_list users).

(** Between [users] and [users'], a request of actor [A] that names the
    target [B] has changed at most the following list of [A], the
    followers list of [B] and the [updatedAt] stamp of these two
    documents; no document has come or gone. *)
Definition only_lists_change (A : ObjectId) (B : option ObjectId)
    (users users' : gmap ObjectId User.t) : Prop :=
  ∀ k,
    option_Forall2
      (λ u u',
         frame u u'
         ∧ (k ≠ A → User.following u' = User.following u)
         ∧ (Some k ≠ B → User.followers u' = User.followers u)
         ∧ (k ≠ A → Some k ≠ B → u' = u))
      (users !! k) (users' !! k).

(** Between [users] and [users'], GET /me has changed at most the two
    stored counts, to the lengths of the lists, and the [updatedAt]
    stamp. *)
Definition only_counts_change (users users' : gmap ObjectId User.t)
    : Prop :=
  ∀ k,
    option_Forall2
      (λ u u',
         User.following u' = User.following u
         ∧ User.followers u' = User.followers u
         ∧ (u' = u
            ∨ User.followersCount u' = length (User.followers u)
              ∧ User.followingCount u' = length (User.following u)))
      (users !! k) (users' !! k).

(** The body [{ userId: B }]. *)
Definition request (B : ObjectId) : FollowRoutes.Body :=
  {| FollowRoutes.userId := Some B |}.

(** [followingCount] and [followersCount] as GET /info reports them to the
    bearer of the token. *)
Definition reportedFollowing (user : Token.t)
    (users : gmap ObjectId User.t) : option nat :=
  FollowRoutes.Info.followingCount <$> data (FollowRoutes.info user users).

Definition reportedFollowers (user : Token.t)
    (users : gmap ObjectId User.t) : option nat :=
  FollowRoutes.Info.followersCount <$> data (FollowRoutes.info user users).

(** The state after the two writes of a follow. *)
Definition followed (A B : ObjectId) (now : Date)
    (users : gmap ObjectId User.t) : gmap ObjectId User.t :=
  User.findByIdAndUpdate B (User.push_followers A) now
    (User.findByIdAndUpdate A (User.push_following B) now users).

(** The state after the two writes of an unfollow. *)
Definition unfollowed (A B : ObjectId) (now : Date)
    (users : gmap ObjectId User.t) : gmap ObjectId User.t :=
  User.findByIdAndUpdate B (User.pull_followers A) now
    (User.findByIdAndUpdate A (User.pull_following B) now users).

End Social.

(* ===================================================================== *)
(** ** models/blogs, models/comments, models/Notification *)
(* ===================================================================== *)

(** Modelled from the spec: the Blog schema ([models/blogs]) is not among
    the sources; of a blog the comment routes read the owning [user] and
    the [title]. *)
Module Blog.
Record t := {
  user : ObjectId;
  title : jsString
}.
End Blog.

(** Modelled from the spec: the Comment schema ([models/comments]) is not
    among the sources. The fields are those of the data model ([parentId]
    null for a top-level comment, [likes] a list of user ids, [likeCount]
    derived from it) and those the routes pass to [Comment.create]; a new
    comment has no likes and [likeCount] 0. *)
Module Comment.

Record t := {
  _id : ObjectId;
  content : jsString;
  user : ObjectId;
  blog : ObjectId;
  parentId : option ObjectId;
  replyTo : option ObjectId;
  fromUserName : option jsString;
  toUserName : option jsString;
  likes : list ObjectId;
  likeCount : nat;
  createdAt : Date
}.

(** The document that [Comment.create({...})] stores: the given paths,
    the generated [_id], the defaults. *)
Definition create (id : ObjectId) (now : Date) (content : jsString)
    (user blog : ObjectId) (parentId replyTo : option ObjectId)
    (fromUserName toUserName : option jsString) : t :=
  {| _id := id; content := content; user := user; blog := blog;
     parentId := parentId; replyTo := replyTo;
     fromUserName := fromUserName; toUserName := toUserName;
     likes := []; likeCount := 0; createdAt := now |}.

(** [comment.likes = l; comment.likeCount = n] *)
Definition with_likes (l : list ObjectId) (n : nat) (c : t) : t :=
  {| _id := _id c; content := content c; user := user c; blog := blog c;
     parentId := parentId c; replyTo := replyTo c;
     fromUserName := fromUserName c; toUserName := toUserName c;
     likes := l; likeCount := n; createdAt := createdAt c |}.

(** [Comment.findById(id)] *)
Definition findById (id : ObjectId) (comments : list t) : option t :=
  List.find (λ c, bool_decide (_id c = id)) comments.

(** [comment.save()]: the stored document of that [_id] is replaced. *)
Definition save (c : t) (comments : list t) : list t :=
  (λ d, if bool_decide (_id d = _id c) then c else d) <$> comments.

(** [Comment.deleteMany(query)] *)
Definition deleteMany (query : t → bool) (comments : list t) : list t :=
  List.filter (λ c, negb (query c)) comments.

(** [{ $or: [{ _id: id }, { parentId: id }] }] *)
Definition id_or_parentId (id : ObjectId) (c : t) : bool :=
  bool_decide (_id c = id) || bool_decide (parentId c = Some id).

(** [{ blog: id }] *)
Definition of_blog (id : ObjectId) (c : t) : bool :=
  bool_decide (blog c = id).

End Comment.

Module Notification.

Inductive kind := comment | reply | like | follow | system.
Inductive level := low | normal | high | urgent.

Record t := {
  recipient : ObjectId;               (* 接收通知的用户 *)
  sender : ObjectId;                  (* 触发通知的用户 *)
  type : kind;
  title : jsString;                   (* required, maxlength 100 *)
  content : jsString;                 (* required, maxlength 500 *)
  relatedBlog : option ObjectId;
  relatedComment : option ObjectId;
  isRead : bool;
  readAt : option Date;
  priority : level;
  createdAt : Date;
  expiresAt : option Date
}.

(** The schema validators that a document built by the routes can fail:
    [required] and [maxlength] of [title] and [content]. *)
Definition valid (n : t) : bool :=
  truthy (title n) && Nat.leb (strLength (title n)) 100
  && truthy (content n) && Nat.leb (strLength (content n)) 500.

End Notification.

(* ===================================================================== *)
(** ** The store and the environment of a request *)
(* ===================================================================== *)

Record Db := {
  users : gmap ObjectId User.t;
  blogs : gmap ObjectId Blog.t;
  comments : list Comment.t;
  notifications : list Notification.t
}.

Definition with_comments (cs : list Comment.t) (db : Db) : Db :=
  {| users := users db; blogs := blogs db; comments := cs;
     notifications := notifications db |}.

Definition with_notifications (ns : list Notification.t) (db : Db) : Db :=
  {| users := users db; blogs := blogs db; comments := comments db;
     notifications := ns |}.

(** What a request takes from outside the program: the clock, the ObjectId
    that the driver generates for a created comment, and whether the
    notification collection accepts a write. *)
Record Env := {
  now : Date;
  newId : ObjectId;
  notificationStoreUp : bool
}.

(** [Notification.create({...})]: throws when a validator rejects the
    document or the store does not take it. *)
Definition Notification_create (env : Env) (recipient sender : ObjectId)
    (type : Notification.kind) (title content : jsString)
    (relatedBlog relatedComment : option ObjectId)
    (priority : Notification.level) (db : Db) : Result Db :=
  let n :=
    {| Notification.recipient := recipient; Notification.sender := sender;
       Notification.type := type; Notification.title := title;
       Notification.content := content;
       Notification.relatedBlog := relatedBlog;
       Notification.relatedComment := relatedComment;
       Notification.isRead := false; Notification.readAt := None;
       Notification.priority := priority;
       Notification.createdAt := now env;
       Notification.expiresAt := None |} in
  if negb (Notification.valid n) then Throw ValidationError
  else if negb (notificationStoreUp env) then Throw StoreError
  else Ok (with_notifications (notifications db ++ [n]) db).

(* ===================================================================== *)
(** ** The comment router (/api/comment) *)
(* ===================================================================== *)

Module CommentRoutes.
Import ContentFilter.

(** A populated [user] or [replyTo] path with the selected fields. *)
Module Summary.
Record t := {
  username : option jsString;
  avatar : option jsString
}.
End Summary.

(** A comment with its [user] and [replyTo] paths populated. *)
Module Populated.
Record t := {
  doc : Comment.t;
  user : option Summary.t;
  replyTo : option Summary.t
}.
End Populated.

(** [data] of POST /like. *)
Module Liked.
Record t := {
  likeCount : nat;
  isLiked : bool
}.
End Liked.

(** [ctx.request.body] of POST /create, POST /reply and POST /like. *)
Module CreateBody.
Record t := {
  content : option jsString;
  blogId : option ObjectId
}.
End CreateBody.

Module ReplyBody.
Record t := {
  content : option jsString;
  commentId : option ObjectId;
  replyTo : option ObjectId;
  blogId : option ObjectId
}.
End ReplyBody.

Module LikeBody.
Record t := { commentId : option ObjectId }.
End LikeBody.

(** [Joi.string().optional()] on key [k]. *)
Definition joiOptional (k : string) (v : option ObjectId)
    : jsString + option ObjectId :=
  match v with
  | None => inr None
  | Some a => if idTruthy a then inr (Some a) else inl (joiEmpty k)
  end.

(** [user._id] of the token payload in [ctx.state.user]: [jwt.sign] is
    given [userId], [email] and [role], never an [_id], so the property is
    [undefined]. *)
Definition payload_id (user : Token.t) : option ObjectId := None.

(** [user.name] of a user document: the schema has no such path, the
    property is [undefined]. *)
Definition User_name (u : User.t) : option jsString := None.

(** [`${v}`] *)
Definition template (v : option jsString) : jsString :=
  default (js "undefined") v.

(** [array.findIndex(p)]; [None] is -1. *)
Fixpoint findIndex {A} (p : A → bool) (l : list A) : option nat :=
  match l with
  | [] => None
  | x :: l' => if p x then Some O else S <$> findIndex p l'
  end.

(** The options that both routes pass to [validateContent]. *)
Definition contentOptions : ValidateOptions :=
  {| minLength := Some 1%nat; maxLength := Some 1000%nat;
     allowEmpty := None; strictMode := Some true |}.

(** [.populate({ path, select })] of one path. *)
Definition summary (withUsername : bool) (id : ObjectId) (db : Db)
    : option Summary.t :=
  (λ u, {| Summary.username :=
             if withUsername then Some (User.username u) else None;
           Summary.avatar := User.avatar u |}) <$> users db !! id.

Section WithRuntime.
Context `{JsRuntime}.

(** POST /api/comment/create *)
Definition createComment (env : Env) (user : Token.t) (body : CreateBody.t)
    (db : Db) : Response Populated.t * Db :=
  tryCatch
    (match joiString truthy (js "评论内容不能为空") (js "评论内容不能为空")
             (CreateBody.content body) with
     | inl msg => Ok (reply 400 false msg, db)
     | inr content =>
     match joiString idTruthy (js "博客ID不能为空") (joiEmpty "blogId")
             (CreateBody.blogId body) with
     | inl msg => Ok (reply 400 false msg, db)
     | inr blogId =>
       (* 验证评论内容 *)
       let contentValidation := validateContent content contentOptions in
       if negb (vIsValid contentValidation) then
         Ok (reply 400 false (js "评论" ++ vMessage contentValidation), db)
       else
         (* 检查博客是否存在 *)
         match blogs db !! blogId with
         | None => Ok (reply 404 false (js "博客不存在"), db)
         | Some blog =>
           let comment :=
             Comment.create (newId env) (now env) content
               (Token.userId user) blogId None None None None in
           let db1 := with_comments (comments db ++ [comment]) db in
           (* 填充用户信息 *)
           let populatedComment :=
             (λ c, {| Populated.doc := c;
                      Populated.user := summary true (Comment.user c) db1;
                      Populated.replyTo := None |})
               <$> Comment.findById (Comment._id comment) (comments db1) in
           (* 发送消息提醒给博客作者（如果不是自己评论自己的博客） *)
           let db2 :=
             if bool_decide (Blog.user blog ≠ Token.userId user) then
               tryCatch
                 (commenter ←
                    deref (User.findById (Token.userId user) (users db1));
                  Notification_create env
                    (Blog.user blog) (Token.userId user)
                    Notification.comment (js "新评论通知")
                    (User.username commenter ++ js " 评论了您的博客《"
                       ++ Blog.title blog ++ js "》")
                    (Some blogId) (Some (Comment._id comment))
                    Notification.normal db1)
                 (λ notificationError, db1) (* 不影响评论创建的主流程 *)
             else db1 in
           Ok (mkResponse 200 true (Some (js "评论创建成功"))
                 populatedComment None, db2)
         end
     end
     end)
    (λ e, (reply 500 false (js "服务器错误"), db)).

(** POST /api/comment/reply *)
Definition createReply (env : Env) (user : Token.t) (body : ReplyBody.t)
    (db : Db) : Response Populated.t * Db :=
  let userId := Token.userId user in
  tryCatch
    (match joiString truthy (js "回复内容不能为空") (joiEmpty "content")
             (ReplyBody.content body) with
     | inl msg => Ok (reply 400 false msg, db)
     | inr content =>
     match joiString idTruthy (js "评论ID不能为空") (joiEmpty "commentId")
             (ReplyBody.commentId body) with
     | inl msg => Ok (reply 400 false msg, db)
     | inr commentId =>
     match joiOptional "replyTo" (ReplyBody.replyTo body) with
     | inl msg => Ok (reply 400 false msg, db)
     | inr replyTo =>
     match joiString idTruthy (js "博客ID不能为空") (joiEmpty "blogId")
             (ReplyBody.blogId body) with
     | inl msg => Ok (reply 400 false msg, db)
     | inr _ =>
       (* 验证回复内容 *)
       let contentValidation := validateContent content contentOptions in
       if negb (vIsValid contentValidation) then
         Ok (reply 400 false (js "回复" ++ vMessage contentValidation), db)
       else
         (* 检查要回复的评论是否存在 *)
         match Comment.findById commentId (comments db) with
         | None => Ok (reply 404 false (js "要回复的评论不存在"), db)
         | Some parentComment =>
           (* [replyTo || parentComment.user] *)
           let replyToUserId :=
             default (Comment.user parentComment) replyTo in
           (* 获取用户信息 *)
           let currentUser := User.findById userId (users db) in
           let replyToUser := User.findById replyToUserId (users db) in
           let reply_ :=
             Comment.create (newId env) (now env) content userId
               (Comment.blog parentComment)
               (Some (default (Comment._id parentComment)
                        (Comment.parentId parentComment)))
               (Some replyToUserId)
               (User.username <$> currentUser)
               (User.username <$> replyToUser) in
           let db1 := with_comments (comments db ++ [reply_]) db in
           (* 填充用户信息 *)
           let populatedReply :=
             (λ c, {| Populated.doc := c;
                      Populated.user := summary false (Comment.user c) db1;
                      Populated.replyTo :=
                        Comment.replyTo c ≫= λ r, summary false r db1 |})
               <$> Comment.findById (Comment._id reply_) (comments db1) in
           (* 发送消息提醒给被回复的用户（如果不是回复自己） *)
           let db2 :=
             if bool_decide (replyToUserId ≠ userId) then
               tryCatch
                 (blog ← deref (blogs db1 !! Comment.blog parentComment);
                  sender ← deref currentUser;
                  Notification_create env replyToUserId userId
                    Notification.reply (js "新回复通知")
                    (template (User_name sender) ++ js " 回复了您在《"
                       ++ Blog.title blog ++ js "》中的评论")
                    (Some (Comment.blog parentComment))
                    (Some (Comment._id reply_))
                    Notification.normal db1)
                 (λ notificationError, db1) (* 不影响回复创建的主流程 *)
             else db1 in
           Ok (mkResponse 200 true (Some (js "回复成功"))
                 populatedReply None, db2)
         end
     end
     end
     end
     end)
    (λ e, (reply 500 false (js "服务器错误"), db)).

End WithRuntime.

(** POST /api/comment/like *)
Definition toggleLike (env : Env) (user : Token.t) (body : LikeBody.t)
    (db : Db) : Response Liked.t * Db :=
  let userId := Token.userId user in
  tryCatch
    (match joiString idTruthy (js "评论ID不能为空") (joiEmpty "commentId")
             (LikeBody.commentId body) with
     | inl msg => Ok (reply 400 false msg, db)
     | inr commentId =>
       match Comment.findById commentId (comments db) with
       | None => Ok (reply 400 false (js "评论不存在"), db)
       | Some comment =>
         (* 检查用户是否已经点赞 *)
         match findIndex (λ like, bool_decide (like = userId))
                 (Comment.likes comment) with
         | None =>
           (* 未点赞，添加点赞 *)
           let likes := Comment.likes comment ++ [userId] in
           let comment' := Comment.with_likes likes (length likes) comment in
           let db1 := with_comments (Comment.save comment' (comments db)) db in
           (* 发送点赞通知给评论作者（如果不是自己点赞自己的评论） *)
           let db2 :=
             if bool_decide (Comment.user comment' ≠ userId) then
               tryCatch
                 (liker ← deref (User.findById userId (users db1));
                  blog ← deref (blogs db1 !! Comment.blog comment');
                  Notification_create env (Comment.user comment') userId
                    Notification.like (js "评论被点赞")
                    (User.username liker ++ js " 点赞了您在《"
                       ++ Blog.title blog ++ js "》中的评论")
                    (Some (Comment.blog comment'))
                    (Some (Comment._id comment'))
                    Notification.normal db1)
                 (λ notificationError, db1) (* 不影响点赞功能，继续执行 *)
             else db1 in
           Ok (replyData 200 true (Some (js "点赞成功"))
                 {| Liked.likeCount := Comment.likeCount comment';
                    Liked.isLiked := true |}, db2)
         | Some likeIndex =>
           (* 已点赞，取消点赞 *)
           let likes := delete likeIndex (Comment.likes comment) in
           let comment' := Comment.with_likes likes (length likes) comment in
           let db1 := with_comments (Comment.save comment' (comments db)) db in
           Ok (replyData 200 true (Some (js "取消点赞成功"))
                 {| Liked.likeCount := Comment.likeCount comment';
                    Liked.isLiked := false |}, db1)
         end
       end
     end)
    (λ e, (mkResponse 500 false None None (Some e), db)).

(** The middleware [requireCommentAuthor], with the rest of the chain as
    [next]. *)
Definition requireCommentAuthor (user : Token.t) (id : ObjectId) (db : Db)
    (next : Comment.t → Response unit * Db) : Response unit * Db :=
  match Comment.findById id (comments db) with
  | None => (reply 404 false (js "评论不存在"), db)
  | Some comment =>
    if bool_decide (Some (Comment.user comment) ≠ payload_id user)
       && bool_decide (Token.role user ≠ Role.admin)
    then (reply 403 false (js "只能删除自己的评论"), db)
    else next comment
  end.

(** DELETE /api/comment/delete/:id *)
Definition deleteComment (user : Token.t) (id : ObjectId) (db : Db)
    : Response unit * Db :=
  requireCommentAuthor user id db (λ _,
    (* 删除评论及其所有回复 *)
    let db1 :=
      with_comments
        (Comment.deleteMany (Comment.id_or_parentId id) (comments db)) db in
    (reply 200 true (js "评论删除成功"), db1)).

End CommentRoutes.

(* ===================================================================== *)
(** ** The comment collection over time *)
(* ===================================================================== *)

Module Threads.
Import CommentRoutes.

(** An ObjectId that the driver may generate for a created comment: one
    that no comment has and no [parentId] mentions. *)
Definition fresh (id : ObjectId) (db : Db) : Prop :=
  ∀ c, c ∈ comments db →
       Comment._id c ≠ id ∧ Comment.parentId c ≠ Some id.

Section WithRuntime.
Context `{JsRuntime}.

(** The states of the store that requests can produce. Comments are
    written by the four handlers above and by the blog router, which
    deletes the comments of a deleted blog; what is written elsewhere
    leaves the comment collection as it is. *)
Inductive reachable : Db → Prop :=
  | reach_empty users blogs :
      reachable {| users := users; blogs := blogs; comments := [];
                   notifications := [] |}
  | reach_create env user body db :
      reachable db → fresh (newId env) db →
      reachable (createComment env user body db).2
  | reach_reply env user body db :
      reachable db → fresh (newId env) db →
      reachable (createReply env user body db).2
  | reach_like env user body db :
      reachable db → reachable (toggleLike env user body db).2
  | reach_delete user id db :
      reachable db → reachable (deleteComment user id db).2
  | reach_blog_deleted blogId db :
      reachable db →
      reachable
        (with_comments
           (Comment.deleteMany (Comment.of_blog blogId) (comments db)) db)
  | reach_other db db' :
      reachable db → comments db' = comments db → reachable db'.

End WithRuntime.

(** A comment is a reply of the comment [id]. *)
Definition isReplyOf (id : ObjectId) (c : Comment.t) : bool :=
  bool_decide (Comment.parentId c = Some id).

(** The replies of the comment [id]. *)
Definition replies (id : ObjectId) (cs : list Comment.t) : list Comment.t :=
  List.filter (isReplyOf id) cs.

(** The thread is two levels deep: whatever a [parentId] points to is a
    top-level comment. *)
Definition two_level (cs : list Comment.t) : Prop :=
  ∀ c c', c ∈ cs → c' ∈ cs →
          Comment.parentId c = Some (Comment._id c') →
          Comment.parentId c' = None.

(** [likes] is a set and [likeCount] its size. *)
Definition likes_wf (c : Comment.t) : Prop :=
  NoDup (Comment.likes c) ∧ Comment.likeCount c = length (Comment.likes c).

(** The invariant of the comment collection. *)
Record wf (cs : list Comment.t) : Prop := {
  wf_ids : NoDup (Comment._id <$> cs);
  wf_two_level : two_level cs;
  wf_likes : ∀ c, c ∈ cs → likes_wf c
}.

(** The bodies [{ commentId }] of POST /like, [{ content, blogId }] of
    POST /create and [{ content, commentId, replyTo, blogId }] of
    POST /reply. *)
Definition likeRequest (commentId : ObjectId) : LikeBody.t :=
  {| LikeBody.commentId := Some commentId |}.

Definition createRequest (content : jsString) (blogId : ObjectId)
    : CreateBody.t :=
  {| CreateBody.content := Some content; CreateBody.blogId := Some blogId |}.

Definition replyRequest (content : jsString) (commentId : ObjectId)
    (replyTo : option ObjectId) (blogId : ObjectId) : ReplyBody.t :=
  {| ReplyBody.content := Some content;
     ReplyBody.commentId := Some commentId;
     ReplyBody.replyTo := replyTo;
     ReplyBody.blogId := Some blogId |}.

(** The comment that POST /create stores. *)
Definition commentOf (env : Env) (user : Token.t) (content : jsString)
    (blogId : ObjectId) : Comment.t :=
  Comment.create (newId env) (now env) content (Token.userId user) blogId
    None None None None.

(** The reply that POST /reply stores under [parentComment]. *)
Definition replyOf (env : Env) (user : Token.t) (content : jsString)
    (parentComment : Comment.t) (replyTo : option ObjectId) (db : Db)
    : Comment.t :=
  Comment.create (newId env) (now env) content (Token.userId user)
    (Comment.blog parentComment)
    (Some (default (Comment._id parentComment)
             (Comment.parentId parentComment)))
    (Some (default (Comment.user parentComment) replyTo))
    (User.username <$> users db !! Token.userId user)
    (User.username
       <$> users db !! default (Comment.user parentComment) replyTo).

(** [db] with the comment [c] created. *)
Definition created (c : Comment.t) (db : Db) : Db :=
  with_comments (comments db ++ [c]) db.

(** [data] of the answers of POST /create and POST /reply once [c] is
    created. *)
Definition createdData (c : Comment.t) (db : Db) : option Populated.t :=
  (λ c', {| Populated.doc := c';
            Populated.user := summary true (Comment.user c') (created c db);
            Populated.replyTo := None |})
    <$> Comment.findById (Comment._id c) (comments (created c db)).

Definition repliedData (c : Comment.t) (db : Db) : option Populated.t :=
  (λ c', {| Populated.doc := c';
            Populated.user := summary false (Comment.user c') (created c db);
            Populated.replyTo :=
              Comment.replyTo c' ≫= λ r, summary false r (created c db) |})
    <$> Comment.findById (Comment._id c) (comments (created c db)).

(** The environment [env] with the notification collection up or down. *)
Definition withStore (up : bool) (env : Env) : Env :=
  {| now := now env; newId := newId env; notificationStoreUp := up |}.

(** [db'] is [db] with one more notification, [n], at the end. *)
Definition notified (n : Notification.t) (db db' : Db) : Prop :=
  db' = with_notifications (notifications db ++ [n]) db.

(** The comment after [userId] is pushed on its likes. *)
Definition liked (userId : ObjectId) (c : Comment.t) : Comment.t :=
  Comment.with_likes (Comment.likes c ++ [userId])
    (length (Comment.likes c ++ [userId])) c.

(** The comment after the like at [likeIndex] is spliced out. *)
Definition unliked (likeIndex : nat) (c : Comment.t) : Comment.t :=
  Comment.with_likes (delete likeIndex (Comment.likes c))
    (length (delete likeIndex (Comment.likes c))) c.

(** [wf], as a check that runs. *)
Definition two_levelb (cs : list Comment.t) : bool :=
  forallb
    (λ c, match Comment.parentId c with
          | None => true
          | Some p =>
            forallb
              (λ c', negb (bool_decide (Comment._id c' = p))
                     || bool_decide (Comment.parentId c' = None))
              cs
          end)
    cs.

Definition wfb (cs : list Comment.t) : bool :=
  bool_decide (NoDup (Comment._id <$> cs))
  && two_levelb cs
  && forallb
       (λ c, bool_decide (NoDup (Comment.likes c))
             && Nat.eqb (Comment.likeCount c) (length (Comment.likes c)))
       cs.

(** Whether [userId] likes [c]: [isLiked] of the comment listing. *)
Definition isLiked (userId : ObjectId) (c : Comment.t) : bool :=
  existsb (λ like, bool_decide (like = userId)) (Comment.likes c).

(** [|C.likes|]: the number of distinct users in [likes]. *)
Definition cardinality (c : Comment.t) : nat :=
  size (list_to_set (Comment.likes c) : gset ObjectId).

End Threads.

(* ===================================================================== *)
(** ** Sample documents and requests *)
(* ===================================================================== *)

Module Sample.

Definition alice : ObjectId := "650000000000000000000a11".
Definition bob : ObjectId := "650000000000000000000b0b".
Definition carol : ObjectId := "650000000000000000000ca7".

Definition token (id : ObjectId) (role : Role.t) : Token.t :=
  {| Token.userId := id; Token.email := js "user@example.com";
     Token.role := role |}.

(** A user document with the given lists and the defaults of a new one. *)
Definition doc (name : string) (following followers : list ObjectId)
    : User.t :=
  User.with_followers followers
    (User.with_following following
       (User.create (js name) (js "user@example.com") (js "$2a$10$hash")
          Role.user None 1000)).

(** Alice and Bob, no relationship. *)
Definition strangers : gmap ObjectId User.t :=
  <[alice := doc "alice" [] []]> (<[bob := doc "bob" [] []]> ∅).

(** Alice follows Carol already; Bob is unrelated to both. *)
Definition alice_follows_carol : gmap ObjectId User.t :=
  <[alice := doc "alice" [carol] []]>
    (<[bob := doc "bob" [] []]>
       (<[carol := doc "carol" [] [alice]]> ∅)).

(** Bob's blog, Bob's comment on it, and Carol's reply to that comment. *)
Definition blog1 : ObjectId := "66000000000000000000b109".
Definition comment1 : ObjectId := "670000000000000000000c01".
Definition comment2 : ObjectId := "670000000000000000000c02".
Definition comment3 : ObjectId := "670000000000000000000c03".

Definition bobsBlog : Blog.t :=
  {| Blog.user := bob; Blog.title := js "开业第一天" |}.

Definition bobsComment : Comment.t :=
  Comment.create comment1 1500 (js "欢迎大家来逛") bob blog1
    None None None None.

Definition carolsReply : Comment.t :=
  Comment.create comment2 1600 (js "周末就去") carol blog1
    (Some comment1) (Some bob) (Some (js "carol")) (Some (js "bob")).

Definition everyone : gmap ObjectId User.t :=
  <[alice := doc "alice" [] []]>
    (<[bob := doc "bob" [] []]> (<[carol := doc "carol" [] []]> ∅)).

Definition db0 : Db :=
  {| users := everyone;
     blogs := <[blog1 := bobsBlog]> ∅;
     comments := [bobsComment; carolsReply];
     notifications := [] |}.

Definition env0 : Env :=
  {| now := 3000; newId := comment3; notificationStoreUp := true |}.

End Sample.

(* ===================================================================== *)
(** ** routes/follow: GET /status *)
(* ===================================================================== *)

Module FollowStatus.

(** [ctx.query] of GET /status. *)
Record Query := {
  userId : option ObjectId;
  followId : option ObjectId
}.

(** GET /api/follow/status *)
Definition getStatus (query : Query) (users : gmap ObjectId User.t)
    : Response bool :=
  match joiString idTruthy (joiRequired "userId") (joiEmpty "userId")
          (userId query) with
  | inl msg => reply 400 false msg
  | inr userId =>
    match joiString idTruthy (joiRequired "followId") (joiEmpty "followId")
            (followId query) with
    | inl msg => reply 400 false msg
    | inr followId =>
      (* 查找用户的关注列表 *)
      match User.findById userId users with
      | None => reply 400 false (js "用户不存在")
      | Some user =>
        (* 检查是否关注 *)
        let isFollowing := bool_decide (followId ∈ User.following user) in
        replyData 200 true None isFollowing
      end
    end
  end.

(** The query [{ userId, followId }]. *)
Definition ask (userId followId : ObjectId) : Query :=
  {| userId := Some userId; followId := Some followId |}.



(** Whether GET /me finds the stored counts of [doc] out of date. *)
Definition stale (doc : User.t) : bool :=
  negb (Nat.eqb (User.followersCount doc) (length (User.followers doc)))
  || negb (Nat.eqb (User.followingCount doc) (length (User.following doc))).


End FollowStatus.

(* ===================================================================== *)
(** ** What the comment routes accept *)
(* ===================================================================== *)

Module Moderation.

(** The two word lists together. *)
Definition bannedWords : list jsString :=
  ContentFilter.sensitiveWords ++ ContentFilter.politicalSensitiveWords.

(** A text that the comment routes let through: not blank, 1 to 1000 code
    units long, and without any of the listed words in it. *)
Definition clean (content : jsString) : Prop :=
  truthy (trim content) = true
  ∧ (1 ≤ strLength content ≤ 1000)%nat
  ∧ ∀ w, w ∈ bannedWords → includes content w = false.

(** The words that a check looks for: the base list, then in strict mode
    the political list. *)
Definition listed (strict : bool) : list jsString :=
  ContentFilter.sensitiveWords
  ++ (if strict then ContentFilter.politicalSensitiveWords else []).

(** [!content || content.trim().length === 0] *)
Definition blank (content : jsString) : bool :=
  negb (truthy content) || Nat.eqb (strLength (trim content)) 0.

(** The comments are all clean. *)
Definition all_clean (cs : list Comment.t) : Prop :=
  Forall (λ c, clean (Comment.content c)) cs.

(** Every reply has its top-level comment in the collection, on the same
    blog. *)
Definition anchored (cs : list Comment.t) : Prop :=
  ∀ c p, c ∈ cs → Comment.parentId c = Some p →
         ∃ top, top ∈ cs ∧ Comment._id top = p
                ∧ Comment.parentId top = None
                ∧ Comment.blog top = Comment.blog c.

(** Two comments that differ in [likes] and [likeCount] at most. *)
Definition same_but_likes (d d' : Comment.t) : Prop :=
  Comment.with_likes [] 0 d' = Comment.with_likes [] 0 d.

(** A store without comments and notifications. *)
Definition opening (users : gmap ObjectId User.t)
    (blogs : gmap ObjectId Blog.t) : Db :=
  {| users := users; blogs := blogs; comments := []; notifications := [] |}.

End Moderation.

(* ===================================================================== *)
(** * Properties *)
(* ===================================================================== *)

(** String literals stay folded in goals; evaluation still opens them. *)
Opaque js.

(* --------------------------------------------------------------------- *)
(** ** JavaScript strings *)
(* --------------------------------------------------------------------- *)

Section JsFacts.

Lemma startsWith_app (w q : jsString) : startsWith (w ++ q) w = true.
Proof.
  induction w as [|a w IH]; simpl; [done|].
  by rewrite N.eqb_refl, IH.
Qed.

Lemma startsWith_inv (s w : jsString) :
  startsWith s w = true → ∃ q, s = w ++ q.
Proof.
  revert s. induction w as [|a w IH]; intros s Hs; simpl in *.
  - by exists s.
  - destruct s as [|b s]; [done|].
    apply andb_prop in Hs as [Hab Hs]. apply N.eqb_eq in Hab as ->.
    destruct (IH _ Hs) as [q ->]. by exists q.
Qed.

Lemma includes_app (p w q : jsString) : includes (p ++ w ++ q) w = true.
Proof.
  induction p as [|a p IH].
  - pose proof (startsWith_app w q) as Hw. simpl.
    destruct (w ++ q); simpl; by rewrite Hw.
  - simpl. rewrite IH. apply orb_true_r.
Qed.

Lemma includes_inv (s w : jsString) :
  includes s w = true → ∃ p q, s = p ++ w ++ q.
Proof.
  induction s as [|a s IH]; simpl; intros Hs.
  - rewrite orb_false_r in Hs. apply startsWith_inv in Hs as [q ->].
    by exists [], q.
  - apply orb_prop in Hs as [Hs|Hs].
    + apply startsWith_inv in Hs as [q ->]. by exists [], q.
    + destruct (IH Hs) as (p & q & ->). by exists (a :: p), q.
Qed.

Lemma asciiLower_caseless (u : N) : caseless u = true → asciiLower u = u.
Proof.
  unfold asciiLower, caseless. intros Hu.
  destruct ((0x41 <=? u) && (u <=? 0x5A)) eqn:E; [|done].
  apply andb_prop in E as [E1 E2]. apply N.leb_le in E1, E2.
  apply orb_prop in Hu as [Hu|Hu]; apply andb_prop in Hu as [H1 H2];
    apply N.leb_le in H1, H2; lia.
Qed.

Lemma asciiLower_caseless_list (w : jsString) :
  forallb caseless w = true → asciiLower <$> w = w.
Proof.
  induction w as [|u w IH]; [done|]. rewrite fmap_cons. simpl.
  intros [Hu Hw]%andb_prop. by rewrite IH, asciiLower_caseless.
Qed.

Context `{JsRuntime}.

Lemma toLowerCase_caseless (w : jsString) :
  forallb caseless w = true → toLowerCase w = w.
Proof.
  intros Hw. rewrite toLowerCase_plain.
  - by apply asciiLower_caseless_list.
  - apply forallb_forall. intros u Hu.
    rewrite forallb_forall in Hw. rewrite (Hw u Hu). apply orb_true_r.
Qed.

Lemma toLowerCase_includes (text w : jsString) :
  forallb caseless w = true →
  includes text w = true → includes (toLowerCase text) w = true.
Proof.
  intros Hw (p & q & ->)%includes_inv.
  destruct (toLowerCase_keeps p w q Hw) as (p' & q' & ->).
  apply includes_app.
Qed.

End JsFacts.

(** The host whose case table stops at ASCII meets the interface. *)
#[local] Instance asciiRuntime : JsRuntime.
Proof.
  refine {| toLowerCase := asciiToLowerCase |}.
  - reflexivity.
  - intros p w q Hw. exists (asciiToLowerCase p), (asciiToLowerCase q).
    unfold asciiToLowerCase. rewrite !fmap_app.
    by rewrite (asciiLower_caseless_list w Hw).
Defined.

(* --------------------------------------------------------------------- *)
(** ** The content filter *)
(* --------------------------------------------------------------------- *)

Section ContentFilterFacts.
Import ContentFilter.
Context `{JsRuntime}.

Lemma scanWords_filter (textLower : jsString) (words found : list jsString) :
  scanWords textLower words found
  = found ++ List.filter (λ w, includes textLower (toLowerCase w)) words.
Proof.
  unfold scanWords. revert found.
  induction words as [|w words IH]; intros found; simpl.
  - by rewrite app_nil_r.
  - rewrite IH. destruct (includes textLower (toLowerCase w)); [|done].
    by rewrite <- app_assoc.
Qed.

Lemma scanWords_caseless (textLower : jsString)
    (words found : list jsString) :
  forallb (forallb caseless) words = true →
  scanWords textLower words found
  = found ++ List.filter (includes textLower) words.
Proof.
  intros Hwords. rewrite scanWords_filter. f_equal.
  apply List.filter_ext_in. intros w Hw.
  rewrite forallb_forall in Hwords.
  by rewrite toLowerCase_caseless by by apply Hwords.
Qed.

Lemma sensitiveWords_caseless :
  forallb (forallb caseless) sensitiveWords = true.
Proof. vm_compute. reflexivity. Qed.

Lemma politicalSensitiveWords_caseless :
  forallb (forallb caseless) politicalSensitiveWords = true.
Proof. vm_compute. reflexivity. Qed.

(** The words that a check of a non-empty text reports: the base list, then
    in strict mode the political list, each filtered by occurrence in the
    lowered text. *)
Definition found_in (textLower : jsString) (strict : bool)
    : list jsString :=
  List.filter (includes textLower) sensitiveWords
  ++ (if strict
      then List.filter (includes textLower) politicalSensitiveWords
      else []).

Lemma checkSensitiveContent_eq (text : jsString) (strictMode : option bool) :
  truthy text = true →
  checkSensitiveContent text strictMode
  = let found := found_in (toLowerCase text) (default true strictMode) in
    {| isValid := Nat.eqb (length found) 0;
       foundWords := found;
       message := if Nat.eqb (length found) 0 then []
                  else js "内容包含不当词汇: " ++ join (js ", ") found |}.
Proof.
  intros Htext. unfold checkSensitiveContent, found_in. rewrite Htext.
  cbv beta iota zeta delta [negb].
  rewrite (scanWords_caseless _ _ _ sensitiveWords_caseless).
  destruct (default true strictMode).
  - by rewrite (scanWords_caseless _ _ _ politicalSensitiveWords_caseless).
  - by rewrite app_nil_r.
Qed.

Lemma checkSensitiveContent_found (text : jsString)
    (strictMode : option bool) :
  truthy text = true →
  foundWords (checkSensitiveContent text strictMode)
  = found_in (toLowerCase text) (default true strictMode).
Proof. intros Htext. by rewrite checkSensitiveContent_eq. Qed.

Lemma checkSensitiveContent_isValid (text : jsString)
    (strictMode : option bool) :
  isValid (checkSensitiveContent text strictMode)
  = Nat.eqb (length (foundWords (checkSensitiveContent text strictMode))) 0.
Proof.
  unfold checkSensitiveContent. by destruct (negb (truthy text)).
Qed.

Lemma includes_truthy (text w : jsString) :
  truthy w = true → includes text w = true → truthy text = true.
Proof. destruct text, w; simpl; done. Qed.

End ContentFilterFacts.

(** C9. [checkSensitiveContent] is a function of its two arguments that
    matches substrings of the lowered text against the lowered base list
    and, when [strictMode] is true or left out, the political list:
    the text "this is clean text" is valid with no word found; a text
    that contains "杀死" is invalid under the default strict mode and
    "杀死" is among the words found; in general the words found in a
    non-empty text are exactly the listed words that the lowered text
    includes, and the text is valid exactly when none is found. *)
Theorem check_sensitive_content `{JsRuntime} :
  ContentFilter.checkSensitiveContent (js "this is clean text") None
    = {| ContentFilter.isValid := true; ContentFilter.foundWords := [];
         ContentFilter.message := [] |}
  ∧ (∀ text : jsString,
       includes text (js "杀死") = true →
       ContentFilter.isValid
         (ContentFilter.checkSensitiveContent text None) = false
       ∧ js "杀死" ∈ ContentFilter.foundWords
                       (ContentFilter.checkSensitiveContent text None))
  ∧ (∀ (text : jsString) (strictMode : option bool) (w : jsString),
       truthy text = true →
       w ∈ ContentFilter.foundWords
             (ContentFilter.checkSensitiveContent text strictMode)
       ↔ (w ∈ ContentFilter.sensitiveWords
          ∨ default true strictMode = true
            ∧ w ∈ ContentFilter.politicalSensitiveWords)
         ∧ includes (toLowerCase text) (toLowerCase w) = true)
  ∧ (∀ (text : jsString) (strictMode : option bool),
       ContentFilter.isValid
         (ContentFilter.checkSensitiveContent text strictMode) = true
       ↔ ContentFilter.foundWords
           (ContentFilter.checkSensitiveContent text strictMode) = []).
Proof.
  split; [|split; [|split]].
  - rewrite checkSensitiveContent_eq by (vm_compute; reflexivity).
    rewrite toLowerCase_plain by (vm_compute; reflexivity).
    vm_compute. reflexivity.
  - intros text Htext.
    assert (truthy text = true) as Htruthy.
    { eapply includes_truthy; [|exact Htext]. vm_compute. reflexivity. }
    rewrite checkSensitiveContent_isValid, checkSensitiveContent_found
      by done.
    assert (js "杀死" ∈ found_in (toLowerCase text) (default true None))
      as Hin.
    { unfold found_in. apply elem_of_app. left.
      apply list_elem_of_In, List.filter_In. split.
      - apply list_elem_of_In. unfold ContentFilter.sensitiveWords.
        rewrite fmap_cons. apply list_elem_of_here.
      - apply toLowerCase_includes; [vm_compute; reflexivity|done]. }
    split; [|done].
    destruct (found_in _ _); [by apply elem_of_nil in Hin|done].
  - intros text strictMode w Htruthy.
    rewrite checkSensitiveContent_found by done. unfold found_in.
    rewrite elem_of_app, !list_elem_of_In.
    pose proof sensitiveWords_caseless as Hbase.
    pose proof politicalSensitiveWords_caseless as Hpol.
    rewrite forallb_forall in Hbase, Hpol.
    split.
    + intros [Hw|Hw].
      * apply List.filter_In in Hw as [Hw Hinc]. split; [by left|].
        by rewrite (toLowerCase_caseless w) by by apply Hbase.
      * destruct (default true strictMode); [|done].
        apply List.filter_In in Hw as [Hw Hinc]. split; [by right|].
        by rewrite (toLowerCase_caseless w) by by apply Hpol.
    + intros [[Hw|[Hs Hw]] Hinc].
      * left. apply List.filter_In. split; [done|].
        by rewrite (toLowerCase_caseless w) in Hinc by by apply Hbase.
      * right. rewrite Hs. apply List.filter_In. split; [done|].
        by rewrite (toLowerCase_caseless w) in Hinc by by apply Hpol.
  - intros text strictMode. rewrite checkSensitiveContent_isValid.
    destruct (ContentFilter.foundWords _); [done|]. split; discriminate.
Qed.

Lemma check_sensitive_content_witness :
  includes (js "他扬言要杀死对方") (js "杀死") = true
  ∧ ContentFilter.isValid
      (ContentFilter.checkSensitiveContent (js "他扬言要杀死对方") None)
    = false
  ∧ js "杀死" ∈ ContentFilter.foundWords
                  (ContentFilter.checkSensitiveContent
                     (js "他扬言要杀死对方") None).
Proof.
  split; [vm_compute; reflexivity|].
  apply (proj1 (proj2 (@check_sensitive_content asciiRuntime))).
  vm_compute. reflexivity.
Defined.

(* --------------------------------------------------------------------- *)
(** ** The follow routes *)
(* --------------------------------------------------------------------- *)

Section FollowFacts.
Import FollowRoutes AuthRoutes Social.
Implicit Types (users : gmap ObjectId User.t) (user : Token.t).
Implicit Types (A B k : ObjectId) (u : User.t) (now : Date).

Lemma idTruthy_ne B : B ≠ EmptyString ↔ idTruthy B = true.
Proof. destruct B; simpl; split; congruence. Qed.

Lemma validate_request B : B ≠ EmptyString → validate (request B) = inr B.
Proof.
  intros HB%idTruthy_ne. unfold validate, joiString, request. simpl.
  by rewrite HB.
Qed.

Lemma validate_inr body B :
  validate body = inr B → body = request B ∧ B ≠ EmptyString.
Proof.
  destruct body as [[b|]]; unfold validate, joiString; simpl; [|done].
  destruct (idTruthy b) eqn:Hb; [|done].
  intros [= ->]. split; [done|]. by apply idTruthy_ne.
Qed.

Lemma follow_ok user B now users ua ub :
  Token.userId user ≠ B → B ≠ EmptyString →
  users !! Token.userId user = Some ua → users !! B = Some ub →
  B ∉ User.following ua →
  follow user (request B) now users
  = (reply 200 true (js "关注成功"), followed (Token.userId user) B now users).
Proof.
  intros HAB HB HA HBdoc Hnot. unfold follow.
  rewrite validate_request by done. unfold User.findById.
  rewrite bool_decide_eq_false_2 by done.
  rewrite HBdoc, HA. simpl.
  by rewrite bool_decide_eq_false_2 by done.
Qed.

Lemma follow_inv user body now users resp users' :
  follow user body now users = (resp, users') → status resp = 200%nat →
  ∃ B ua ub,
    body = request B ∧ Token.userId user ≠ B ∧ B ≠ EmptyString
    ∧ users !! Token.userId user = Some ua ∧ users !! B = Some ub
    ∧ (B ∉ User.following ua)
    ∧ resp = reply 200 true (js "关注成功")
    ∧ users' = followed (Token.userId user) B now users.
Proof.
  unfold follow. destruct (validate body) as [msg|B] eqn:Hbody; simpl.
  { by intros [= <- <-]. }
  apply validate_inr in Hbody as [-> HB].
  case_bool_decide as HAB; simpl; [by intros [= <- <-]|].
  unfold User.findById.
  destruct (users !! B) as [ub|] eqn:HBdoc; simpl; [|by intros [= <- <-]].
  destruct (users !! Token.userId user) as [ua|] eqn:HA; simpl;
    [|by intros [= <- <-]].
  case_bool_decide as Hin; simpl; [by intros [= <- <-]|].
  intros [= <- <-] _. exists B, ua, ub. repeat split; try done.
Qed.

Lemma unfollow_ok user B now users ua ub :
  B ≠ EmptyString →
  users !! Token.userId user = Some ua → users !! B = Some ub →
  B ∈ User.following ua →
  unfollow user (request B) now users
  = (reply 200 true (js "取消关注成功"),
     unfollowed (Token.userId user) B now users).
Proof.
  intros HB HA HBdoc Hin. unfold unfollow.
  rewrite validate_request by done. unfold User.findById.
  rewrite HBdoc, HA. simpl.
  by rewrite bool_decide_eq_true_2 by done.
Qed.

Lemma followed_actor A B now users ua :
  A ≠ B → users !! A = Some ua →
  followed A B now users !! A
  = Some (User.with_updatedAt now
            (User.with_following (User.following ua ++ [B]) ua)).
Proof.
  intros HAB HA. unfold followed, User.findByIdAndUpdate.
  rewrite lookup_alter_ne by done. by rewrite lookup_alter_eq, HA.
Qed.

Lemma followed_target A B now users ub :
  A ≠ B → users !! B = Some ub →
  followed A B now users !! B
  = Some (User.with_updatedAt now
            (User.with_followers (User.followers ub ++ [A]) ub)).
Proof.
  intros HAB HB. unfold followed, User.findByIdAndUpdate.
  rewrite lookup_alter_eq. rewrite lookup_alter_ne by done. by rewrite HB.
Qed.

Lemma followed_other A B now users k :
  k ≠ A → k ≠ B → followed A B now users !! k = users !! k.
Proof.
  intros HA HB. unfold followed, User.findByIdAndUpdate.
  by rewrite !lookup_alter_ne by done.
Qed.

End FollowFacts.

(** Closed decidable facts about sample data are settled by evaluation. *)
Ltac by_evaluation :=
  match goal with
  | |- ?P =>
    let d := constr:(_ : Decision P) in
    apply (@bool_decide_unpack P d); vm_compute; exact I
  end.

Section FollowClaims.
Import FollowRoutes AuthRoutes Social.
Implicit Types (users : gmap ObjectId User.t) (user : Token.t).
Implicit Types (A B k : ObjectId) (u : User.t) (now : Date).

Lemma follow_twice user B now users ua :
  B ≠ EmptyString → Token.userId user ≠ B →
  users !! Token.userId user = Some ua → is_Some (users !! B) →
  B ∈ User.following ua →
  follow user (request B) now users
  = (reply 400 false (js "已经关注该用户"), users).
Proof.
  intros HB HAB HA [ub HBdoc] Hin. unfold follow.
  rewrite validate_request by done. unfold User.findById.
  rewrite bool_decide_eq_false_2 by done.
  rewrite HBdoc, HA. simpl.
  by rewrite bool_decide_eq_true_2 by done.
Qed.

Lemma followed_is_Some A B now users k :
  is_Some (followed A B now users !! k) ↔ is_Some (users !! k).
Proof.
  unfold followed, User.findByIdAndUpdate.
  rewrite !lookup_alter. repeat case_decide; subst;
    rewrite ?fmap_is_Some, ?lookup_alter_eq, ?fmap_is_Some; done.
Qed.

Lemma length_populate (l : list ObjectId) users users' :
  (∀ k, is_Some (users' !! k) ↔ is_Some (users !! k)) →
  length (User.populate l users') = length (User.populate l users).
Proof.
  intros Hdom. unfold User.populate.
  induction l as [|k l IH]; [done|]. simpl.
  specialize (Hdom k).
  destruct (users' !! k) as [u'|], (users !! k) as [u|]; simpl.
  - f_equal. exact IH.
  - destruct Hdom as [Hdom _]. by destruct Hdom; [eexists|].
  - destruct Hdom as [_ Hdom]. by destruct Hdom; [eexists|].
  - exact IH.
Qed.

Lemma length_populate_snoc (l : list ObjectId) k users :
  is_Some (users !! k) →
  length (User.populate (l ++ [k]) users) = S (length (User.populate l users)).
Proof.
  intros [u Hk]. unfold User.populate.
  rewrite omap_app, length_app. simpl. rewrite Hk. simpl. lia.
Qed.

Lemma reportedFollowing_eq user users u :
  Token.userId user ≠ EmptyString →
  users !! Token.userId user = Some u →
  reportedFollowing user users
  = Some (length (User.populate (User.following u) users)).
Proof.
  intros HA%idTruthy_ne Hu. unfold reportedFollowing, info, User.findById.
  by rewrite HA, Hu.
Qed.

Lemma reportedFollowers_eq user users u :
  Token.userId user ≠ EmptyString →
  users !! Token.userId user = Some u →
  reportedFollowers user users
  = Some (length (User.populate (User.followers u) users)).
Proof.
  intros HA%idTruthy_ne Hu. unfold reportedFollowers, info, User.findById.
  by rewrite HA, Hu.
Qed.

(** C1. For distinct users A and B, both with a document, where B is not
    in the following list of A: Follow(A,B) answers 200, and in the state
    it leaves B is a member of [A.following] and A is a member of
    [B.followers]; each list is the old one with the new id appended. *)
Theorem follow_updates_both_lists user B now users ua ub :
  Token.userId user ≠ B → B ≠ EmptyString →
  users !! Token.userId user = Some ua → users !! B = Some ub →
  B ∉ User.following ua →
  ∃ users' ua' ub',
    follow user (request B) now users
      = (reply 200 true (js "关注成功"), users')
    ∧ users' !! Token.userId user = Some ua'
    ∧ users' !! B = Some ub'
    ∧ B ∈ User.following ua'
    ∧ Token.userId user ∈ User.followers ub'
    ∧ User.following ua' = User.following ua ++ [B]
    ∧ User.followers ub' = User.followers ub ++ [Token.userId user].
Proof.
  intros HAB HB HA HBdoc Hnot.
  eexists _, _, _. split; [by eapply follow_ok|].
  split; [by apply followed_actor|].
  split; [by apply followed_target|].
  simpl. rewrite !elem_of_app, !list_elem_of_singleton. auto.
Qed.

Lemma follow_updates_both_lists_witness :
  ∃ users' ua' ub',
    follow (Sample.token Sample.alice Role.user) (request Sample.bob) 2000
      Sample.strangers
      = (reply 200 true (js "关注成功"), users')
    ∧ users' !! Sample.alice = Some ua'
    ∧ users' !! Sample.bob = Some ub'
    ∧ Sample.bob ∈ User.following ua'
    ∧ Sample.alice ∈ User.followers ub'
    ∧ User.following ua' = [] ++ [Sample.bob]
    ∧ User.followers ub' = [] ++ [Sample.alice].
Proof.
  apply (follow_updates_both_lists (Sample.token Sample.alice Role.user)
           Sample.bob 2000 Sample.strangers
           (Sample.doc "alice" [] []) (Sample.doc "bob" [] [])).
  - discriminate.
  - discriminate.
  - reflexivity.
  - reflexivity.
  - apply not_elem_of_nil.
Defined.


(** C2, as stated, fails: Alice follows Carol and has no relation to Bob;
    her Follow of Bob answers 200, and GET /info then reports a
    [followingCount] of 2, not 1. *)
Lemma follow_count_counterexample :
  (Sample.bob ∉ User.following (Sample.doc "alice" [Sample.carol] []))
  ∧ (Sample.bob ∉ User.followers (Sample.doc "alice" [Sample.carol] []))
  ∧ (Sample.alice ∉ User.following (Sample.doc "bob" [] []))
  ∧ (Sample.alice ∉ User.followers (Sample.doc "bob" [] []))
  ∧ status (follow (Sample.token Sample.alice Role.user)
              (request Sample.bob) 2000 Sample.alice_follows_carol).1
    = 200%nat
  ∧ reportedFollowing (Sample.token Sample.alice Role.user)
      (follow (Sample.token Sample.alice Role.user) (request Sample.bob)
         2000 Sample.alice_follows_carol).2
    = Some 2%nat
  ∧ reportedFollowing (Sample.token Sample.alice Role.user)
      (follow (Sample.token Sample.alice Role.user) (request Sample.bob)
         2000 Sample.alice_follows_carol).2
    ≠ Some 1%nat.
Proof.
  do 4 (split; [by_evaluation|]).
  split; [vm_compute; reflexivity|].
  assert (reportedFollowing (Sample.token Sample.alice Role.user)
            (follow (Sample.token Sample.alice Role.user)
               (request Sample.bob) 2000 Sample.alice_follows_carol).2
          = Some 2%nat) as Hcount by (vm_compute; reflexivity).
  split; [exact Hcount|]. rewrite Hcount. discriminate.
Qed.

(** C2, amended. For distinct users U1 and U2 where U2 is not in the
    following list of U1, the first Follow(U1,U2) answers 200, and the
    [followingCount] that GET /info reports to U1 and the [followersCount]
    that it reports to U2 are each one more than before: 1 and 1 when U1
    followed nobody and U2 had no follower. A second Follow(U1,U2) answers
    400 "已经关注该用户" and leaves the state as it is. *)
Theorem follow_counts user userB now users ua ub :
  Token.userId user ≠ Token.userId userB →
  Token.userId user ≠ EmptyString → Token.userId userB ≠ EmptyString →
  users !! Token.userId user = Some ua →
  users !! Token.userId userB = Some ub →
  Token.userId userB ∉ User.following ua →
  ∃ users' n m,
    follow user (request (Token.userId userB)) now users
      = (reply 200 true (js "关注成功"), users')
    ∧ reportedFollowing user users = Some n
    ∧ reportedFollowing user users' = Some (S n)
    ∧ reportedFollowers userB users = Some m
    ∧ reportedFollowers userB users' = Some (S m)
    ∧ (User.following ua = [] → n = 0%nat)
    ∧ (User.followers ub = [] → m = 0%nat)
    ∧ ∀ now',
        follow user (request (Token.userId userB)) now' users'
        = (reply 400 false (js "已经关注该用户"), users').
Proof.
  intros HAB HA HB HAdoc HBdoc Hnot.
  set (A := Token.userId user) in *. set (B := Token.userId userB) in *.
  exists (followed A B now users),
    (length (User.populate (User.following ua) users)),
    (length (User.populate (User.followers ub) users)).
  pose proof (followed_actor A B now users ua HAB HAdoc) as HA'.
  pose proof (followed_target A B now users ub HAB HBdoc) as HB'.
  split; [by eapply follow_ok|].
  split; [by apply reportedFollowing_eq|].
  split.
  { rewrite (reportedFollowing_eq _ _ _ HA HA'). simpl.
    rewrite length_populate_snoc
      by (apply followed_is_Some; by rewrite HBdoc).
    by rewrite (length_populate _ users) by apply followed_is_Some. }
  split; [by apply reportedFollowers_eq|].
  split.
  { rewrite (reportedFollowers_eq _ _ _ HB HB'). simpl.
    rewrite length_populate_snoc
      by (apply followed_is_Some; by rewrite HAdoc).
    by rewrite (length_populate _ users) by apply followed_is_Some. }
  split; [by intros ->|]. split; [by intros ->|].
  intros now'. eapply follow_twice; [done|done|exact HA'| |].
  - by rewrite HB'.
  - simpl. apply elem_of_app. right. by apply list_elem_of_singleton.
Qed.

Lemma follow_counts_witness :
  ∃ users' n m,
    follow (Sample.token Sample.alice Role.user) (request Sample.bob) 2000
      Sample.strangers
      = (reply 200 true (js "关注成功"), users')
    ∧ reportedFollowing (Sample.token Sample.alice Role.user)
        Sample.strangers = Some n
    ∧ reportedFollowing (Sample.token Sample.alice Role.user) users'
      = Some (S n)
    ∧ reportedFollowers (Sample.token Sample.bob Role.user)
        Sample.strangers = Some m
    ∧ reportedFollowers (Sample.token Sample.bob Role.user) users'
      = Some (S m)
    ∧ (User.following (Sample.doc "alice" [] []) = [] → n = 0%nat)
    ∧ (User.followers (Sample.doc "bob" [] []) = [] → m = 0%nat)
    ∧ ∀ now',
        follow (Sample.token Sample.alice Role.user) (request Sample.bob)
          now' users'
        = (reply 400 false (js "已经关注该用户"), users').
Proof.
  apply (follow_counts (Sample.token Sample.alice Role.user)
           (Sample.token Sample.bob Role.user) 2000 Sample.strangers
           (Sample.doc "alice" [] []) (Sample.doc "bob" [] [])).
  - discriminate.
  - discriminate.
  - discriminate.
  - reflexivity.
  - reflexivity.
  - apply not_elem_of_nil.
Defined.

Lemma pull_snoc (x : ObjectId) (l : list ObjectId) :
  x ∉ l → User.pull x (l ++ [x]) = l.
Proof.
  intros Hx. unfold User.pull. rewrite filter_app.
  rewrite filter_cons_False, filter_nil, app_nil_r by (intros Hne; done).
  induction l as [|y l IH]; [done|].
  apply not_elem_of_cons in Hx as [Hxy Hx].
  rewrite filter_cons_True by done. by rewrite IH.
Qed.

Lemma symmetricb_sound users : symmetricb users = true → symmetric users.
Proof.
  unfold symmetricb. rewrite forallb_forall.
  intros Hall a b ua ub Ha Hb Hin.
  specialize (Hall (b, ub)). simpl in Hall.
  rewrite forallb_forall in Hall.
  assert (In (b, ub) (map_to_list users)) as Hentry.
  { apply list_elem_of_In. by apply elem_of_map_to_list. }
  specialize (Hall Hentry a). rewrite Ha in Hall.
  eapply bool_decide_eq_true_1, Hall. by apply list_elem_of_In.
Qed.

Lemma unfollowed_followed A B now now' users ua ub :
  A ≠ B → users !! A = Some ua → users !! B = Some ub →
  B ∉ User.following ua → A ∉ User.followers ub →
  ∀ k, relationship k (unfollowed A B now' (followed A B now users))
       = relationship k users.
Proof.
  intros HAB HA HB HnotA HnotB k.
  unfold relationship, unfollowed, followed, User.findByIdAndUpdate.
  destruct (decide (k = B)) as [->|HkB].
  - rewrite lookup_alter_eq, lookup_alter_ne by done.
    rewrite lookup_alter_eq, lookup_alter_ne by done.
    rewrite HB. simpl. by rewrite pull_snoc.
  - rewrite lookup_alter_ne by done.
    destruct (decide (k = A)) as [->|HkA].
    + rewrite lookup_alter_eq, lookup_alter_ne by done.
      rewrite lookup_alter_eq, HA. simpl. by rewrite pull_snoc.
    + by rewrite !lookup_alter_ne by done.
Qed.

(** C8. In a state where the follower lists mirror the following lists,
    a Follow(A,B) that answers 200 and then Unfollow(A,B): the unfollow
    answers 200 too, and the following and followers lists of every user,
    A and B among them, are what they were before the follow. *)
Theorem follow_unfollow_round_trip user body now now' users r1 users1 :
  symmetric users →
  follow user body now users = (r1, users1) → status r1 = 200%nat →
  ∃ users2,
    unfollow user body now' users1
      = (reply 200 true (js "取消关注成功"), users2)
    ∧ ∀ k, relationship k users2 = relationship k users.
Proof.
  intros Hsym Hfollow Hok.
  destruct (follow_inv _ _ _ _ _ _ Hfollow Hok)
    as (B & ua & ub & -> & HAB & HB & HA & HBdoc & Hnot & -> & ->).
  set (A := Token.userId user) in *.
  pose proof (followed_actor A B now users ua HAB HA) as HA1.
  pose proof (followed_target A B now users ub HAB HBdoc) as HB1.
  exists (unfollowed A B now' (followed A B now users)). split.
  - eapply unfollow_ok; [done|exact HA1|exact HB1|].
    simpl. apply elem_of_app. right. by apply list_elem_of_singleton.
  - eapply unfollowed_followed; [done..|].
    intros Hin. apply Hnot. by eapply Hsym.
Qed.

Lemma follow_unfollow_round_trip_witness :
  ∃ users2,
    unfollow (Sample.token Sample.alice Role.user) (request Sample.bob) 3000
      (follow (Sample.token Sample.alice Role.user) (request Sample.bob)
         2000 Sample.alice_follows_carol).2
      = (reply 200 true (js "取消关注成功"), users2)
    ∧ ∀ k, relationship k users2
           = relationship k Sample.alice_follows_carol.
Proof.
  apply (follow_unfollow_round_trip (Sample.token Sample.alice Role.user)
           (request Sample.bob) 2000 3000 Sample.alice_follows_carol
           (follow (Sample.token Sample.alice Role.user)
              (request Sample.bob) 2000 Sample.alice_follows_carol).1).
  - apply symmetricb_sound. vm_compute. reflexivity.
  - apply surjective_pairing.
  - vm_compute. reflexivity.
Defined.

(** *** What the writes of the routes do to each document *)

Lemma lookup_findByIdAndUpdate i upd now users k :
  User.findByIdAndUpdate i upd now users !! k
  = (λ u, if decide (k = i)
          then User.with_updatedAt now (User.apply upd u) else u)
      <$> users !! k.
Proof.
  unfold User.findByIdAndUpdate. rewrite lookup_alter.
  destruct (decide (i = k)) as [->|Hne];
    destruct (users !! k) as [u|]; simpl; try done.
  - by rewrite decide_True.
  - by rewrite decide_False.
Qed.

Lemma frame_refl u : frame u u.
Proof. by repeat split. Qed.

Lemma frame_update upd now u :
  match upd with User.set_counts _ _ => False | _ => True end →
  frame u (User.with_updatedAt now (User.apply upd u)).
Proof. destruct upd; simpl; [by repeat split..|done]. Qed.

Lemma frame_trans u1 u2 u3 : frame u1 u2 → frame u2 u3 → frame u1 u3.
Proof.
  unfold frame. intros H12 H23.
  destruct H12 as (?&?&?&?&?&?&?&?&?&?), H23 as (?&?&?&?&?&?&?&?&?&?).
  repeat split; congruence.
Qed.

Lemma followed_lookup A B now users k :
  A ≠ B →
  option_Forall2
    (λ u u',
       frame u u'
       ∧ User.following u'
         = (if decide (k = A) then User.following u ++ [B]
            else User.following u)
       ∧ User.followers u'
         = (if decide (k = B) then User.followers u ++ [A]
            else User.followers u)
       ∧ (k ≠ A → k ≠ B → u' = u))
    (users !! k) (followed A B now users !! k).
Proof.
  intros HAB. unfold followed. rewrite !lookup_findByIdAndUpdate.
  destruct (users !! k) as [u|]; simpl; constructor.
  destruct (decide (k = B)) as [HkB|HkB], (decide (k = A)) as [HkA|HkA];
    simpl; repeat split; (done || congruence).
Qed.

Lemma unfollowed_lookup A B now users k :
  option_Forall2
    (λ u u',
       frame u u'
       ∧ User.following u'
         = (if decide (k = A) then User.pull B (User.following u)
            else User.following u)
       ∧ User.followers u'
         = (if decide (k = B) then User.pull A (User.followers u)
            else User.followers u)
       ∧ (k ≠ A → k ≠ B → u' = u))
    (users !! k) (unfollowed A B now users !! k).
Proof.
  unfold unfollowed. rewrite !lookup_findByIdAndUpdate.
  destruct (users !! k) as [u|]; simpl; constructor.
  destruct (decide (k = B)) as [HkB|HkB], (decide (k = A)) as [HkA|HkA];
    simpl; repeat split; (done || congruence).
Qed.

Lemma unfollow_inv user body now users resp users' :
  unfollow user body now users = (resp, users') → status resp = 200%nat →
  ∃ B ua ub,
    body = request B ∧ B ≠ EmptyString
    ∧ users !! Token.userId user = Some ua ∧ users !! B = Some ub
    ∧ B ∈ User.following ua
    ∧ resp = reply 200 true (js "取消关注成功")
    ∧ users' = unfollowed (Token.userId user) B now users.
Proof.
  unfold unfollow. destruct (validate body) as [msg|B] eqn:Hbody; simpl.
  { by intros [= <- <-]. }
  apply validate_inr in Hbody as [-> HB].
  unfold User.findById.
  destruct (users !! B) as [ub|] eqn:HBdoc; simpl; [|by intros [= <- <-]].
  destruct (users !! Token.userId user) as [ua|] eqn:HA; simpl;
    [|by intros [= <- <-]].
  case_bool_decide as Hin; simpl; [|by intros [= <- <-]].
  intros [= <- <-] _. exists B, ua, ub. repeat split; done.
Qed.

Lemma follow_state user body now users :
  (follow user body now users).2 = users
  ∨ status (follow user body now users).1 = 200%nat.
Proof.
  unfold follow. destruct (validate body) as [msg|B]; simpl; [by left|].
  case_bool_decide; simpl; [by left|].
  destruct (User.findById B users); simpl; [|by left].
  destruct (User.findById (Token.userId user) users); simpl; [|by left].
  case_bool_decide; simpl; [by left|by right].
Qed.

Lemma unfollow_state user body now users :
  (unfollow user body now users).2 = users
  ∨ status (unfollow user body now users).1 = 200%nat.
Proof.
  unfold unfollow. destruct (validate body) as [msg|B]; simpl; [by left|].
  destruct (User.findById B users); simpl; [|by left].
  destruct (User.findById (Token.userId user) users); simpl; [|by left].
  case_bool_decide; simpl; [by right|by left].
Qed.

Lemma me_lookup authorization now users k :
  option_Forall2
    (λ u u',
       User.following u' = User.following u
       ∧ User.followers u' = User.followers u
       ∧ (u' = u
          ∨ User.followersCount u' = length (User.followers u)
            ∧ User.followingCount u' = length (User.following u)))
    (users !! k) ((me authorization now users).2 !! k).
Proof.
  assert (∀ o : option User.t,
            option_Forall2
              (λ u u', User.following u' = User.following u
                       ∧ User.followers u' = User.followers u
                       ∧ (u' = u
                          ∨ User.followersCount u' = length (User.followers u)
                            ∧ User.followingCount u'
                              = length (User.following u))) o o) as Hrefl.
  { intros [u|]; constructor. auto. }
  unfold me. destruct authorization as [|[decoded|]]; simpl; [done| |done].
  unfold User.findById.
  destruct (users !! Token.userId decoded) as [doc|] eqn:Hdoc; simpl;
    [|done].
  destruct (_ || _); simpl; [|done].
  rewrite lookup_findByIdAndUpdate.
  destruct (decide (k = Token.userId decoded)) as [->|Hk].
  - rewrite Hdoc. simpl. constructor. simpl. auto.
  - destruct (users !! k); constructor. auto.
Qed.

(** *** The symmetry of the two lists is an invariant *)



Lemma elem_of_pull (x y : ObjectId) (l : list ObjectId) :
  y ∈ User.pull x l ↔ y ≠ x ∧ y ∈ l.
Proof. unfold User.pull. by rewrite list_elem_of_filter. Qed.



(** C10, as stated, fails twice. The stored counts are written: Alice
    follows Carol with a stored [followingCount] of 0, and her GET /me
    stores 1. And a follow touches a third field: it stamps [updatedAt] of
    the actor's document. *)
Lemma follow_frame_counterexample :
  (∃ u u',
     Sample.alice_follows_carol !! Sample.alice = Some u
     ∧ (me (bearer (Some (Sample.token Sample.alice Role.user))) 2000
          Sample.alice_follows_carol).2 !! Sample.alice = Some u'
     ∧ User.followingCount u = 0%nat
     ∧ User.followingCount u' = 1%nat)
  ∧ (∃ u u',
       Sample.strangers !! Sample.alice = Some u
       ∧ (follow (Sample.token Sample.alice Role.user) (request Sample.bob)
            2000 Sample.strangers).2 !! Sample.alice = Some u'
       ∧ User.updatedAt u = 1000
       ∧ User.updatedAt u' = 2000).
Proof.
  split; eexists _, _; (split; [vm_compute; reflexivity|]);
    (split; [vm_compute; reflexivity|]); split; reflexivity.
Qed.

(** C10, amended. Follow and Unfollow change at most the following list
    of the actor, the followers list of the target and the [updatedAt]
    stamp of these two documents: every other field of every document,
    the stored [followingCount] and [followersCount] among them, is as it
    was, and no document comes or goes. The stored counts are written by
    GET /me, which sets them to the lengths of the two lists and changes
    neither list. *)
Theorem follow_unfollow_frame user body now users :
  only_lists_change (Token.userId user) (userId body) users
    (follow user body now users).2
  ∧ only_lists_change (Token.userId user) (userId body) users
      (unfollow user body now users).2
  ∧ ∀ authorization,
      only_counts_change users (me authorization now users).2.
Proof.
  assert (∀ A (target : option ObjectId),
            only_lists_change A target users users) as Hrefl.
  { intros A target k. destruct (users !! k); constructor.
    split; [apply frame_refl|done]. }
  split; [|split].
  - destruct (follow_state user body now users) as [->|Hok]; [done|].
    destruct (follow_inv user body now users _ _ (surjective_pairing _) Hok)
      as (B & ? & ? & -> & HAB & _ & _ & _ & _ & _ & ->).
    intros k. pose proof (followed_lookup (Token.userId user) B now users k HAB)
      as Hk.
    destruct Hk as [u u' (Hframe & Hf1 & Hf2 & Hsame)|]; constructor.
    split; [done|]. split; [|split; [|]].
    + intros Hne. by rewrite Hf1, decide_False.
    + intros Hne. rewrite Hf2, decide_False; [done|]. simpl in Hne. congruence.
    + intros H1 H2. apply Hsame; [done|]. simpl in H2. congruence.
  - destruct (unfollow_state user body now users) as [->|Hok]; [done|].
    destruct (unfollow_inv user body now users _ _ (surjective_pairing _) Hok)
      as (B & ? & ? & -> & _ & _ & _ & _ & _ & ->).
    intros k. pose proof (unfollowed_lookup (Token.userId user) B now users k)
      as Hk.
    destruct Hk as [u u' (Hframe & Hf1 & Hf2 & Hsame)|]; constructor.
    split; [done|]. split; [|split; [|]].
    + intros Hne. by rewrite Hf1, decide_False.
    + intros Hne. rewrite Hf2, decide_False; [done|]. simpl in Hne. congruence.
    + intros H1 H2. apply Hsame; [done|]. simpl in H2. congruence.
  - intros authorization k. apply me_lookup.
Qed.

End FollowClaims.

(* --------------------------------------------------------------------- *)
(** ** The comment collection *)
(* --------------------------------------------------------------------- *)

Section CommentFacts.
Import CommentRoutes Threads.
Implicit Types (c d : Comment.t) (cs : list Comment.t) (id : ObjectId).

Lemma findById_Some id cs c :
  Comment.findById id cs = Some c → c ∈ cs ∧ Comment._id c = id.
Proof.
  unfold Comment.findById. intros Hfind.
  apply List.find_some in Hfind as [Hin Hid].
  split; [by apply list_elem_of_In|]. by apply bool_decide_eq_true in Hid.
Qed.

Lemma findById_None id cs :
  Comment.findById id cs = None → ∀ c, c ∈ cs → Comment._id c ≠ id.
Proof.
  unfold Comment.findById. intros Hfind c Hin Hid.
  apply list_elem_of_In in Hin.
  pose proof (List.find_none _ _ Hfind c Hin) as Hc. simpl in Hc.
  by rewrite bool_decide_eq_true_2 in Hc.
Qed.

Lemma findById_app_new id cs c :
  (∀ d, d ∈ cs → Comment._id d ≠ id) → Comment._id c = id →
  Comment.findById id (cs ++ [c]) = Some c.
Proof.
  intros Hfresh Hid. unfold Comment.findById.
  induction cs as [|d cs IH]; simpl.
  - by rewrite bool_decide_eq_true_2.
  - rewrite bool_decide_eq_false_2 by (apply Hfresh; left).
    apply IH. intros d' Hd'. apply Hfresh. by right.
Qed.

Lemma findById_save id cs c c' :
  Comment.findById id cs = Some c → Comment._id c' = Comment._id c →
  Comment.findById id (Comment.save c' cs) = Some c'.
Proof.
  unfold Comment.findById, Comment.save. intros Hfind Hid.
  induction cs as [|d cs IH]; [done|]. rewrite fmap_cons. simpl in *.
  destruct (bool_decide (Comment._id d = id)) eqn:Hd.
  - injection Hfind as ->. apply bool_decide_eq_true in Hd.
    rewrite (bool_decide_eq_true_2 (Comment._id c = Comment._id c'))
      by congruence.
    by rewrite bool_decide_eq_true_2 by congruence.
  - apply bool_decide_eq_false in Hd.
    specialize (IH Hfind). apply findById_Some in Hfind as [_ Hc].
    rewrite (bool_decide_eq_false_2 (Comment._id d = Comment._id c'))
      by congruence.
    by rewrite bool_decide_eq_false_2 by done.
Qed.

Lemma length_save c cs : length (Comment.save c cs) = length cs.
Proof. unfold Comment.save. apply length_fmap. Qed.

Lemma ids_save c cs :
  Comment._id <$> Comment.save c cs = Comment._id <$> cs.
Proof.
  unfold Comment.save. rewrite <- list_fmap_compose.
  apply list_fmap_ext. intros i d _. simpl. by case_bool_decide.
Qed.

Lemma elem_of_save c cs d :
  d ∈ Comment.save c cs →
  d ∈ cs ∨ (d = c ∧ ∃ d0, d0 ∈ cs ∧ Comment._id d0 = Comment._id c).
Proof.
  unfold Comment.save. intros (d0 & -> & Hd0)%list_elem_of_fmap.
  case_bool_decide; [right|by left]. split; [done|]. by exists d0.
Qed.

(** *** [findIndex], [push], [splice] on the likes *)

Lemma findIndex_None {A} (p : A → bool) (l : list A) :
  findIndex p l = None ↔ ∀ x, x ∈ l → p x = false.
Proof.
  induction l as [|x l IH]; simpl.
  - split; [|done]. intros _ x Hx. by apply elem_of_nil in Hx.
  - destruct (p x) eqn:Hpx.
    + split; [done|]. intros Hall. rewrite Hall in Hpx; [done|by left].
    + rewrite fmap_None, IH. split.
      * intros Hall y [->|Hy]%elem_of_cons; auto.
      * intros Hall y Hy. apply Hall. by right.
Qed.

Lemma findIndex_Some {A} (p : A → bool) (l : list A) i :
  findIndex p l = Some i → ∃ x, l !! i = Some x ∧ p x = true.
Proof.
  revert i. induction l as [|x l IH]; simpl; intros i; [done|].
  destruct (p x) eqn:Hpx.
  - intros [= <-]. by exists x.
  - intros (j & Hj & ->)%fmap_Some. by apply IH.
Qed.

Lemma findIndex_snoc (u : ObjectId) (l : list ObjectId) :
  u ∉ l →
  findIndex (λ like, bool_decide (like = u)) (l ++ [u]) = Some (length l).
Proof.
  induction l as [|x l IH]; simpl; intros Hu.
  - by rewrite bool_decide_eq_true_2.
  - apply not_elem_of_cons in Hu as [Hne Hu].
    rewrite bool_decide_eq_false_2 by done. by rewrite IH.
Qed.

Lemma delete_snoc {A} (l : list A) (x : A) : delete (length l) (l ++ [x]) = l.
Proof. induction l as [|y l IH]; simpl; [done|]. by rewrite IH. Qed.

Lemma isLiked_true (u : ObjectId) c : isLiked u c = true ↔ u ∈ Comment.likes c.
Proof.
  unfold isLiked. rewrite existsb_exists. split.
  - intros (x & Hx & ->%bool_decide_eq_true). by apply list_elem_of_In.
  - intros Hu. exists u. split; [by apply list_elem_of_In|].
    by apply bool_decide_eq_true.
Qed.

Lemma isLiked_false (u : ObjectId) c : isLiked u c = false ↔ u ∉ Comment.likes c.
Proof.
  rewrite <- isLiked_true. by destruct (isLiked u c).
Qed.

Lemma findIndex_likes_None (u : ObjectId) (l : list ObjectId) :
  findIndex (λ like, bool_decide (like = u)) l = None ↔ u ∉ l.
Proof.
  rewrite findIndex_None. split.
  - intros Hall Hu. specialize (Hall u Hu).
    by rewrite bool_decide_eq_true_2 in Hall.
  - intros Hu x Hx. apply bool_decide_eq_false. by intros ->.
Qed.

Lemma findIndex_likes_Some (u : ObjectId) (l : list ObjectId) i :
  findIndex (λ like, bool_decide (like = u)) l = Some i → l !! i = Some u.
Proof.
  intros (x & Hx & ->%bool_decide_eq_true)%findIndex_Some. done.
Qed.

Lemma NoDup_delete_lookup (l : list ObjectId) i u :
  NoDup l → l !! i = Some u → NoDup (delete i l) ∧ u ∉ delete i l.
Proof.
  revert i. induction l as [|x l IH]; intros i Hnd Hi; [done|].
  apply NoDup_cons in Hnd as [Hx Hnd].
  destruct i as [|i]; simpl in *.
  - by injection Hi as ->.
  - destruct (IH i Hnd Hi) as [Hnd' Hu]. split.
    + apply NoDup_cons. split; [|done].
      intros Hin. apply Hx. by eapply list_elem_of_delete_inv.
    + apply not_elem_of_cons. split; [|done].
      intros ->. apply Hx. by eapply list_elem_of_lookup_2.
Qed.

Lemma likes_wf_with_likes (l : list ObjectId) c :
  NoDup l → likes_wf (Comment.with_likes l (length l) c).
Proof. by split. Qed.

Lemma cardinality_NoDup c :
  NoDup (Comment.likes c) → cardinality c = length (Comment.likes c).
Proof. intros Hnd. unfold cardinality. by apply size_list_to_set. Qed.

End CommentFacts.

Section NotificationFacts.
Import CommentRoutes Threads.

Lemma Notification_create_Ok env recipient sender type title content
    relatedBlog relatedComment priority db db' :
  Notification_create env recipient sender type title content relatedBlog
    relatedComment priority db = Ok db' →
  notificationStoreUp env = true
  ∧ ∃ n, notified n db db'
         ∧ Notification.recipient n = recipient
         ∧ Notification.sender n = sender
         ∧ Notification.type n = type
         ∧ Notification.relatedBlog n = relatedBlog
         ∧ Notification.relatedComment n = relatedComment.
Proof.
  unfold Notification_create.
  destruct (negb (Notification.valid _)); [done|].
  destruct (notificationStoreUp env); simpl; [|done].
  intros [= <-]. split; [done|]. eexists. split; [reflexivity|]. done.
Qed.

Lemma Notification_create_down env recipient sender type title content
    relatedBlog relatedComment priority db :
  notificationStoreUp env = false →
  ∃ e, Notification_create env recipient sender type title content
         relatedBlog relatedComment priority db = Throw e.
Proof.
  intros Hdown. unfold Notification_create.
  destruct (negb (Notification.valid _)); [by eexists|].
  rewrite Hdown. by eexists.
Qed.

Lemma Notification_create_up env recipient sender type title content
    relatedBlog relatedComment priority db :
  notificationStoreUp env = true →
  truthy title = true → (strLength title ≤ 100)%nat →
  truthy content = true → (strLength content ≤ 500)%nat →
  ∃ db', Notification_create env recipient sender type title content
           relatedBlog relatedComment priority db = Ok db'.
Proof.
  intros Hup Ht1 Ht2 Hc1 Hc2. unfold Notification_create, Notification.valid.
  simpl. rewrite Ht1, Hc1, Hup. simpl.
  apply Nat.leb_le in Ht2, Hc2. rewrite Ht2, Hc2. simpl. by eexists.
Qed.

Lemma truthy_app_r (a b : jsString) : truthy b = true → truthy (a ++ b) = true.
Proof. destruct a, b; done. Qed.

Lemma truthy_app_l (a b : jsString) : truthy a = true → truthy (a ++ b) = true.
Proof. destruct a, b; done. Qed.

End NotificationFacts.

(* --------------------------------------------------------------------- *)
(** ** POST /like *)
(* --------------------------------------------------------------------- *)

Section LikeClaims.
Import CommentRoutes Threads.
Implicit Types (c d : Comment.t) (cs : list Comment.t) (db : Db).
Implicit Types (env : Env) (user : Token.t).

Lemma toggleLike_add env user commentId db c :
  commentId ≠ EmptyString →
  Comment.findById commentId (comments db) = Some c →
  Token.userId user ∉ Comment.likes c →
  ∃ db',
    toggleLike env user (likeRequest commentId) db
    = (replyData 200 true (Some (js "点赞成功"))
         {| Liked.likeCount := length (Comment.likes c ++ [Token.userId user]);
            Liked.isLiked := true |}, db')
    ∧ comments db'
      = Comment.save (liked (Token.userId user) c) (comments db)
    ∧ users db' = users db ∧ blogs db' = blogs db
    ∧ (notifications db' = notifications db
       ∨ Comment.user c ≠ Token.userId user
         ∧ notificationStoreUp env = true
         ∧ ∃ n, notifications db' = notifications db ++ [n]
                ∧ Notification.recipient n = Comment.user c
                ∧ Notification.sender n = Token.userId user
                ∧ Notification.type n = Notification.like
                ∧ Notification.relatedComment n = Some (Comment._id c)).
Proof.
  intros Hid%idTruthy_ne Hfind Hnot. unfold toggleLike, likeRequest, joiString.
  simpl. rewrite Hid, Hfind. simpl.
  rewrite (proj2 (findIndex_likes_None _ _) Hnot). simpl.
  eexists. split; [reflexivity|].
  case_bool_decide as Hauthor; simpl; [|by auto].
  unfold User.findById. simpl.
  destruct (users db !! Token.userId user) as [liker|]; simpl; [|by auto].
  destruct (blogs db !! Comment.blog c) as [blog|]; simpl; [|by auto].
  match goal with
  | |- context [Notification_create ?e ?r ?s ?t ?ti ?co ?rb ?rc ?p ?d] =>
    destruct (Notification_create e r s t ti co rb rc p d) as [db2|err]
      eqn:Hcreate
  end; simpl; [|by auto].
  apply Notification_create_Ok in Hcreate
    as (Hup & n & -> & Hr & Hs & Ht & _ & Hrc).
  simpl. repeat split; try done. right. repeat split; try done.
  by exists n.
Qed.

Lemma toggleLike_remove env user commentId db c likeIndex :
  commentId ≠ EmptyString →
  Comment.findById commentId (comments db) = Some c →
  findIndex (λ like, bool_decide (like = Token.userId user))
    (Comment.likes c) = Some likeIndex →
  toggleLike env user (likeRequest commentId) db
  = (replyData 200 true (Some (js "取消点赞成功"))
       {| Liked.likeCount := length (delete likeIndex (Comment.likes c));
          Liked.isLiked := false |},
     with_comments (Comment.save (unliked likeIndex c) (comments db)) db).
Proof.
  intros Hid%idTruthy_ne Hfind Hindex.
  unfold toggleLike, likeRequest, joiString. simpl.
  by rewrite Hid, Hfind, Hindex.
Qed.

End LikeClaims.

Section LikeRoundTrip.
Import CommentRoutes Threads.
Implicit Types (c d : Comment.t) (cs : list Comment.t) (db : Db).
Implicit Types (env : Env) (user : Token.t).

(** C3. For a stored comment whose likes hold no user twice and whose
    [likeCount] is their number: a ToggleLike answers 200 and leaves the
    stored [likeCount] equal to the cardinality of [likes]; it reports this
    count and the new [isLiked], the negation of the old; and a second
    ToggleLike by the same user brings [isLiked] and [likeCount] back to
    what they were before the first. *)
Theorem toggle_like_count env env' user commentId db c :
  commentId ≠ EmptyString →
  Comment.findById commentId (comments db) = Some c →
  likes_wf c →
  ∃ c1 c2,
    let r1 := toggleLike env user (likeRequest commentId) db in
    let r2 := toggleLike env' user (likeRequest commentId) r1.2 in
    status r1.1 = 200%nat ∧ status r2.1 = 200%nat
    ∧ Comment.findById commentId (comments r1.2) = Some c1
    ∧ Comment.findById commentId (comments r2.2) = Some c2
    ∧ likes_wf c1 ∧ likes_wf c2
    ∧ Comment.likeCount c1 = cardinality c1
    ∧ Comment.likeCount c2 = cardinality c2
    ∧ data r1.1
      = Some {| Liked.likeCount := Comment.likeCount c1;
                Liked.isLiked := isLiked (Token.userId user) c1 |}
    ∧ data r2.1
      = Some {| Liked.likeCount := Comment.likeCount c2;
                Liked.isLiked := isLiked (Token.userId user) c2 |}
    ∧ isLiked (Token.userId user) c1 = negb (isLiked (Token.userId user) c)
    ∧ isLiked (Token.userId user) c2 = isLiked (Token.userId user) c
    ∧ Comment.likeCount c2 = Comment.likeCount c.
Proof.
  intros Hid Hfind [Hnd Hcount]. set (u := Token.userId user).
  destruct (findIndex (λ like, bool_decide (like = u)) (Comment.likes c))
    as [i|] eqn:Hindex.
  - (* liked before: off, then on *)
    pose proof (findIndex_likes_Some _ _ _ Hindex) as Hi.
    destruct (NoDup_delete_lookup _ _ _ Hnd Hi) as [Hnd1 Hnot1].
    assert (u ∈ Comment.likes c) as Hin by by eapply list_elem_of_lookup_2.
    pose proof (toggleLike_remove env user commentId db c i Hid Hfind Hindex)
      as H1.
    set (db1 := with_comments (Comment.save (unliked i c) (comments db)) db)
      in *.
    assert (Comment.findById commentId (comments db1) = Some (unliked i c))
      as Hfind1 by by apply findById_save with c.
    destruct (toggleLike_add env' user commentId db1 (unliked i c) Hid Hfind1)
      as (db2 & H2 & Hcs2 & _); [done|].
    exists (unliked i c), (liked u (unliked i c)). cbv zeta.
    assert (length (delete i (Comment.likes c) ++ [u])
            = length (Comment.likes c)) as Hlen.
    { rewrite length_app, length_delete by done. simpl.
      apply lookup_lt_Some in Hi. lia. }
    rewrite H1. simpl. rewrite H2. simpl.
    split; [done|]. split; [done|]. split; [done|].
    split.
    { rewrite Hcs2. by apply findById_save with (unliked i c). }
    assert (NoDup (delete i (Comment.likes c) ++ [u])) as Hnd2.
    { apply NoDup_app. split; [done|]. split; [|apply NoDup_singleton].
      intros x Hx ->%list_elem_of_singleton. done. }
    split; [by apply likes_wf_with_likes|].
    split; [by apply likes_wf_with_likes|].
    split; [by rewrite cardinality_NoDup|].
    split; [by rewrite cardinality_NoDup|].
    assert (isLiked u (unliked i c) = false) as Hl1 by by apply isLiked_false.
    assert (isLiked u (liked u (unliked i c)) = true) as Hl2.
    { apply isLiked_true. simpl. apply elem_of_app. right.
      by apply list_elem_of_singleton. }
    assert (isLiked u c = true) as Hl0 by by apply isLiked_true.
    rewrite Hl0, Hl1, Hl2. repeat split; congruence.
  - (* not liked before: on, then off *)
    pose proof (proj1 (findIndex_likes_None _ _) Hindex) as Hnot.
    destruct (toggleLike_add env user commentId db c Hid Hfind Hnot)
      as (db1 & H1 & Hcs1 & _).
    assert (Comment.findById commentId (comments db1) = Some (liked u c))
      as Hfind1.
    { rewrite Hcs1. by apply findById_save with c. }
    pose proof (toggleLike_remove env' user commentId db1 (liked u c)
                  (length (Comment.likes c)) Hid Hfind1
                  (findIndex_snoc _ _ Hnot)) as H2.
    exists (liked u c), (unliked (length (Comment.likes c)) (liked u c)).
    cbv zeta. rewrite H1. simpl. rewrite H2. simpl.
    rewrite !delete_snoc.
    split; [done|]. split; [done|]. split; [done|].
    split; [by apply findById_save with (liked u c)|].
    assert (NoDup (Comment.likes c ++ [u])) as Hnd1.
    { apply NoDup_app. split; [done|]. split; [|apply NoDup_singleton].
      intros x Hx ->%list_elem_of_singleton. done. }
    split; [by apply likes_wf_with_likes|].
    split.
    { apply likes_wf_with_likes. simpl. by rewrite delete_snoc. }
    split; [by rewrite cardinality_NoDup|].
    split.
    { unfold cardinality. simpl. rewrite delete_snoc.
      by rewrite size_list_to_set. }
    assert (isLiked u (liked u c) = true) as Hl1.
    { apply isLiked_true. simpl. apply elem_of_app. right.
      by apply list_elem_of_singleton. }
    assert (isLiked u c = false) as Hl0 by by apply isLiked_false.
    assert (isLiked u (unliked (length (Comment.likes c)) (liked u c))
            = false) as Hl2.
    { apply isLiked_false. simpl. by rewrite delete_snoc. }
    rewrite Hl0, Hl1, Hl2. repeat split; congruence.
Qed.

Lemma toggle_like_count_witness :
  ∃ c1 c2,
    let r1 :=
      toggleLike Sample.env0 (Sample.token Sample.alice Role.user)
        (likeRequest Sample.comment1) Sample.db0 in
    let r2 :=
      toggleLike Sample.env0 (Sample.token Sample.alice Role.user)
        (likeRequest Sample.comment1) r1.2 in
    status r1.1 = 200%nat ∧ status r2.1 = 200%nat
    ∧ Comment.findById Sample.comment1 (comments r1.2) = Some c1
    ∧ Comment.findById Sample.comment1 (comments r2.2) = Some c2
    ∧ likes_wf c1 ∧ likes_wf c2
    ∧ Comment.likeCount c1 = cardinality c1
    ∧ Comment.likeCount c2 = cardinality c2
    ∧ data r1.1
      = Some {| Liked.likeCount := Comment.likeCount c1;
                Liked.isLiked := isLiked Sample.alice c1 |}
    ∧ data r2.1
      = Some {| Liked.likeCount := Comment.likeCount c2;
                Liked.isLiked := isLiked Sample.alice c2 |}
    ∧ isLiked Sample.alice c1 = negb (isLiked Sample.alice Sample.bobsComment)
    ∧ isLiked Sample.alice c2 = isLiked Sample.alice Sample.bobsComment
    ∧ Comment.likeCount c2 = Comment.likeCount Sample.bobsComment.
Proof.
  apply (toggle_like_count Sample.env0 Sample.env0
           (Sample.token Sample.alice Role.user) Sample.comment1 Sample.db0
           Sample.bobsComment).
  - discriminate.
  - reflexivity.
  - split; [apply NoDup_nil_2|reflexivity].
Defined.

End LikeRoundTrip.

Section LikeNotification.
Import CommentRoutes Threads.
Implicit Types (c d : Comment.t) (cs : list Comment.t) (db : Db).
Implicit Types (env : Env) (user : Token.t).

Lemma notice_length (a k1 t k2 : jsString) (n1 n2 : nat) :
  length k1 = n1 → length k2 = n2 →
  strLength (a ++ k1 ++ t ++ k2) = (length a + n1 + length t + n2)%nat.
Proof. intros <- <-. unfold strLength. rewrite !length_app. lia. Qed.

Lemma notice_truthy (a k1 t k2 : jsString) :
  truthy k2 = true → truthy (a ++ k1 ++ t ++ k2) = true.
Proof. intros Hk. by do 3 apply truthy_app_r. Qed.

Lemma toggleLike_cases env user body db :
  (toggleLike env user body db).2 = db
  ∨ ∃ commentId c,
      body = likeRequest commentId ∧ commentId ≠ EmptyString
      ∧ Comment.findById commentId (comments db) = Some c.
Proof.
  destruct body as [[commentId|]]; [|by left].
  destruct (idTruthy commentId) eqn:Hid.
  - destruct (Comment.findById commentId (comments db)) as [c|] eqn:Hfind.
    + right. exists commentId, c. split; [done|]. split; [|done].
      by apply idTruthy_ne.
    + left. unfold toggleLike, joiString. simpl. by rewrite Hid, Hfind.
  - left. unfold toggleLike, joiString. simpl. by rewrite Hid.
Qed.

Lemma toggleLike_notifies env user commentId db c liker blog :
  commentId ≠ EmptyString →
  Comment.findById commentId (comments db) = Some c →
  Token.userId user ∉ Comment.likes c →
  Comment.user c ≠ Token.userId user →
  users db !! Token.userId user = Some liker →
  blogs db !! Comment.blog c = Some blog →
  notificationStoreUp env = true →
  (strLength (User.username liker) + strLength (Blog.title blog) ≤ 488)%nat →
  ∃ n,
    notifications (toggleLike env user (likeRequest commentId) db).2
    = notifications db ++ [n]
    ∧ Notification.recipient n = Comment.user c
    ∧ Notification.sender n = Token.userId user
    ∧ Notification.type n = Notification.like.
Proof.
  intros Hid%idTruthy_ne Hfind Hnot Hauthor Hliker Hblog Hup Hlen.
  unfold toggleLike, likeRequest, joiString. simpl.
  rewrite Hid, Hfind. simpl.
  rewrite (proj2 (findIndex_likes_None _ _) Hnot). simpl.
  rewrite bool_decide_eq_true_2 by done.
  unfold User.findById. simpl. rewrite Hliker, Hblog. simpl.
  match goal with
  | |- context [Notification_create ?e ?r ?s ?t ?ti ?co ?rb ?rc ?p ?d] =>
    destruct (Notification_create_up e r s t ti co rb rc p d) as [db2 Hcreate]
  end.
  - done.
  - reflexivity.
  - apply Nat.leb_le. vm_compute. reflexivity.
  - apply notice_truthy. reflexivity.
  - rewrite (notice_length _ _ _ _ 7 5) by (vm_compute; reflexivity).
    unfold strLength in Hlen. lia.
  - rewrite Hcreate. simpl.
    apply Notification_create_Ok in Hcreate as (_ & n & -> & Hr & Hs & Ht & _).
    by exists n.
Qed.

(** C6. ToggleLike leaves the notifications as they are, or appends one: a
    like-type notification from the liker to the comment's author, and then
    the request was the add transition (the liker was not in [likes]) by
    someone other than the author. The removal transition answers
    [isLiked: false] and leaves the notifications as they are. On the add
    transition by another user than the author the notification is created
    whenever its record can be: the liker and the blog are found, the text
    fits, the store takes it. *)
Theorem like_notification env user body db :
  (notifications (toggleLike env user body db).2 = notifications db
   ∨ ∃ commentId c n,
       body = likeRequest commentId
       ∧ Comment.findById commentId (comments db) = Some c
       ∧ (Token.userId user ∉ Comment.likes c)
       ∧ Comment.user c ≠ Token.userId user
       ∧ notifications (toggleLike env user body db).2
         = notifications db ++ [n]
       ∧ Notification.recipient n = Comment.user c
       ∧ Notification.sender n = Token.userId user
       ∧ Notification.type n = Notification.like)
  ∧ (∀ commentId c,
       body = likeRequest commentId → commentId ≠ EmptyString →
       Comment.findById commentId (comments db) = Some c →
       Token.userId user ∈ Comment.likes c →
       notifications (toggleLike env user body db).2 = notifications db
       ∧ Liked.isLiked <$> data (toggleLike env user body db).1 = Some false)
  ∧ (∀ commentId c liker blog,
       body = likeRequest commentId → commentId ≠ EmptyString →
       Comment.findById commentId (comments db) = Some c →
       Token.userId user ∉ Comment.likes c →
       Comment.user c ≠ Token.userId user →
       users db !! Token.userId user = Some liker →
       blogs db !! Comment.blog c = Some blog →
       notificationStoreUp env = true →
       (strLength (User.username liker) + strLength (Blog.title blog)
        ≤ 488)%nat →
       ∃ n,
         notifications (toggleLike env user body db).2
         = notifications db ++ [n]
         ∧ Notification.recipient n = Comment.user c
         ∧ Notification.sender n = Token.userId user
         ∧ Notification.type n = Notification.like
         ∧ Liked.isLiked <$> data (toggleLike env user body db).1
           = Some true).
Proof.
  split; [|split].
  - destruct (toggleLike_cases env user body db)
      as [->|(commentId & c & -> & Hid & Hfind)]; [by left|].
    destruct (findIndex (λ like, bool_decide (like = Token.userId user))
                (Comment.likes c)) as [i|] eqn:Hindex.
    + left. by rewrite (toggleLike_remove _ _ _ _ _ _ Hid Hfind Hindex).
    + apply findIndex_likes_None in Hindex.
      destruct (toggleLike_add env user commentId db c Hid Hfind Hindex)
        as (db' & -> & _ & _ & _ & [Hsame|(Hauthor & _ & n & Hn & Hr & Hs & Ht & _)]);
        [by left|].
      right. by exists commentId, c, n.
  - intros commentId c -> Hid Hfind Hin.
    destruct (findIndex (λ like, bool_decide (like = Token.userId user))
                (Comment.likes c)) as [i|] eqn:Hindex.
    + by rewrite (toggleLike_remove _ _ _ _ _ _ Hid Hfind Hindex).
    + by apply findIndex_likes_None in Hindex.
  - intros commentId c liker blog -> Hid Hfind Hnot Hauthor Hliker Hblog Hup
      Hlen.
    destruct (toggleLike_notifies env user commentId db c liker blog)
      as (n & Hn & Hr & Hs & Ht); try done.
    exists n. repeat split; try done.
    by destruct (toggleLike_add env user commentId db c Hid Hfind Hnot)
      as (db' & -> & _).
Qed.

Lemma like_notification_witness :
  (∃ n,
     notifications
       (toggleLike Sample.env0 (Sample.token Sample.alice Role.user)
          (likeRequest Sample.comment1) Sample.db0).2
     = notifications Sample.db0 ++ [n]
     ∧ Notification.recipient n = Sample.bob
     ∧ Notification.sender n = Sample.alice
     ∧ Notification.type n = Notification.like
     ∧ Liked.isLiked
         <$> data (toggleLike Sample.env0
                     (Sample.token Sample.alice Role.user)
                     (likeRequest Sample.comment1) Sample.db0).1
       = Some true)
  ∧ (let db1 :=
       (toggleLike Sample.env0 (Sample.token Sample.alice Role.user)
          (likeRequest Sample.comment1) Sample.db0).2 in
     notifications
       (toggleLike Sample.env0 (Sample.token Sample.alice Role.user)
          (likeRequest Sample.comment1) db1).2
     = notifications db1
     ∧ Liked.isLiked
         <$> data (toggleLike Sample.env0
                     (Sample.token Sample.alice Role.user)
                     (likeRequest Sample.comment1) db1).1
       = Some false).
Proof.
  split.
  - apply (proj2 (proj2 (like_notification Sample.env0
                           (Sample.token Sample.alice Role.user)
                           (likeRequest Sample.comment1) Sample.db0))
             Sample.comment1 Sample.bobsComment
             (Sample.doc "alice" [] []) Sample.bobsBlog).
    + reflexivity.
    + discriminate.
    + reflexivity.
    + apply not_elem_of_nil.
    + discriminate.
    + reflexivity.
    + reflexivity.
    + reflexivity.
    + apply Nat.leb_le. vm_compute. reflexivity.
  - cbv zeta.
    apply (proj1 (proj2 (like_notification Sample.env0
                           (Sample.token Sample.alice Role.user)
                           (likeRequest Sample.comment1) _))
             Sample.comment1 (liked Sample.alice Sample.bobsComment)).
    + reflexivity.
    + discriminate.
    + vm_compute. reflexivity.
    + by_evaluation.
Defined.

End LikeNotification.

(* --------------------------------------------------------------------- *)
(** ** POST /create and POST /reply *)
(* --------------------------------------------------------------------- *)

Section CreateFacts.
Import ContentFilter CommentRoutes Threads.
Context `{JsRuntime}.
Implicit Types (c d : Comment.t) (cs : list Comment.t) (db : Db).
Implicit Types (env : Env) (user : Token.t).

Lemma validateContent_truthy (content : jsString) (options : ValidateOptions) :
  allowEmpty options = None →
  vIsValid (validateContent content options) = true → truthy content = true.
Proof.
  intros Hempty. unfold validateContent. rewrite Hempty.
  destruct (truthy content); [done|]. simpl. done.
Qed.

(** What POST /create does with a request that passes validation for a
    blog that exists. *)
Lemma createComment_valid env user content blogId blog db :
  vIsValid (validateContent content contentOptions) = true →
  blogId ≠ EmptyString → blogs db !! blogId = Some blog →
  ∃ db',
    createComment env user (createRequest content blogId) db
    = (mkResponse 200 true (Some (js "评论创建成功"))
         (createdData (commentOf env user content blogId) db) None, db')
    ∧ (db' = created (commentOf env user content blogId) db
       ∨ Blog.user blog ≠ Token.userId user
         ∧ notificationStoreUp env = true
         ∧ is_Some (users db !! Token.userId user)
         ∧ ∃ n, notified n (created (commentOf env user content blogId) db) db'
                ∧ Notification.recipient n = Blog.user blog
                ∧ Notification.sender n = Token.userId user
                ∧ Notification.type n = Notification.comment
                ∧ Notification.relatedBlog n = Some blogId
                ∧ Notification.relatedComment n = Some (newId env)).
Proof.
  intros Hvalid Hid%idTruthy_ne Hblog.
  pose proof (validateContent_truthy content contentOptions eq_refl Hvalid)
    as Htruthy.
  unfold createComment, createRequest, joiString. simpl.
  rewrite Htruthy, Hid, Hvalid, Hblog. simpl.
  eexists. split; [reflexivity|].
  case_bool_decide as Howner; [|by left].
  unfold User.findById. simpl.
  destruct (users db !! Token.userId user) as [commenter|]; simpl;
    [|by left].
  match goal with
  | |- context [Notification_create ?e ?r ?s ?t ?ti ?co ?rb ?rc ?p ?d] =>
    destruct (Notification_create e r s t ti co rb rc p d) as [db2|err]
      eqn:Hcreate
  end; simpl; [|by left].
  apply Notification_create_Ok in Hcreate
    as (Hup & n & Hn & Hr & Hs & Ht & Hrb & Hrc).
  right. repeat split; try done. by exists n.
Qed.

(** What POST /reply does with a request that passes validation for a
    comment that exists. *)
Lemma createReply_valid env user content commentId replyTo blogId
    parentComment db :
  vIsValid (validateContent content contentOptions) = true →
  commentId ≠ EmptyString → blogId ≠ EmptyString →
  replyTo ≠ Some EmptyString →
  Comment.findById commentId (comments db) = Some parentComment →
  ∃ db',
    createReply env user (replyRequest content commentId replyTo blogId) db
    = (mkResponse 200 true (Some (js "回复成功"))
         (repliedData (replyOf env user content parentComment replyTo db) db)
         None, db')
    ∧ (db' = created (replyOf env user content parentComment replyTo db) db
       ∨ default (Comment.user parentComment) replyTo ≠ Token.userId user
         ∧ notificationStoreUp env = true
         ∧ ∃ n, notified n
                  (created (replyOf env user content parentComment replyTo db)
                     db) db'
                ∧ Notification.recipient n
                  = default (Comment.user parentComment) replyTo
                ∧ Notification.sender n = Token.userId user
                ∧ Notification.type n = Notification.reply).
Proof.
  intros Hvalid Hid%idTruthy_ne Hbid%idTruthy_ne HreplyTo Hparent.
  pose proof (validateContent_truthy content contentOptions eq_refl Hvalid)
    as Htruthy.
  assert (joiOptional "replyTo" replyTo = inr replyTo) as Hopt.
  { destruct replyTo as [r|]; [|done]. unfold joiOptional.
    destruct (idTruthy r) eqn:Hr; [done|].
    destruct r; [done|discriminate]. }
  unfold createReply, replyRequest, joiString. simpl.
  rewrite Htruthy, Hid, Hopt, Hbid, Hvalid, Hparent. simpl.
  eexists. split; [reflexivity|].
  case_bool_decide as Hself; [|by left].
  destruct (blogs db !! Comment.blog parentComment) as [blog|]; simpl;
    [|by left].
  unfold User.findById, created, replyOf.
  destruct (users db !! Token.userId user) as [sender|]; simpl; [|by left].
  match goal with
  | |- context [Notification_create ?e ?r ?s ?t ?ti ?co ?rb ?rc ?p ?d] =>
    destruct (Notification_create e r s t ti co rb rc p d) as [db2|err]
      eqn:Hcreate
  end; simpl; [|by left].
  apply Notification_create_Ok in Hcreate
    as (Hup & n & Hn & Hr & Hs & Ht & _).
  right. repeat split; try done. by exists n.
Qed.

End CreateFacts.

Section CreateClaims.
Import ContentFilter CommentRoutes Threads.
Context `{JsRuntime}.
Implicit Types (c d : Comment.t) (cs : list Comment.t) (db : Db).
Implicit Types (env : Env) (user : Token.t).

Lemma createComment_notifies env user content blogId blog commenter db :
  vIsValid (validateContent content contentOptions) = true →
  blogId ≠ EmptyString → blogs db !! blogId = Some blog →
  Blog.user blog ≠ Token.userId user →
  users db !! Token.userId user = Some commenter →
  notificationStoreUp env = true →
  (strLength (User.username commenter) + strLength (Blog.title blog)
   ≤ 490)%nat →
  ∃ n,
    (createComment env user (createRequest content blogId) db).2
    = with_notifications (notifications db ++ [n])
        (created (commentOf env user content blogId) db)
    ∧ Notification.type n = Notification.comment
    ∧ Notification.recipient n = Blog.user blog
    ∧ Notification.sender n = Token.userId user.
Proof.
  intros Hvalid Hid%idTruthy_ne Hblog Howner Hcommenter Hup Hlen.
  pose proof (validateContent_truthy content contentOptions eq_refl Hvalid)
    as Htruthy.
  unfold createComment, createRequest, joiString. simpl.
  rewrite Htruthy, Hid, Hvalid, Hblog. simpl.
  rewrite bool_decide_eq_true_2 by done.
  unfold User.findById. simpl. rewrite Hcommenter. simpl.
  match goal with
  | |- context [Notification_create ?e ?r ?s ?t ?ti ?co ?rb ?rc ?p ?d] =>
    destruct (Notification_create_up e r s t ti co rb rc p d) as [db2 Hcreate]
  end.
  - done.
  - reflexivity.
  - apply Nat.leb_le. vm_compute. reflexivity.
  - apply notice_truthy. reflexivity.
  - rewrite (notice_length _ _ _ _ 9 1) by (vm_compute; reflexivity).
    unfold strLength in Hlen. lia.
  - rewrite Hcreate. simpl.
    apply Notification_create_Ok in Hcreate as (_ & n & -> & Hr & Hs & Ht & _).
    by exists n.
Qed.

(** C5. A comment that passes validation, on a blog that exists, is
    created with answer 200. When the blog belongs to another user than the
    commenter, exactly one notification is appended, of type 'comment',
    to the blog's owner, from the commenter, given that its record can be
    created: the commenter has a user document, the text
    "<username> 评论了您的博客《<title>》" keeps within the 500 characters of
    the schema, the store takes the write. When the commenter owns the
    blog, the notifications stay as they are. *)
Theorem comment_notification env user content blogId blog db :
  vIsValid (validateContent content contentOptions) = true →
  blogId ≠ EmptyString → blogs db !! blogId = Some blog →
  status (createComment env user (createRequest content blogId) db).1
  = 200%nat
  ∧ comments (createComment env user (createRequest content blogId) db).2
    = comments db ++ [commentOf env user content blogId]
  ∧ (Blog.user blog ≠ Token.userId user →
     ∀ commenter,
       users db !! Token.userId user = Some commenter →
       notificationStoreUp env = true →
       (strLength (User.username commenter) + strLength (Blog.title blog)
        ≤ 490)%nat →
       ∃ n,
         notifications
           (createComment env user (createRequest content blogId) db).2
         = notifications db ++ [n]
         ∧ Notification.type n = Notification.comment
         ∧ Notification.recipient n = Blog.user blog
         ∧ Notification.sender n = Token.userId user)
  ∧ (Blog.user blog = Token.userId user →
     notifications
       (createComment env user (createRequest content blogId) db).2
     = notifications db).
Proof.
  intros Hvalid Hid Hblog.
  destruct (createComment_valid env user content blogId blog db Hvalid Hid
              Hblog) as (db' & Heq & Hdb').
  split; [by rewrite Heq|]. split; [|split].
  - rewrite Heq. simpl.
    by destruct Hdb' as [->|(_ & _ & _ & n & -> & _)].
  - intros Howner commenter Hcommenter Hup Hlen.
    destruct (createComment_notifies env user content blogId blog commenter db)
      as (n & -> & Hn); try done.
    by exists n.
  - intros Howner. rewrite Heq. simpl.
    by destruct Hdb' as [->|(Hne & _)].
Qed.

(** C7. With the notification collection down, so that every
    [Notification.create] throws: a comment, a reply and a like whose own
    preconditions hold are answered 200 with [success: true], by the very
    response that is given when the collection is up; the comment or reply
    is stored, the like is stored as with the collection up, and nothing
    else of the state changes: no notification is added. *)
Theorem notification_failure_swallowed env user db :
  notificationStoreUp env = false →
  (∀ content blogId blog,
     vIsValid (validateContent content contentOptions) = true →
     blogId ≠ EmptyString → blogs db !! blogId = Some blog →
     let r := createComment env user (createRequest content blogId) db in
     let r' :=
       createComment (withStore true env) user (createRequest content blogId)
         db in
     r.1 = r'.1 ∧ status r.1 = 200%nat ∧ success r.1 = true
     ∧ r.2 = created (commentOf env user content blogId) db)
  ∧ (∀ content commentId replyTo blogId parentComment,
       vIsValid (validateContent content contentOptions) = true →
       commentId ≠ EmptyString → blogId ≠ EmptyString →
       replyTo ≠ Some EmptyString →
       Comment.findById commentId (comments db) = Some parentComment →
       let r :=
         createReply env user
           (replyRequest content commentId replyTo blogId) db in
       let r' :=
         createReply (withStore true env) user
           (replyRequest content commentId replyTo blogId) db in
       r.1 = r'.1 ∧ status r.1 = 200%nat ∧ success r.1 = true
       ∧ r.2 = created (replyOf env user content parentComment replyTo db) db)
  ∧ (∀ commentId c,
       commentId ≠ EmptyString →
       Comment.findById commentId (comments db) = Some c →
       let r := toggleLike env user (likeRequest commentId) db in
       let r' := toggleLike (withStore true env) user (likeRequest commentId)
                   db in
       r.1 = r'.1 ∧ status r.1 = 200%nat ∧ success r.1 = true
       ∧ comments r.2 = comments r'.2
       ∧ r.2 = with_comments (comments r.2) db).
Proof.
  intros Hdown. split; [|split].
  - intros content blogId blog Hvalid Hid Hblog. cbv zeta.
    destruct (createComment_valid env user content blogId blog db Hvalid Hid
                Hblog) as (db1 & -> & Hdb1).
    destruct (createComment_valid (withStore true env) user content blogId
                blog db Hvalid Hid Hblog) as (db2 & -> & _).
    simpl. repeat split.
    destruct Hdb1 as [->|(_ & Hup & _)]; [done|congruence].
  - intros content commentId replyTo blogId parentComment Hvalid Hid Hbid
      HreplyTo Hparent. cbv zeta.
    destruct (createReply_valid env user content commentId replyTo blogId
                parentComment db Hvalid Hid Hbid HreplyTo Hparent)
      as (db1 & -> & Hdb1).
    destruct (createReply_valid (withStore true env) user content commentId
                replyTo blogId parentComment db Hvalid Hid Hbid HreplyTo
                Hparent) as (db2 & -> & _).
    simpl. repeat split.
    destruct Hdb1 as [->|(_ & Hup & _)]; [done|congruence].
  - intros commentId c Hid Hfind. cbv zeta.
    destruct (findIndex (λ like, bool_decide (like = Token.userId user))
                (Comment.likes c)) as [i|] eqn:Hindex.
    + by rewrite !(toggleLike_remove _ _ _ _ _ _ Hid Hfind Hindex).
    + apply findIndex_likes_None in Hindex.
      destruct (toggleLike_add env user commentId db c Hid Hfind Hindex)
        as (db1 & -> & Hcs1 & Hu1 & Hb1 & Hn1).
      destruct (toggleLike_add (withStore true env) user commentId db c Hid
                  Hfind Hindex) as (db2 & -> & Hcs2 & _).
      simpl. repeat split; [congruence|].
      destruct Hn1 as [Hn1|(_ & Hup & _)]; [|congruence].
      destruct db1; simpl in *. unfold with_comments. simpl. congruence.
Qed.

End CreateClaims.

Section CreateWitnesses.
Import CommentRoutes Threads.

Lemma comment_notification_witness :
  status (createComment Sample.env0 (Sample.token Sample.alice Role.user)
            (createRequest (js "写得真好") Sample.blog1) Sample.db0).1
  = 200%nat
  ∧ ∃ n,
      notifications
        (createComment Sample.env0 (Sample.token Sample.alice Role.user)
           (createRequest (js "写得真好") Sample.blog1) Sample.db0).2
      = notifications Sample.db0 ++ [n]
      ∧ Notification.type n = Notification.comment
      ∧ Notification.recipient n = Blog.user Sample.bobsBlog
      ∧ Notification.sender n
        = Token.userId (Sample.token Sample.alice Role.user).
Proof.
  pose proof (comment_notification Sample.env0
                (Sample.token Sample.alice Role.user) (js "写得真好")
                Sample.blog1 Sample.bobsBlog Sample.db0) as Hthm.
  destruct Hthm as (Hstatus & _ & Hother & _).
  - vm_compute. reflexivity.
  - discriminate.
  - vm_compute. reflexivity.
  - split; [exact Hstatus|].
    apply (Hother ltac:(discriminate) (Sample.doc "alice" [] [])).
    + vm_compute. reflexivity.
    + reflexivity.
    + apply Nat.leb_le. vm_compute. reflexivity.
Defined.

Lemma notification_failure_swallowed_witness :
  status (createComment (withStore false Sample.env0)
            (Sample.token Sample.alice Role.user)
            (createRequest (js "写得真好") Sample.blog1) Sample.db0).1
  = 200%nat
  ∧ (createComment (withStore false Sample.env0)
       (Sample.token Sample.alice Role.user)
       (createRequest (js "写得真好") Sample.blog1) Sample.db0).2
    = created (commentOf (withStore false Sample.env0)
                 (Sample.token Sample.alice Role.user) (js "写得真好")
                 Sample.blog1) Sample.db0.
Proof.
  pose proof (notification_failure_swallowed (withStore false Sample.env0)
                (Sample.token Sample.alice Role.user) Sample.db0 eq_refl)
    as (Hcreate & _).
  destruct (Hcreate (js "写得真好") Sample.blog1 Sample.bobsBlog)
    as (_ & Hstatus & _ & Hstate).
  - vm_compute. reflexivity.
  - discriminate.
  - vm_compute. reflexivity.
  - exact (conj Hstatus Hstate).
Defined.

End CreateWitnesses.

(* --------------------------------------------------------------------- *)
(** ** DELETE /delete/:id *)
(* --------------------------------------------------------------------- *)

Section DeleteClaims.
Import CommentRoutes Threads.
Implicit Types (c d : Comment.t) (cs : list Comment.t) (db : Db).
Implicit Types (id : ObjectId) (user : Token.t).

Lemma length_deleteMany (query : Comment.t → bool) cs :
  length cs
  = (length (Comment.deleteMany query cs) + length (List.filter query cs))%nat.
Proof.
  unfold Comment.deleteMany.
  induction cs as [|d cs IH]; simpl; [done|].
  destruct (query d); simpl; lia.
Qed.

Lemma elem_of_deleteMany (query : Comment.t → bool) cs d :
  d ∈ Comment.deleteMany query cs ↔ d ∈ cs ∧ query d = false.
Proof.
  unfold Comment.deleteMany.
  rewrite !list_elem_of_In, List.filter_In, negb_true_iff. done.
Qed.

Lemma count_id_or_parentId id cs :
  (∀ d, d ∈ cs → Comment._id d = id → Comment.parentId d ≠ Some id) →
  length (List.filter (Comment.id_or_parentId id) cs)
  = (length (List.filter (λ d, bool_decide (Comment._id d = id)) cs)
     + length (replies id cs))%nat.
Proof.
  unfold replies.
  induction cs as [|d cs IH]; intros Hapart; [done|].
  assert (Comment.id_or_parentId id d
          = bool_decide (Comment._id d = id) || isReplyOf id d) as Hor by done.
  specialize (IH (λ d' Hd', Hapart d' (list_elem_of_further _ _ _ Hd'))).
  specialize (Hapart d (list_elem_of_here _ _)).
  cbn [List.filter]. rewrite Hor.
  destruct (bool_decide (Comment._id d = id)) eqn:E2;
    destruct (isReplyOf id d) eqn:E3; cbn [orb length]; rewrite ?IH; try lia.
  apply bool_decide_eq_true in E2, E3. by destruct (Hapart E2).
Qed.

Lemma count_id id cs c :
  NoDup (Comment._id <$> cs) → c ∈ cs → Comment._id c = id →
  length (List.filter (λ d, bool_decide (Comment._id d = id)) cs) = 1%nat.
Proof.
  induction cs as [|d cs IH]; intros Hnd Hin Hid; [by apply elem_of_nil in Hin|].
  rewrite fmap_cons in Hnd. apply NoDup_cons in Hnd as [Hd Hnd]. simpl.
  destruct (decide (Comment._id d = id)) as [Hdid|Hdid].
  - rewrite (bool_decide_eq_true_2 _ Hdid). simpl. f_equal.
    apply length_zero_iff_nil.
    destruct (List.filter _ cs) as [|d' ?] eqn:Hfilter; [done|].
    assert (In d' (List.filter (λ d0, bool_decide (Comment._id d0 = id)) cs))
      as Hd' by (rewrite Hfilter; by left).
    apply List.filter_In in Hd' as [Hd' Hd'id%bool_decide_eq_true].
    destruct Hd. apply list_elem_of_fmap. exists d'.
    split; [congruence|by apply list_elem_of_In].
  - rewrite (bool_decide_eq_false_2 _ Hdid).
    apply elem_of_cons in Hin as [->|Hin]; [done|]. by apply IH.
Qed.

Lemma no_replies_of_reply id cs c :
  two_level cs → c ∈ cs → Comment._id c = id → Comment.parentId c ≠ None →
  replies id cs = [].
Proof.
  intros Htwo Hc Hid Hreply. unfold replies.
  destruct (List.filter _ cs) as [|d ?] eqn:Hfilter; [done|].
  assert (In d (List.filter (isReplyOf id) cs)) as Hd
    by (rewrite Hfilter; by left).
  apply List.filter_In in Hd as [Hd Hparent%bool_decide_eq_true].
  destruct Hreply. eapply (Htwo d c); [by apply list_elem_of_In|done|].
  by rewrite Hid.
Qed.

Lemma wfb_sound cs : wfb cs = true → wf cs.
Proof.
  unfold wfb. intros [[Hids Htwo]%andb_prop Hlikes]%andb_prop.
  split.
  - by apply bool_decide_eq_true in Hids.
  - intros c c' Hc Hc' Hparent. unfold two_levelb in Htwo.
    rewrite forallb_forall in Htwo.
    specialize (Htwo c (proj1 (list_elem_of_In _ _) Hc)).
    rewrite Hparent in Htwo. rewrite forallb_forall in Htwo.
    specialize (Htwo c' (proj1 (list_elem_of_In _ _) Hc')).
    rewrite bool_decide_eq_true_2 in Htwo by done.
    by apply bool_decide_eq_true in Htwo.
  - intros c Hc. rewrite forallb_forall in Hlikes.
    specialize (Hlikes c (proj1 (list_elem_of_In _ _) Hc)).
    apply andb_prop in Hlikes as [Hnd Hcount]. split.
    + by apply bool_decide_eq_true in Hnd.
    + by apply Nat.eqb_eq.
Qed.

(** Who may delete: the token payload has no [_id], so the author test of
    [requireCommentAuthor] never passes and only the role does. *)
Lemma delete_requires_admin user id db c :
  Comment.findById id (comments db) = Some c →
  Token.role user ≠ Role.admin →
  deleteComment user id db = (reply 403 false (js "只能删除自己的评论"), db).
Proof.
  intros Hfind Hrole. unfold deleteComment, requireCommentAuthor.
  rewrite Hfind. unfold payload_id.
  by rewrite !bool_decide_eq_true_2 by done.
Qed.

Lemma deleteComment_admin user id db c :
  Comment.findById id (comments db) = Some c →
  Token.role user = Role.admin →
  deleteComment user id db
  = (reply 200 true (js "评论删除成功"),
     with_comments
       (Comment.deleteMany (Comment.id_or_parentId id) (comments db)) db).
Proof.
  intros Hfind Hrole. unfold deleteComment, requireCommentAuthor.
  rewrite Hfind. rewrite (bool_decide_eq_false_2 (_ ≠ Role.admin)); [|by auto].
  by rewrite andb_false_r.
Qed.

(** C4. In a collection that satisfies the invariant of the thread model
    (ids are unique, a [parentId] points to a top-level comment), a
    DeleteComment that is let through (the caller is an admin) on the
    comment [id] answers 200 and removes the comment and the comments whose
    [parentId] is [id], nothing else: N+1 documents for a top-level comment
    with N replies, exactly 1 document for a reply, which has no replies of
    its own. *)
Theorem delete_comment_cascade user id db c :
  wf (comments db) →
  Comment.findById id (comments db) = Some c →
  Token.role user = Role.admin →
  (deleteComment user id db).1 = reply 200 true (js "评论删除成功")
  ∧ (∀ d, d ∈ comments (deleteComment user id db).2
          ↔ d ∈ comments db ∧ Comment._id d ≠ id
            ∧ Comment.parentId d ≠ Some id)
  ∧ (Comment.parentId c = None →
     length (comments db)
     = (length (comments (deleteComment user id db).2)
        + S (length (replies id (comments db))))%nat)
  ∧ (Comment.parentId c ≠ None →
     replies id (comments db) = []
     ∧ length (comments db)
       = S (length (comments (deleteComment user id db).2))).
Proof.
  intros [Hids Htwo _] Hfind Hadmin.
  rewrite (deleteComment_admin user id db c Hfind Hadmin). simpl.
  apply findById_Some in Hfind as [Hc Hid].
  assert (length (comments db)
          = (length (Comment.deleteMany (Comment.id_or_parentId id)
                       (comments db))
             + S (length (replies id (comments db))))%nat) as Hcount.
  { rewrite (length_deleteMany (Comment.id_or_parentId id)) at 1.
    rewrite count_id_or_parentId.
    - rewrite (count_id id _ c) by done. lia.
    - intros d Hd Hdid Hparent.
      assert (Comment.parentId d = None) as Hnone
        by (eapply (Htwo d d); [done..|congruence]).
      congruence. }
  split; [done|]. split; [|split].
  - intros d. rewrite elem_of_deleteMany. unfold Comment.id_or_parentId.
    rewrite orb_false_iff, !bool_decide_eq_false. done.
  - done.
  - intros Hreply.
    pose proof (no_replies_of_reply id _ c Htwo Hc Hid Hreply) as Hnone.
    split; [done|]. rewrite Hnone in Hcount. simpl in Hcount. lia.
Qed.

Lemma delete_comment_cascade_witness :
  (deleteComment (Sample.token Sample.alice Role.admin) Sample.comment1
     Sample.db0).1 = reply 200 true (js "评论删除成功")
  ∧ length (comments Sample.db0)
    = (length (comments
                 (deleteComment (Sample.token Sample.alice Role.admin)
                    Sample.comment1 Sample.db0).2)
       + S (length (replies Sample.comment1 (comments Sample.db0))))%nat.
Proof.
  destruct (delete_comment_cascade (Sample.token Sample.alice Role.admin)
              Sample.comment1 Sample.db0 Sample.bobsComment)
    as (Hresp & _ & Htop & _).
  - apply wfb_sound. vm_compute. reflexivity.
  - vm_compute. reflexivity.
  - reflexivity.
  - split; [exact Hresp|]. apply Htop. reflexivity.
Defined.

End DeleteClaims.

(* --------------------------------------------------------------------- *)
(** ** The invariant of the comment collection *)
(* --------------------------------------------------------------------- *)

Section ThreadInvariant.
Import ContentFilter CommentRoutes Threads.
Context `{JsRuntime}.
Implicit Types (c d : Comment.t) (cs : list Comment.t) (db : Db).
Implicit Types (id : ObjectId) (env : Env) (user : Token.t).

Lemma createComment_comments env user body db :
  comments (createComment env user body db).2 = comments db
  ∨ ∃ content blogId,
      comments (createComment env user body db).2
      = comments db ++ [commentOf env user content blogId].
Proof.
  destruct body as [[content|] blogId];
    [|left; by unfold createComment, joiString].
  destruct (truthy content) eqn:Ht;
    [|left; unfold createComment, joiString; simpl; by rewrite Ht].
  destruct blogId as [blogId|];
    [|left; unfold createComment, joiString; simpl; by rewrite Ht].
  destruct (idTruthy blogId) eqn:Hi;
    [|left; unfold createComment, joiString; simpl; by rewrite Ht, Hi].
  destruct (vIsValid (validateContent content contentOptions)) eqn:Hv;
    [|left; unfold createComment, joiString; simpl; by rewrite Ht, Hi, Hv].
  destruct (blogs db !! blogId) as [blog|] eqn:Hblog;
    [|left; unfold createComment, joiString; simpl;
      by rewrite Ht, Hi, Hv, Hblog].
  right. exists content, blogId.
  apply idTruthy_ne in Hi.
  destruct (createComment_valid env user content blogId blog db Hv Hi Hblog)
    as (db' & Heq & Hdb').
  change {| CreateBody.content := Some content;
            CreateBody.blogId := Some blogId |}
    with (createRequest content blogId).
  rewrite Heq. simpl.
  by destruct Hdb' as [->|(_ & _ & _ & n & -> & _)].
Qed.

Lemma createReply_comments env user body db :
  comments (createReply env user body db).2 = comments db
  ∨ ∃ content commentId replyTo parentComment,
      Comment.findById commentId (comments db) = Some parentComment
      ∧ comments (createReply env user body db).2
        = comments db
          ++ [replyOf env user content parentComment replyTo db].
Proof.
  destruct body as [content commentId replyTo blogId].
  destruct content as [content|];
    [|left; by unfold createReply, joiString].
  destruct (truthy content) eqn:Ht;
    [|left; unfold createReply, joiString; simpl; by rewrite Ht].
  destruct commentId as [commentId|];
    [|left; unfold createReply, joiString; simpl; by rewrite Ht].
  destruct (idTruthy commentId) eqn:Hi;
    [|left; unfold createReply, joiString; simpl; by rewrite Ht, Hi].
  destruct (joiOptional "replyTo" replyTo) as [msg|replyTo'] eqn:Hopt;
    [left; unfold createReply, joiString; simpl; by rewrite Ht, Hi, Hopt|].
  assert (replyTo' = replyTo ∧ replyTo ≠ Some EmptyString) as [-> HreplyTo].
  { destruct replyTo as [r|]; simpl in Hopt; [|by injection Hopt as <-].
    destruct (idTruthy r) eqn:Hr; [|done]. injection Hopt as <-.
    split; [done|]. intros [= ->]. done. }
  destruct blogId as [blogId|];
    [|left; unfold createReply, joiString; simpl; by rewrite Ht, Hi, Hopt].
  destruct (idTruthy blogId) eqn:Hb;
    [|left; unfold createReply, joiString; simpl; by rewrite Ht, Hi, Hopt, Hb].
  destruct (vIsValid (validateContent content contentOptions)) eqn:Hv;
    [|left; unfold createReply, joiString; simpl;
      by rewrite Ht, Hi, Hopt, Hb, Hv].
  destruct (Comment.findById commentId (comments db)) as [parent|] eqn:Hparent;
    [|left; unfold createReply, joiString; simpl;
      by rewrite Ht, Hi, Hopt, Hb, Hv, Hparent].
  right. exists content, commentId, replyTo, parent. split; [done|].
  apply idTruthy_ne in Hi, Hb.
  destruct (createReply_valid env user content commentId replyTo blogId parent
              db Hv Hi Hb HreplyTo Hparent) as (db' & Heq & Hdb').
  change {| ReplyBody.content := Some content;
            ReplyBody.commentId := Some commentId;
            ReplyBody.replyTo := replyTo;
            ReplyBody.blogId := Some blogId |}
    with (replyRequest content commentId replyTo blogId).
  rewrite Heq. simpl.
  by destruct Hdb' as [->|(_ & _ & n & -> & _)].
Qed.

Lemma toggleLike_comments env user body db :
  comments (toggleLike env user body db).2 = comments db
  ∨ ∃ c c',
      c ∈ comments db
      ∧ Comment._id c' = Comment._id c
      ∧ Comment.parentId c' = Comment.parentId c
      ∧ (NoDup (Comment.likes c) → likes_wf c')
      ∧ comments (toggleLike env user body db).2
        = Comment.save c' (comments db).
Proof.
  destruct (toggleLike_cases env user body db)
    as [->|(commentId & c & -> & Hid & Hfind)]; [by left|].
  right. pose proof (findById_Some _ _ _ Hfind) as [Hc _].
  destruct (findIndex (λ like, bool_decide (like = Token.userId user))
              (Comment.likes c)) as [i|] eqn:Hindex.
  - exists c, (unliked i c).
    rewrite (toggleLike_remove _ _ _ _ _ _ Hid Hfind Hindex). simpl.
    do 3 (split; [done|]). split; [|done].
    intros Hnd. apply likes_wf_with_likes.
    apply findIndex_likes_Some in Hindex.
    by destruct (NoDup_delete_lookup _ _ _ Hnd Hindex).
  - apply findIndex_likes_None in Hindex.
    destruct (toggleLike_add env user commentId db c Hid Hfind Hindex)
      as (db' & -> & Hcs & _).
    exists c, (liked (Token.userId user) c). simpl.
    do 3 (split; [done|]). split; [|done].
    intros Hnd. apply likes_wf_with_likes.
    apply NoDup_app. split; [done|]. split; [|apply NoDup_singleton].
    intros x Hx ->%list_elem_of_singleton. done.
Qed.

Lemma deleteComment_comments user id db :
  comments (deleteComment user id db).2 = comments db
  ∨ comments (deleteComment user id db).2
    = Comment.deleteMany (Comment.id_or_parentId id) (comments db).
Proof.
  unfold deleteComment, requireCommentAuthor.
  destruct (Comment.findById id (comments db)); [|by left].
  destruct (_ && _); [by left|by right].
Qed.

Lemma NoDup_ids_inj cs c d :
  NoDup (Comment._id <$> cs) → c ∈ cs → d ∈ cs →
  Comment._id c = Comment._id d → c = d.
Proof.
  induction cs as [|x cs IH]; intros Hnd Hc Hd Hid;
    [by apply elem_of_nil in Hc|].
  rewrite fmap_cons in Hnd. apply NoDup_cons in Hnd as [Hx Hnd].
  apply elem_of_cons in Hc as [->|Hc]; apply elem_of_cons in Hd as [->|Hd].
  - done.
  - destruct Hx. rewrite Hid. apply list_elem_of_fmap. by exists d.
  - destruct Hx. rewrite <- Hid. apply list_elem_of_fmap. by exists c.
  - by apply IH.
Qed.

Lemma wf_nil : wf [].
Proof.
  split.
  - apply NoDup_nil_2.
  - intros c c' Hc. by apply elem_of_nil in Hc.
  - intros c Hc. by apply elem_of_nil in Hc.
Qed.

Lemma wf_deleteMany (query : Comment.t → bool) cs :
  wf cs → wf (Comment.deleteMany query cs).
Proof.
  intros [Hids Htwo Hlikes]. split.
  - unfold Comment.deleteMany. clear Htwo Hlikes.
    induction cs as [|d cs IH]; simpl; [done|].
    rewrite fmap_cons in Hids. apply NoDup_cons in Hids as [Hd Hids].
    destruct (negb (query d)); [|by apply IH].
    rewrite fmap_cons. apply NoDup_cons. split; [|by apply IH].
    intros (d' & Hid & Hd')%list_elem_of_fmap. apply Hd.
    apply list_elem_of_fmap. exists d'. split; [done|].
    apply list_elem_of_In. apply list_elem_of_In in Hd'.
    by apply List.filter_In in Hd' as [Hd' _].
  - intros c c' [Hc _]%elem_of_deleteMany [Hc' _]%elem_of_deleteMany.
    by apply Htwo.
  - intros c [Hc _]%elem_of_deleteMany. by apply Hlikes.
Qed.

Lemma wf_save cs c c' :
  wf cs → c ∈ cs →
  Comment._id c' = Comment._id c →
  Comment.parentId c' = Comment.parentId c →
  likes_wf c' →
  wf (Comment.save c' cs).
Proof.
  intros [Hids Htwo Hlikes] Hc Hid Hparent Hwf'.
  assert (∀ d, d ∈ Comment.save c' cs →
               ∃ d0, d0 ∈ cs ∧ Comment._id d = Comment._id d0
                     ∧ Comment.parentId d = Comment.parentId d0
                     ∧ likes_wf d) as Hback.
  { intros d [Hd|[-> (d0 & Hd0 & Hd0id)]]%elem_of_save.
    - exists d. auto.
    - exists c. auto. }
  split.
  - by rewrite ids_save.
  - intros x y Hx Hy Hxy.
    destruct (Hback x Hx) as (x0 & Hx0 & Hxid & Hxp & _).
    destruct (Hback y Hy) as (y0 & Hy0 & Hyid & Hyp & _).
    rewrite Hyp. apply (Htwo x0 y0); [done..|]. congruence.
  - intros d Hd. by destruct (Hback d Hd) as (_ & _ & _ & _ & Hwf).
Qed.

Lemma wf_created cs c :
  wf cs →
  (∀ d, d ∈ cs → Comment._id d ≠ Comment._id c
                 ∧ Comment.parentId d ≠ Some (Comment._id c)) →
  likes_wf c →
  (∀ p, Comment.parentId c = Some p →
        p ≠ Comment._id c
        ∧ ∀ d, d ∈ cs → Comment._id d = p → Comment.parentId d = None) →
  wf (cs ++ [c]).
Proof.
  intros [Hids Htwo Hlikes] Hfresh Hwf Hparent. split.
  - rewrite fmap_app. apply NoDup_app. split; [done|].
    split; [|apply NoDup_singleton].
    intros x (d & -> & Hd)%list_elem_of_fmap Hx%list_elem_of_singleton.
    by destruct (Hfresh d Hd).
  - intros x y [Hx|Hx%list_elem_of_singleton]%elem_of_app
      [Hy|Hy%list_elem_of_singleton]%elem_of_app Hxy; subst.
    + by apply (Htwo x y).
    + by destruct (Hfresh x Hx).
    + destruct (Hparent _ Hxy) as [_ Hp]. by apply Hp.
    + by destruct (Hparent _ Hxy).
  - intros d [Hd|Hd%list_elem_of_singleton]%elem_of_app; subst; auto.
Qed.

(** Every state that requests can produce satisfies the invariant: ids are
    unique, a [parentId] points to a top-level comment, no user is twice
    in the likes of a comment, and [likeCount] is the number of likes. *)
Lemma reachable_wf db : reachable db → wf (comments db).
Proof.
  induction 1 as
    [ | env user body db _ IH Hfresh | env user body db _ IH Hfresh
      | env user body db _ IH | user id db _ IH | blogId db _ IH
      | db db' _ IH Hsame ].
  - apply wf_nil.
  - destruct (createComment_comments env user body db)
      as [->|(content & blogId & ->)]; [done|].
    apply wf_created; [done| |by split; [apply NoDup_nil_2|]|done].
    intros d Hd. apply (Hfresh d Hd).
  - destruct (createReply_comments env user body db)
      as [->|(content & commentId & replyTo & parent & Hparent & ->)];
      [done|].
    apply findById_Some in Hparent as [Hin Hid].
    apply wf_created; [done| |by split; [apply NoDup_nil_2|]|].
    + intros d Hd. apply (Hfresh d Hd).
    + simpl. intros p [= <-].
      destruct (Hfresh parent Hin) as [Hne1 Hne2].
      destruct (Comment.parentId parent) as [q|] eqn:Hq; simpl.
      * split; [congruence|]. intros d Hd Hdq.
        apply (wf_two_level _ IH parent d); [done..|congruence].
      * split; [done|]. intros d Hd Hdp.
        by rewrite (NoDup_ids_inj _ d parent (wf_ids _ IH) Hd Hin Hdp).
  - destruct (toggleLike_comments env user body db)
      as [->|(c & c' & Hc & Hid & Hp & Hwf & ->)]; [done|].
    apply wf_save with c; [done..|].
    apply Hwf. by destruct (wf_likes _ IH c Hc).
  - destruct (deleteComment_comments user id db) as [->| ->]; [done|].
    by apply wf_deleteMany.
  - simpl. by apply wf_deleteMany.
  - by rewrite Hsame.
Qed.

End ThreadInvariant.

(* --------------------------------------------------------------------- *)
(** ** More of the follow routes *)
(* --------------------------------------------------------------------- *)

Section FollowMore.
Import FollowRoutes AuthRoutes Social FollowStatus.
Implicit Types (users : gmap ObjectId User.t) (user : Token.t).
Implicit Types (A B k : ObjectId) (u : User.t) (now : Date).

(** A user cannot follow themselves: whatever the state, a Follow whose
    target is the caller is answered 400 "不能关注自己" and changes
    nothing. *)
Theorem follow_self_rejected user now users :
  Token.userId user ≠ EmptyString →
  follow user (request (Token.userId user)) now users
  = (reply 400 false (js "不能关注自己"), users).
Proof.
  intros HA. unfold follow. rewrite validate_request by done.
  by rewrite bool_decide_eq_true_2.
Qed.

Lemma follow_self_rejected_witness :
  follow (Sample.token Sample.alice Role.user) (request Sample.alice) 2000
    Sample.strangers
  = (reply 400 false (js "不能关注自己"), Sample.strangers).
Proof.
  apply (follow_self_rejected (Sample.token Sample.alice Role.user) 2000
           Sample.strangers).
  discriminate.
Defined.


(** A caller whose token outlives their user document (the document was
    deleted) gets 500 from Follow and from Unfollow of an existing user:
    reading [following] of the missing document throws, the handler's catch
    answers, nothing is written. *)
Theorem follow_without_document user B now users :
  Token.userId user ≠ B → B ≠ EmptyString →
  users !! Token.userId user = None → is_Some (users !! B) →
  follow user (request B) now users
  = (replyError 500 (js "关注失败") TypeError, users)
  ∧ unfollow user (request B) now users
    = (replyError 500 (js "取消关注失败") TypeError, users).
Proof.
  intros HAB HB HA [ub HBdoc]. unfold follow, unfollow.
  rewrite validate_request by done. unfold User.findById.
  rewrite bool_decide_eq_false_2 by done. by rewrite HBdoc, HA.
Qed.

Lemma follow_without_document_witness :
  follow (Sample.token Sample.carol Role.user) (request Sample.bob) 2000
    Sample.strangers
  = (replyError 500 (js "关注失败") TypeError, Sample.strangers)
  ∧ unfollow (Sample.token Sample.carol Role.user) (request Sample.bob) 2000
      Sample.strangers
    = (replyError 500 (js "取消关注失败") TypeError, Sample.strangers).
Proof.
  apply (follow_without_document (Sample.token Sample.carol Role.user)
           Sample.bob 2000 Sample.strangers).
  - discriminate.
  - discriminate.
  - reflexivity.
  - by eexists.
Defined.

(** Unfollow of a followed user answers 200 and pulls both ways: the
    target is no longer in the caller's following list, the caller no
    longer in the target's followers, and both lists keep their other
    members in order. Unfollow of a user with a document that the caller
    does not follow answers 400 "未关注该用户". *)
Theorem unfollow_pulls_both_lists user B now users ua ub :
  Token.userId user ≠ B → B ≠ EmptyString →
  users !! Token.userId user = Some ua → users !! B = Some ub →
  (B ∈ User.following ua →
   ∃ users' ua' ub',
     unfollow user (request B) now users
       = (reply 200 true (js "取消关注成功"), users')
     ∧ users' !! Token.userId user = Some ua'
     ∧ users' !! B = Some ub'
     ∧ User.following ua' = filter (λ x, x ≠ B) (User.following ua)
     ∧ User.followers ub'
       = filter (λ x, x ≠ Token.userId user) (User.followers ub)
     ∧ (B ∉ User.following ua')
     ∧ (Token.userId user ∉ User.followers ub'))
  ∧ (B ∉ User.following ua →
     unfollow user (request B) now users
     = (reply 400 false (js "未关注该用户"), users)).
Proof.
  intros HAB HB HA HBdoc. split.
  - intros Hin. set (A := Token.userId user) in *.
    pose proof (unfollowed_lookup A B now users A) as HlA.
    pose proof (unfollowed_lookup A B now users B) as HlB.
    rewrite HA in HlA. rewrite HBdoc in HlB.
    inversion HlA as [? ua' (_ & HfA & _) Hx HuA|]; subst.
    inversion HlB as [? ub' (_ & _ & HfB & _) Hx HuB|]; subst.
    rewrite decide_True in HfA by done. rewrite decide_True in HfB by done.
    exists (unfollowed A B now users), ua', ub'.
    split; [by eapply unfollow_ok|].
    do 4 (split; [done|]).
    rewrite HfA, HfB. split; intros Hx%elem_of_pull; by destruct Hx.
  - intros Hnot. unfold unfollow. rewrite validate_request by done.
    unfold User.findById. rewrite HBdoc, HA. simpl.
    by rewrite bool_decide_eq_false_2.
Qed.

Lemma unfollow_pulls_both_lists_witness :
  ∃ users' ua' ub',
    unfollow (Sample.token Sample.alice Role.user) (request Sample.carol)
      2000 Sample.alice_follows_carol
      = (reply 200 true (js "取消关注成功"), users')
    ∧ users' !! Sample.alice = Some ua'
    ∧ users' !! Sample.carol = Some ub'
    ∧ User.following ua' = filter (λ x, x ≠ Sample.carol) [Sample.carol]
    ∧ User.followers ub' = filter (λ x, x ≠ Sample.alice) [Sample.alice]
    ∧ (Sample.carol ∉ User.following ua')
    ∧ (Sample.alice ∉ User.followers ub').
Proof.
  destruct (unfollow_pulls_both_lists (Sample.token Sample.alice Role.user)
              Sample.carol 2000 Sample.alice_follows_carol
              (Sample.doc "alice" [Sample.carol] [])
              (Sample.doc "carol" [] [Sample.alice])) as [Hok _].
  - discriminate.
  - discriminate.
  - reflexivity.
  - reflexivity.
  - apply Hok. apply list_elem_of_here.
Defined.

(** *** GET /status *)

(** GET /status tells what the follow routes did: for distinct users with
    documents where A does not follow B it answers [isFollowing: false];
    after A's Follow of B, [true]; after the Unfollow that undoes it,
    [false] again. *)
Theorem status_tracks_follow user B now now' users ua ub :
  Token.userId user ≠ B → Token.userId user ≠ EmptyString →
  B ≠ EmptyString →
  users !! Token.userId user = Some ua → users !! B = Some ub →
  B ∉ User.following ua →
  let users1 := (follow user (request B) now users).2 in
  let users2 := (unfollow user (request B) now' users1).2 in
  data (getStatus (ask (Token.userId user) B) users) = Some false
  ∧ data (getStatus (ask (Token.userId user) B) users1) = Some true
  ∧ data (getStatus (ask (Token.userId user) B) users2) = Some false.
Proof.
  intros HAB HA HB HAdoc HBdoc Hnot. cbv zeta.
  set (A := Token.userId user) in *.
  assert (∀ users0 u0, users0 !! A = Some u0 →
            data (getStatus (ask A B) users0)
            = Some (bool_decide (B ∈ User.following u0))) as Hstatus.
  { intros users0 u0 Hu0. unfold getStatus, ask, joiString. simpl.
    rewrite (proj1 (idTruthy_ne A) HA), (proj1 (idTruthy_ne B) HB).
    unfold User.findById. by rewrite Hu0. }
  pose proof (followed_actor A B now users ua HAB HAdoc) as HA1.
  pose proof (followed_target A B now users ub HAB HBdoc) as HB1.
  assert ((follow user (request B) now users).2 = followed A B now users)
    as -> by by rewrite (follow_ok user B now users ua ub).
  assert ((unfollow user (request B) now' (followed A B now users)).2
          = unfollowed A B now' (followed A B now users)) as ->.
  { rewrite (unfollow_ok user B now' _ _ _ HB HA1 HB1); [done|].
    simpl. apply elem_of_app. right. by apply list_elem_of_singleton. }
  split; [|split].
  - rewrite (Hstatus _ _ HAdoc). by rewrite bool_decide_eq_false_2.
  - rewrite (Hstatus _ _ HA1). rewrite bool_decide_eq_true_2; [done|].
    simpl. apply elem_of_app. right. by apply list_elem_of_singleton.
  - pose proof (unfollowed_lookup A B now' (followed A B now users) A) as Hl.
    rewrite HA1 in Hl.
    inversion Hl as [? u2 (_ & Hf & _) Hx Hu2|]; subst.
    rewrite decide_True in Hf by done.
    rewrite (Hstatus _ u2) by done. rewrite bool_decide_eq_false_2; [done|].
    rewrite Hf. intros Hx%elem_of_pull. by destruct Hx.
Qed.

Lemma status_tracks_follow_witness :
  let user := Sample.token Sample.alice Role.user in
  let users1 := (follow user (request Sample.bob) 2000 Sample.strangers).2 in
  let users2 := (unfollow user (request Sample.bob) 3000 users1).2 in
  data (getStatus (ask (Token.userId user) Sample.bob) Sample.strangers)
  = Some false
  ∧ data (getStatus (ask (Token.userId user) Sample.bob) users1) = Some true
  ∧ data (getStatus (ask (Token.userId user) Sample.bob) users2)
    = Some false.
Proof.
  apply (status_tracks_follow (Sample.token Sample.alice Role.user)
           Sample.bob 2000 3000 Sample.strangers
           (Sample.doc "alice" [] []) (Sample.doc "bob" [] [])).
  - discriminate.
  - discriminate.
  - discriminate.
  - reflexivity.
  - reflexivity.
  - apply not_elem_of_nil.
Defined.

(** *** GET /me and GET /info *)

Lemma lookup_update_eq i upd now users u :
  users !! i = Some u →
  User.findByIdAndUpdate i upd now users !! i
  = Some (User.with_updatedAt now (User.apply upd u)).
Proof.
  intros Hu. rewrite lookup_findByIdAndUpdate, Hu. simpl.
  by rewrite decide_True.
Qed.

Lemma me_found decoded now users doc :
  users !! Token.userId decoded = Some doc →
  me (bearer (Some decoded)) now users
  = (replyData 200 true None
       (User.with_counts (length (User.followers doc))
          (length (User.following doc)) (select_without_password doc)),
     if stale doc
     then User.findByIdAndUpdate (Token.userId decoded)
            (User.set_counts (length (User.followers doc))
               (length (User.following doc))) now users
     else users).
Proof. intros Hdoc. unfold me, User.findById. by rewrite Hdoc. Qed.

(** GET /me brings the stored counts of the caller in line with the lists
    and is idempotent on the state: a second call writes nothing. *)
Theorem me_synchronises_counts decoded now now' users doc :
  users !! Token.userId decoded = Some doc →
  ∃ doc',
    (me (bearer (Some decoded)) now users).2 !! Token.userId decoded
    = Some doc'
    ∧ User.followersCount doc' = length (User.followers doc)
    ∧ User.followingCount doc' = length (User.following doc)
    ∧ User.following doc' = User.following doc
    ∧ User.followers doc' = User.followers doc
    ∧ status (me (bearer (Some decoded)) now users).1 = 200%nat
    ∧ (me (bearer (Some decoded)) now'
         (me (bearer (Some decoded)) now users).2).2
      = (me (bearer (Some decoded)) now users).2.
Proof.
  intros Hdoc. rewrite (me_found decoded now users doc Hdoc).
  cbn [fst snd]. destruct (stale doc) eqn:Hstale.
  - pose proof (lookup_update_eq (Token.userId decoded)
                  (User.set_counts (length (User.followers doc))
                     (length (User.following doc))) now users doc Hdoc)
      as Hdoc'.
    eexists. split; [exact Hdoc'|]. do 5 (split; [done|]).
    rewrite (me_found decoded now' _ _ Hdoc'). cbn [snd].
    unfold stale. simpl. by rewrite !Nat.eqb_refl.
  - exists doc. unfold stale in Hstale.
    apply orb_false_elim in Hstale as [H1 H2].
    apply negb_false_iff, Nat.eqb_eq in H1, H2.
    do 6 (split; [done|]).
    rewrite (me_found decoded now' _ _ Hdoc). cbn [snd].
    unfold stale. by rewrite H1, H2, !Nat.eqb_refl.
Qed.

Lemma me_synchronises_counts_witness :
  ∃ doc',
    (me (bearer (Some (Sample.token Sample.alice Role.user))) 2000
       Sample.alice_follows_carol).2
      !! Token.userId (Sample.token Sample.alice Role.user)
    = Some doc'
    ∧ User.followersCount doc'
      = length (User.followers (Sample.doc "alice" [Sample.carol] []))
    ∧ User.followingCount doc'
      = length (User.following (Sample.doc "alice" [Sample.carol] []))
    ∧ User.following doc'
      = User.following (Sample.doc "alice" [Sample.carol] [])
    ∧ User.followers doc'
      = User.followers (Sample.doc "alice" [Sample.carol] [])
    ∧ status (me (bearer (Some (Sample.token Sample.alice Role.user))) 2000
                Sample.alice_follows_carol).1 = 200%nat
    ∧ (me (bearer (Some (Sample.token Sample.alice Role.user))) 3000
         (me (bearer (Some (Sample.token Sample.alice Role.user))) 2000
            Sample.alice_follows_carol).2).2
      = (me (bearer (Some (Sample.token Sample.alice Role.user))) 2000
           Sample.alice_follows_carol).2.
Proof.
  apply (me_synchronises_counts (Sample.token Sample.alice Role.user)
           2000 3000 Sample.alice_follows_carol
           (Sample.doc "alice" [Sample.carol] [])).
  reflexivity.
Defined.

(** GET /info counts documents, not ids: the [followingCount] and
    [followersCount] it reports are the numbers of listed ids that still
    have a user document, so never more than the lengths of the stored
    lists, and equal to them when every listed user exists. *)
Theorem info_counts_existing_users user users doc :
  Token.userId user ≠ EmptyString →
  users !! Token.userId user = Some doc →
  reportedFollowing user users
  = Some (length (filter (λ id, is_Some (users !! id)) (User.following doc)))
  ∧ reportedFollowers user users
    = Some (length (filter (λ id, is_Some (users !! id)) (User.followers doc)))
  ∧ (∀ n, reportedFollowing user users = Some n →
          (n ≤ length (User.following doc))%nat)
  ∧ (∀ n, reportedFollowers user users = Some n →
          (n ≤ length (User.followers doc))%nat).
Proof.
  intros HA Hdoc.
  assert (∀ l : list ObjectId,
            length (User.populate l users)
            = length (filter (λ id, is_Some (users !! id)) l)) as Hpop.
  { intros l. unfold User.populate.
    induction l as [|id l IH]; [done|]. simpl.
    destruct (users !! id) as [u|] eqn:Hid; simpl.
    - rewrite filter_cons_True by (by rewrite Hid). simpl. f_equal. exact IH.
    - rewrite filter_cons_False; [exact IH|]. rewrite Hid.
      by intros [? ?]. }
  rewrite (reportedFollowing_eq _ _ _ HA Hdoc).
  rewrite (reportedFollowers_eq _ _ _ HA Hdoc). rewrite !Hpop.
  split; [done|]. split; [done|].
  split; intros n [= <-]; apply length_filter.
Qed.

Lemma info_counts_existing_users_witness :
  reportedFollowing (Sample.token Sample.alice Role.user)
    (User.findByIdAndDelete Sample.carol Sample.alice_follows_carol)
  = Some (length
            (filter
               (λ id, is_Some
                        (User.findByIdAndDelete Sample.carol
                           Sample.alice_follows_carol !! id))
               (User.following (Sample.doc "alice" [Sample.carol] [])))).
Proof.
  apply (info_counts_existing_users (Sample.token Sample.alice Role.user)
           (User.findByIdAndDelete Sample.carol Sample.alice_follows_carol)
           (Sample.doc "alice" [Sample.carol] [])).
  - discriminate.
  - vm_compute. reflexivity.
Defined.

(** *** The lists are sets, mirrored both ways *)









End FollowMore.

(* --------------------------------------------------------------------- *)
(** ** What the content filter lets into the comment collection *)
(* --------------------------------------------------------------------- *)

Section ModerationFacts.
Import ContentFilter CommentRoutes Threads Moderation.
Context `{JsRuntime}.
Implicit Types (c d : Comment.t) (cs : list Comment.t) (db : Db).
Implicit Types (env : Env) (user : Token.t).

Lemma bannedWords_caseless w :
  w ∈ bannedWords → forallb caseless w = true.
Proof.
  unfold bannedWords. intros [Hw|Hw]%elem_of_app.
  - pose proof sensitiveWords_caseless as Hall.
    rewrite forallb_forall in Hall. by apply Hall, list_elem_of_In.
  - pose proof politicalSensitiveWords_caseless as Hall.
    rewrite forallb_forall in Hall. by apply Hall, list_elem_of_In.
Qed.

Lemma strict_valid_no_bannedWords (text : jsString) :
  isValid (checkSensitiveContent text (Some true)) = true →
  ∀ w, w ∈ bannedWords → includes text w = false.
Proof.
  intros Hvalid w Hw.
  destruct (includes text w) eqn:Hinc; [|done]. exfalso.
  assert (truthy w = true) as Hwt.
  { unfold bannedWords in Hw. apply list_elem_of_In in Hw.
    assert (forallb truthy bannedWords = true) as Hall
      by (vm_compute; reflexivity).
    rewrite forallb_forall in Hall. by apply Hall. }
  pose proof (includes_truthy _ _ Hwt Hinc) as Htext.
  rewrite checkSensitiveContent_isValid in Hvalid.
  rewrite (checkSensitiveContent_found _ _ Htext) in Hvalid.
  assert (w ∈ found_in (toLowerCase text) true) as Hfound.
  { pose proof (toLowerCase_includes text w (bannedWords_caseless w Hw) Hinc)
      as Hlow.
    unfold found_in, bannedWords in *.
    apply elem_of_app in Hw as [Hw|Hw]; apply elem_of_app; [left|right];
      apply list_elem_of_In, List.filter_In; split;
      (done || by apply list_elem_of_In). }
  simpl in Hvalid.
  destruct (found_in (toLowerCase text) true); [|done].
  by apply elem_of_nil in Hfound.
Qed.

Lemma trim_length_truthy (s : jsString) :
  Nat.eqb (strLength (trim s)) 0 = false → truthy (trim s) = true.
Proof. unfold strLength. by destruct (trim s). Qed.

(** The options of the comment routes admit clean texts only. *)
Lemma validateContent_clean (content : jsString) :
  vIsValid (validateContent content contentOptions) = true → clean content.
Proof.
  unfold validateContent, contentOptions.
  cbn [minLength maxLength allowEmpty strictMode default from_option].
  unfold id.
  destruct (negb (truthy content) || Nat.eqb (strLength (trim content)) 0)
    eqn:Hblank; [done|].
  apply orb_false_elim in Hblank as [_ Htrim].
  destruct (Nat.ltb (strLength content) 1) eqn:Hmin; [done|].
  destruct (Nat.ltb 1000 (strLength content)) eqn:Hmax; [done|].
  destruct (isValid (checkSensitiveContent content (Some true))) eqn:Hcheck;
    [|done].
  intros _. split; [by apply trim_length_truthy|]. split.
  - apply Nat.ltb_ge in Hmin, Hmax. lia.
  - by apply strict_valid_no_bannedWords.
Qed.

End ModerationFacts.

Section CommentRouteCases.
Import ContentFilter CommentRoutes Threads Moderation.
Context `{JsRuntime}.
Implicit Types (c d : Comment.t) (cs : list Comment.t) (db : Db).
Implicit Types (id : ObjectId) (env : Env) (user : Token.t).

(** POST /create either refuses, with 400 or 404 and the state as it was,
    or has a body that passes validation for a blog that exists. *)
Lemma createComment_cases env user body db :
  ((createComment env user body db).2 = db
   ∧ status (createComment env user body db).1 ∈ [400; 404]%nat)
  ∨ ∃ content blogId blog,
      body = createRequest content blogId
      ∧ vIsValid (validateContent content contentOptions) = true
      ∧ blogId ≠ EmptyString ∧ blogs db !! blogId = Some blog.
Proof.
  destruct body as [[content|] blogId];
    [|left; unfold createComment, joiString; simpl; split; [done|set_solver]].
  destruct (truthy content) eqn:Ht;
    [|left; unfold createComment, joiString; simpl; rewrite Ht;
      split; [done|set_solver]].
  destruct blogId as [blogId|];
    [|left; unfold createComment, joiString; simpl; rewrite Ht;
      split; [done|set_solver]].
  destruct (idTruthy blogId) eqn:Hi;
    [|left; unfold createComment, joiString; simpl; rewrite Ht, Hi;
      split; [done|set_solver]].
  destruct (vIsValid (validateContent content contentOptions)) eqn:Hv;
    [|left; unfold createComment, joiString; simpl; rewrite Ht, Hi, Hv;
      split; [done|set_solver]].
  destruct (blogs db !! blogId) as [blog|] eqn:Hblog;
    [|left; unfold createComment, joiString; simpl;
      rewrite Ht, Hi, Hv, Hblog; split; [done|set_solver]].
  right. exists content, blogId, blog. apply idTruthy_ne in Hi. done.
Qed.

(** POST /reply either refuses, with 400 or 404 and the state as it was,
    or has a body that passes validation for a comment that exists. *)
Lemma createReply_cases env user body db :
  ((createReply env user body db).2 = db
   ∧ status (createReply env user body db).1 ∈ [400; 404]%nat)
  ∨ ∃ content commentId replyTo blogId parentComment,
      body = replyRequest content commentId replyTo blogId
      ∧ vIsValid (validateContent content contentOptions) = true
      ∧ commentId ≠ EmptyString ∧ blogId ≠ EmptyString
      ∧ replyTo ≠ Some EmptyString
      ∧ Comment.findById commentId (comments db) = Some parentComment.
Proof.
  destruct body as [content commentId replyTo blogId].
  destruct content as [content|];
    [|left; unfold createReply, joiString; simpl; split; [done|set_solver]].
  destruct (truthy content) eqn:Ht;
    [|left; unfold createReply, joiString; simpl; rewrite Ht;
      split; [done|set_solver]].
  destruct commentId as [commentId|];
    [|left; unfold createReply, joiString; simpl; rewrite Ht;
      split; [done|set_solver]].
  destruct (idTruthy commentId) eqn:Hi;
    [|left; unfold createReply, joiString; simpl; rewrite Ht, Hi;
      split; [done|set_solver]].
  destruct (joiOptional "replyTo" replyTo) as [msg|replyTo'] eqn:Hopt;
    [left; unfold createReply, joiString; simpl; rewrite Ht, Hi, Hopt;
     split; [done|set_solver]|].
  assert (replyTo' = replyTo ∧ replyTo ≠ Some EmptyString) as [-> HreplyTo].
  { destruct replyTo as [r|]; simpl in Hopt; [|by injection Hopt as <-].
    destruct (idTruthy r) eqn:Hr; [|done]. injection Hopt as <-.
    split; [done|]. intros [= ->]. done. }
  destruct blogId as [blogId|];
    [|left; unfold createReply, joiString; simpl; rewrite Ht, Hi, Hopt;
      split; [done|set_solver]].
  destruct (idTruthy blogId) eqn:Hb;
    [|left; unfold createReply, joiString; simpl; rewrite Ht, Hi, Hopt, Hb;
      split; [done|set_solver]].
  destruct (vIsValid (validateContent content contentOptions)) eqn:Hv;
    [|left; unfold createReply, joiString; simpl;
      rewrite Ht, Hi, Hopt, Hb, Hv; split; [done|set_solver]].
  destruct (Comment.findById commentId (comments db)) as [parent|] eqn:Hparent;
    [|left; unfold createReply, joiString; simpl;
      rewrite Ht, Hi, Hopt, Hb, Hv, Hparent; split; [done|set_solver]].
  right. exists content, commentId, replyTo, blogId, parent.
  apply idTruthy_ne in Hi, Hb. done.
Qed.


(** A text with a listed word in it is refused by both creating routes:
    when it is not blank and within 1000 code units, POST /create and
    POST /reply answer 400 with the sensitive-word message and store
    nothing, before any blog or comment is looked up. *)
Theorem banned_content_refused env user content w db :
  w ∈ bannedWords → includes content w = true →
  truthy (trim content) = true → (strLength content ≤ 1000)%nat →
  (∀ blogId,
     blogId ≠ EmptyString →
     createComment env user (createRequest content blogId) db
     = (reply 400 false (js "评论" ++ js "内容包含不当词汇，请修改后重试"), db))
  ∧ (∀ commentId replyTo blogId,
       commentId ≠ EmptyString → blogId ≠ EmptyString →
       replyTo ≠ Some EmptyString →
       createReply env user
         (replyRequest content commentId replyTo blogId) db
       = (reply 400 false (js "回复" ++ js "内容包含不当词汇，请修改后重试"),
          db)).
Proof.
  intros Hw Hinc Htrim Hmax.
  assert (truthy content = true) as Htruthy.
  { destruct content; [|done]. by destruct w. }
  assert (validateContent content contentOptions
          = {| vIsValid := false;
               vMessage := js "内容包含不当词汇，请修改后重试";
               vFoundWords :=
                 Some (foundWords
                         (checkSensitiveContent content (Some true))) |})
    as Hvalidate.
  { unfold validateContent, contentOptions.
    cbn [minLength maxLength allowEmpty strictMode default from_option].
    unfold id. rewrite Htruthy.
    assert (Nat.eqb (strLength (trim content)) 0 = false) as ->
      by (unfold strLength; by destruct (trim content)).
    assert (Nat.ltb (strLength content) 1 = false) as ->.
    { apply Nat.ltb_ge. unfold strLength. destruct content; [done|simpl; lia]. }
    assert (Nat.ltb 1000 (strLength content) = false) as ->
      by by apply Nat.ltb_ge.
    destruct (isValid (checkSensitiveContent content (Some true)))
      eqn:Hcheck; [|done].
    pose proof (strict_valid_no_bannedWords content Hcheck w Hw). congruence. }
  split.
  - intros blogId Hid%idTruthy_ne.
    unfold createComment, createRequest, joiString. simpl.
    by rewrite Htruthy, Hid, Hvalidate.
  - intros commentId replyTo blogId Hid%idTruthy_ne Hbid%idTruthy_ne HreplyTo.
    assert (joiOptional "replyTo" replyTo = inr replyTo) as Hopt.
    { destruct replyTo as [r|]; [|done]. unfold joiOptional.
      destruct (idTruthy r) eqn:Hr; [done|].
      destruct r; [done|discriminate]. }
    unfold createReply, replyRequest, joiString. simpl.
    by rewrite Htruthy, Hid, Hopt, Hbid, Hvalidate.
Qed.

End CommentRouteCases.

Section ThreadMore.
Import ContentFilter CommentRoutes Threads Moderation.
Context `{JsRuntime}.
Implicit Types (c d : Comment.t) (cs : list Comment.t) (db : Db).
Implicit Types (id : ObjectId) (env : Env) (user : Token.t).

Lemma createComment_stored env user content blogId blog db :
  vIsValid (validateContent content contentOptions) = true →
  blogId ≠ EmptyString → blogs db !! blogId = Some blog →
  comments (createComment env user (createRequest content blogId) db).2
  = comments db ++ [commentOf env user content blogId].
Proof.
  intros Hv Hid Hblog.
  destruct (createComment_valid env user content blogId blog db Hv Hid Hblog)
    as (db' & -> & [->|(_ & _ & _ & n & -> & _)]); done.
Qed.

Lemma createReply_stored env user content commentId replyTo blogId parent db :
  vIsValid (validateContent content contentOptions) = true →
  commentId ≠ EmptyString → blogId ≠ EmptyString →
  replyTo ≠ Some EmptyString →
  Comment.findById commentId (comments db) = Some parent →
  comments
    (createReply env user (replyRequest content commentId replyTo blogId)
       db).2
  = comments db ++ [replyOf env user content parent replyTo db].
Proof.
  intros Hv Hid Hbid HreplyTo Hparent.
  destruct (createReply_valid env user content commentId replyTo blogId
              parent db Hv Hid Hbid HreplyTo Hparent)
    as (db' & -> & [->|(_ & _ & n & -> & _)]); done.
Qed.

Lemma toggleLike_stored env user commentId db c :
  commentId ≠ EmptyString →
  Comment.findById commentId (comments db) = Some c →
  ∃ likes n,
    comments (toggleLike env user (likeRequest commentId) db).2
    = Comment.save (Comment.with_likes likes n c) (comments db)
    ∧ users (toggleLike env user (likeRequest commentId) db).2 = users db
    ∧ blogs (toggleLike env user (likeRequest commentId) db).2 = blogs db.
Proof.
  intros Hid Hfind.
  destruct (findIndex (λ like, bool_decide (like = Token.userId user))
              (Comment.likes c)) as [i|] eqn:Hindex.
  - rewrite (toggleLike_remove _ _ _ _ _ _ Hid Hfind Hindex).
    by eexists _, _.
  - apply findIndex_likes_None in Hindex.
    destruct (toggleLike_add env user commentId db c Hid Hfind Hindex)
      as (db' & -> & Hcs & Husers & Hblogs & _).
    by eexists _, _.
Qed.

(** Whatever the comment routes store has passed the content filter: in
    every state that requests can produce, every comment and reply is not
    blank, is 1 to 1000 code units long and has none of the listed words
    in it. Likes, deletions and the deletion of a blog keep that. *)
Theorem stored_comments_are_clean db :
  reachable db → all_clean (comments db).
Proof.
  unfold all_clean. rewrite Forall_forall.
  induction 1 as
    [ | env user body db _ IH Hfresh | env user body db _ IH Hfresh
      | env user body db _ IH | user id db _ IH | blogId db _ IH
      | db db' _ IH Hsame ]; intros c Hc.
  - by apply elem_of_nil in Hc.
  - destruct (createComment_cases env user body db)
      as [[Hdb _]|(content & blogId & blog & -> & Hv & Hid & Hblog)].
    + rewrite Hdb in Hc. by apply IH.
    + rewrite (createComment_stored _ _ _ _ _ _ Hv Hid Hblog) in Hc.
      apply elem_of_app in Hc as [Hc|Hc%list_elem_of_singleton];
        [by apply IH|].
      subst c. simpl. by apply validateContent_clean.
  - destruct (createReply_cases env user body db)
      as [[Hdb _]|(content & commentId & replyTo & blogId & parent & ->
                   & Hv & Hid & Hbid & HreplyTo & Hparent)].
    + rewrite Hdb in Hc. by apply IH.
    + rewrite (createReply_stored _ _ _ _ _ _ _ _ Hv Hid Hbid HreplyTo
                 Hparent) in Hc.
      apply elem_of_app in Hc as [Hc|Hc%list_elem_of_singleton];
        [by apply IH|].
      subst c. simpl. by apply validateContent_clean.
  - destruct (toggleLike_cases env user body db)
      as [Hdb|(commentId & c0 & -> & Hid & Hfind)].
    + rewrite Hdb in Hc. by apply IH.
    + destruct (toggleLike_stored env user commentId db c0 Hid Hfind)
        as (likes & n & Hcs & _).
      rewrite Hcs in Hc. apply elem_of_save in Hc as [Hc|[-> _]];
        [by apply IH|].
      simpl. apply IH. by apply findById_Some in Hfind as [Hin _].
  - destruct (deleteComment_comments user id db) as [Heq|Heq];
      rewrite Heq in Hc; [by apply IH|].
    apply elem_of_deleteMany in Hc as [Hc _]. by apply IH.
  - simpl in Hc. apply elem_of_deleteMany in Hc as [Hc _]. by apply IH.
  - rewrite Hsame in Hc. by apply IH.
Qed.

Lemma elem_of_save_of c' cs x :
  x ∈ cs →
  (if bool_decide (Comment._id x = Comment._id c') then c' else x)
  ∈ Comment.save c' cs.
Proof.
  intros Hx. unfold Comment.save. apply list_elem_of_fmap. by exists x.
Qed.

Lemma anchored_snoc cs c :
  anchored cs →
  (∀ p, Comment.parentId c = Some p →
        ∃ top, top ∈ cs ∧ Comment._id top = p
               ∧ Comment.parentId top = None
               ∧ Comment.blog top = Comment.blog c) →
  anchored (cs ++ [c]).
Proof.
  intros Hcs Hnew d p [Hd|Hd%list_elem_of_singleton]%elem_of_app Hp.
  - destruct (Hcs d p Hd Hp) as (top & Htop & Hrest).
    exists top. split; [|done]. apply elem_of_app. by left.
  - subst d. destruct (Hnew p Hp) as (top & Htop & Hrest).
    exists top. split; [|done]. apply elem_of_app. by left.
Qed.

Lemma anchored_deleteMany (query : Comment.t → bool) cs :
  anchored cs →
  (∀ d top, d ∈ cs → top ∈ cs →
            Comment.parentId d = Some (Comment._id top) →
            Comment.parentId top = None →
            Comment.blog top = Comment.blog d →
            query d = false → query top = false) →
  anchored (Comment.deleteMany query cs).
Proof.
  intros Hcs Hquery d p [Hd Hkeep]%elem_of_deleteMany Hp.
  destruct (Hcs d p Hd Hp) as (top & Htop & Hid & Hnone & Hblog).
  exists top. split; [|done]. apply elem_of_deleteMany. split; [done|].
  apply (Hquery d top); try done. by rewrite Hid.
Qed.

Lemma anchored_save cs c likes n :
  NoDup (Comment._id <$> cs) → c ∈ cs → anchored cs →
  anchored (Comment.save (Comment.with_likes likes n c) cs).
Proof.
  intros Hnd Hc Hcs d p Hd Hp.
  assert (∃ d0, d0 ∈ cs ∧ Comment.parentId d0 = Some p
                ∧ Comment.blog d0 = Comment.blog d) as (d0 & Hd0 & Hp0 & Hb0).
  { apply elem_of_save in Hd as [Hd|[-> _]]; [by exists d|by exists c]. }
  destruct (Hcs d0 p Hd0 Hp0) as (top & Htop & Hid & Hnone & Hblog).
  pose proof (elem_of_save_of (Comment.with_likes likes n c) cs top Htop)
    as Hin.
  eexists. split; [exact Hin|].
  case_bool_decide as Hsame; [|by rewrite Hblog].
  simpl in Hsame.
  rewrite (NoDup_ids_inj cs top c Hnd Htop Hc Hsame) in *. simpl.
  by rewrite Hblog.
Qed.

(** Threads stay whole: in every state that requests can produce, the
    [parentId] of a reply names a top-level comment that is still in
    the collection and is on the same blog as the reply. A reply to a
    reply is filed under the top-level comment, and deleting a comment or
    a blog takes the replies along. *)
Theorem replies_keep_their_thread db :
  reachable db → anchored (comments db).
Proof.
  induction 1 as
    [ | env user body db Hreach IH Hfresh | env user body db Hreach IH Hfresh
      | env user body db Hreach IH | user id db Hreach IH
      | blogId db Hreach IH | db db' Hreach IH Hsame ].
  - intros c p Hc. by apply elem_of_nil in Hc.
  - destruct (createComment_cases env user body db)
      as [[Hdb _]|(content & blogId & blog & -> & Hv & Hid & Hblog)];
      [by rewrite Hdb|].
    rewrite (createComment_stored _ _ _ _ _ _ Hv Hid Hblog).
    by apply anchored_snoc.
  - destruct (createReply_cases env user body db)
      as [[Hdb _]|(content & commentId & replyTo & blogId & parent & ->
                   & Hv & Hid & Hbid & HreplyTo & Hparent)];
      [by rewrite Hdb|].
    rewrite (createReply_stored _ _ _ _ _ _ _ _ Hv Hid Hbid HreplyTo Hparent).
    apply anchored_snoc; [done|]. simpl. intros p [= <-].
    apply findById_Some in Hparent as [Hin _].
    destruct (Comment.parentId parent) as [q|] eqn:Hq; simpl.
    + by apply (IH parent q).
    + by exists parent.
  - destruct (toggleLike_cases env user body db)
      as [Hdb|(commentId & c0 & -> & Hid & Hfind)]; [by rewrite Hdb|].
    destruct (toggleLike_stored env user commentId db c0 Hid Hfind)
      as (likes & n & -> & _).
    apply anchored_save; [|by apply findById_Some in Hfind as [? _]|done].
    apply wf_ids. by apply reachable_wf.
  - destruct (deleteComment_comments user id db) as [->| ->]; [done|].
    apply anchored_deleteMany; [done|].
    intros d top _ _ Hp Hnone _. unfold Comment.id_or_parentId.
    intros [Hne Hpne]%orb_false_elim.
    apply bool_decide_eq_false in Hpne.
    rewrite Hnone.
    rewrite (bool_decide_eq_false_2 (None = Some id)) by done.
    rewrite orb_false_r. apply bool_decide_eq_false. congruence.
  - simpl. apply anchored_deleteMany; [done|].
    intros d top _ _ _ _ Hblog. unfold Comment.of_blog. by rewrite Hblog.
  - by rewrite Hsame.
Qed.

(** Deleting is decided by the role alone. The token payload carries no
    [_id], so the author test of [requireCommentAuthor] never lets anybody
    through: an admin deletes any comment, and everybody else is answered
    403 with nothing deleted, the author of the comment included. *)
Theorem delete_is_for_admins user id db c :
  Comment.findById id (comments db) = Some c →
  (Token.role user = Role.admin →
   status (deleteComment user id db).1 = 200%nat)
  ∧ (Token.role user ≠ Role.admin →
     deleteComment user id db
     = (reply 403 false (js "只能删除自己的评论"), db)).
Proof.
  intros Hfind. split; intros Hrole.
  - by rewrite (deleteComment_admin user id db c Hfind Hrole).
  - by apply delete_requires_admin with c.
Qed.

(** A like or unlike touches nothing but [likes] and [likeCount] of the
    comment it names: users and blogs stay as they are, the collection
    keeps its comments in place, every comment keeps its other fields, and
    every comment with another id is left as it was. *)
Theorem toggle_like_frame env user body db :
  NoDup (Comment._id <$> comments db) →
  users (toggleLike env user body db).2 = users db
  ∧ blogs (toggleLike env user body db).2 = blogs db
  ∧ Forall2
      (λ d d',
         same_but_likes d d'
         ∧ (Some (Comment._id d) ≠ LikeBody.commentId body → d' = d))
      (comments db) (comments (toggleLike env user body db).2).
Proof.
  intros Hnd.
  destruct (toggleLike_cases env user body db)
    as [Hdb|(commentId & c0 & -> & Hid & Hfind)].
  - rewrite Hdb. do 2 (split; [done|]).
    apply Forall_Forall2_diag, Forall_forall. by intros d _.
  - destruct (toggleLike_stored env user commentId db c0 Hid Hfind)
      as (likes & n & -> & -> & ->).
    do 2 (split; [done|]).
    unfold Comment.save. apply Forall2_fmap_r.
    apply Forall_Forall2_diag, Forall_forall. intros d Hd.
    apply findById_Some in Hfind as [Hin Hid0]. unfold compose.
    case_bool_decide as Hsame; [|done]. simpl in Hsame.
    rewrite (NoDup_ids_inj _ d c0 Hnd Hd Hin Hsame). split; [done|].
    intros Hother. destruct Hother. simpl. by rewrite Hid0.
Qed.

(** POST /reply files the reply under the blog of the comment it answers,
    whatever [blogId] the body gives, and tells the user replied to: when
    that is another user than the caller, the caller has a document, the
    blog is in store with a title of at most 479 code units and the
    notification store takes the write, exactly one notification of type
    'reply' is appended, for that user, and its text starts with
    "undefined", the caller's [name], which no user document has. A reply
    to oneself notifies nobody. *)
Theorem reply_notification env user content commentId replyTo blogId parent
    db :
  vIsValid (validateContent content contentOptions) = true →
  commentId ≠ EmptyString → blogId ≠ EmptyString →
  replyTo ≠ Some EmptyString →
  Comment.findById commentId (comments db) = Some parent →
  let target := default (Comment.user parent) replyTo in
  let db' :=
    (createReply env user (replyRequest content commentId replyTo blogId)
       db).2 in
  (∃ r, comments db' = comments db ++ [r]
        ∧ Comment.blog r = Comment.blog parent
        ∧ Comment.replyTo r = Some target
        ∧ Comment.user r = Token.userId user)
  ∧ (target = Token.userId user → notifications db' = notifications db)
  ∧ (∀ sender blog,
       target ≠ Token.userId user →
       users db !! Token.userId user = Some sender →
       blogs db !! Comment.blog parent = Some blog →
       (strLength (Blog.title blog) ≤ 479)%nat →
       notificationStoreUp env = true →
       ∃ n, notifications db' = notifications db ++ [n]
            ∧ Notification.recipient n = target
            ∧ Notification.sender n = Token.userId user
            ∧ Notification.type n = Notification.reply
            ∧ Notification.relatedBlog n = Some (Comment.blog parent)
            ∧ Notification.relatedComment n = Some (newId env)
            ∧ Notification.content n
              = js "undefined" ++ js " 回复了您在《" ++ Blog.title blog
                ++ js "》中的评论").
Proof.
  intros Hvalid Hid Hbid HreplyTo Hparent target db'.
  split; [|split].
  - exists (replyOf env user content parent replyTo db). split; [|done].
    by apply createReply_stored.
  - intros Hself. subst db'.
    pose proof Hid as Hid'. pose proof Hbid as Hbid'.
    apply idTruthy_ne in Hid', Hbid'.
    pose proof (validateContent_truthy content contentOptions eq_refl Hvalid)
      as Htruthy.
    assert (joiOptional "replyTo" replyTo = inr replyTo) as Hopt.
    { destruct replyTo as [r|]; [|done]. unfold joiOptional.
      destruct (idTruthy r) eqn:Hr; [done|].
      destruct r; [done|discriminate]. }
    unfold createReply, replyRequest, joiString. simpl.
    rewrite Htruthy, Hid', Hopt, Hbid', Hvalid, Hparent. simpl.
    fold target. by rewrite (bool_decide_eq_false_2 (target ≠ _)) by auto.
  - intros sender blog Hother Hsender Hblog Hlen Hup. subst db'.
    pose proof Hid as Hid'. pose proof Hbid as Hbid'.
    apply idTruthy_ne in Hid', Hbid'.
    pose proof (validateContent_truthy content contentOptions eq_refl Hvalid)
      as Htruthy.
    assert (joiOptional "replyTo" replyTo = inr replyTo) as Hopt.
    { destruct replyTo as [r|]; [|done]. unfold joiOptional.
      destruct (idTruthy r) eqn:Hr; [done|].
      destruct r; [done|discriminate]. }
    unfold createReply, replyRequest, joiString. simpl.
    rewrite Htruthy, Hid', Hopt, Hbid', Hvalid, Hparent. simpl.
    fold target. rewrite (bool_decide_eq_true_2 (target ≠ _)) by done.
    rewrite Hblog. unfold User.findById. rewrite Hsender. simpl.
    unfold Notification_create, Notification.valid. simpl.
    rewrite Hup. unfold User_name, template. simpl.
    assert (truthy (js "新回复通知") = true) as -> by reflexivity.
    assert (Nat.leb (strLength (js "新回复通知")) 100 = true) as ->
      by (vm_compute; reflexivity).
    rewrite (notice_truthy _ _ _ _ (eq_refl : truthy (js "》中的评论") = true)).
    rewrite (notice_length _ _ _ _ 7 5) by (vm_compute; reflexivity).
    assert (length (js "undefined") = 9%nat) as -> by (vm_compute; reflexivity).
    assert (Nat.leb (9 + 7 + length (Blog.title blog) + 5) 500 = true) as ->
      by (apply Nat.leb_le; unfold strLength in Hlen; lia).
    simpl. eexists. split; [reflexivity|]. done.
Qed.

(** The comment collection keeps its shape: in every state that requests
    can produce no two comments share an id, whatever a [parentId] names
    is a top-level comment, so threads are two levels deep, no user is
    twice in the likes of a comment, and [likeCount] is the length of
    [likes]. *)
Theorem comment_collection_invariant db :
  reachable db → wf (comments db).
Proof. apply reachable_wf. Qed.

End ThreadMore.

Section ValidateFacts.
Import ContentFilter Moderation.
Context `{JsRuntime}.

Lemma filter_nil_iff {A} (f : A → bool) (l : list A) :
  List.filter f l = [] ↔ ∀ x, x ∈ l → f x = false.
Proof.
  induction l as [|a l IH]; simpl.
  - split; [|done]. intros _ x Hx. by apply elem_of_nil in Hx.
  - destruct (f a) eqn:Ha.
    + split; [done|]. intros Hall.
      specialize (Hall a (list_elem_of_here _ _)). congruence.
    + rewrite IH. split.
      * intros Hall x [->|Hx]%elem_of_cons; auto.
      * intros Hall x Hx. apply Hall. by apply list_elem_of_further.
Qed.

Lemma found_in_nil (textLower : jsString) (strict : bool) :
  found_in textLower strict = []
  ↔ ∀ w, w ∈ listed strict → includes textLower w = false.
Proof.
  unfold found_in, listed. split.
  - intros [Hbase Hpol]%app_eq_nil w [Hw|Hw]%elem_of_app.
    + by apply (proj1 (filter_nil_iff _ _) Hbase).
    + destruct strict; [|by apply elem_of_nil in Hw].
      by apply (proj1 (filter_nil_iff _ _) Hpol).
  - intros Hall.
    assert (List.filter (includes textLower) sensitiveWords = []) as ->.
    { apply filter_nil_iff. intros w Hw. apply Hall, elem_of_app. by left. }
    destruct strict; [|reflexivity].
    change (List.filter (includes textLower) politicalSensitiveWords = []).
    apply filter_nil_iff. intros w Hw. apply Hall, elem_of_app. by right.
Qed.

(** What [validateContent] accepts, for any options. A blank text, empty
    or white space only, is accepted exactly when [allowEmpty] is set,
    whatever the bounds say. Any other text is accepted exactly when its
    length lies within [minLength] (1 if left out) and [maxLength] (10000
    if left out) and its lowered form includes none of the words of the
    base list nor, unless [strictMode] is false, of the political list. *)
Theorem validate_content_accepts (content : jsString)
    (options : ValidateOptions) :
  vIsValid (validateContent content options) = true
  ↔ if blank content then default false (allowEmpty options) = true
    else (default 1 (minLength options) ≤ strLength content
          ≤ default 10000 (maxLength options))%nat
         ∧ ∀ w, w ∈ listed (default true (strictMode options)) →
                includes (toLowerCase content) w = false.
Proof.
  unfold validateContent, blank.
  cbv zeta.
  destruct (negb (truthy content) || Nat.eqb (strLength (trim content)) 0)
    eqn:Hblank.
  - by destruct (default false (allowEmpty options)).
  - apply orb_false_elim in Hblank as [Htruthy%negb_false_iff _].
    destruct (Nat.ltb (strLength content) (default 1%nat (minLength options)))
      eqn:Hmin.
    { apply Nat.ltb_lt in Hmin. cbn [vIsValid].
      split; [done|]. intros [Hbounds _]. lia. }
    destruct (Nat.ltb (default 10000%nat (maxLength options))
                (strLength content)) eqn:Hmax.
    { apply Nat.ltb_lt in Hmax. cbn [vIsValid].
      split; [done|]. intros [Hbounds _]. lia. }
    apply Nat.ltb_ge in Hmin, Hmax.
    rewrite checkSensitiveContent_isValid.
    rewrite (checkSensitiveContent_found _ _ Htruthy).
    change (default true (Some (default true (strictMode options))))
      with (default true (strictMode options)).
    rewrite <- found_in_nil.
    destruct (found_in (toLowerCase content)
                (default true (strictMode options))) as [|w ws];
      cbn [length Nat.eqb negb vIsValid].
    + split; [|done]. intros _. split; [lia|done].
    + split; [done|]. by intros (_ & ?).
Qed.

End ValidateFacts.

Section BoundsFacts.
Import ContentFilter CommentRoutes Threads Moderation.
Context `{JsRuntime}.
Implicit Types (db : Db) (env : Env) (user : Token.t).

Lemma validateContent_blank (content : jsString) :
  truthy content = true → trim content = [] →
  validateContent content contentOptions
  = {| vIsValid := false; vMessage := js "内容不能为空";
       vFoundWords := None |}.
Proof.
  intros Htruthy Htrim. unfold validateContent, contentOptions.
  cbn [minLength maxLength allowEmpty strictMode default from_option].
  unfold id. by rewrite Htruthy, Htrim.
Qed.

Lemma validateContent_long (content : jsString) :
  trim content ≠ [] → (1000 < strLength content)%nat →
  validateContent content contentOptions
  = {| vIsValid := false;
       vMessage := js "内容长度不能超过" ++ numberToString 1000
                   ++ js "个字符";
       vFoundWords := None |}.
Proof.
  intros Htrim Hlong. unfold validateContent, contentOptions.
  cbn [minLength maxLength allowEmpty strictMode default from_option].
  unfold id.
  assert (truthy content = true) as ->
    by (destruct content; [by destruct Htrim|done]).
  assert (Nat.eqb (strLength (trim content)) 0 = false) as ->
    by (unfold strLength; by destruct (trim content)).
  assert (Nat.ltb (strLength content) 1 = false) as ->
    by (apply Nat.ltb_ge; lia).
  assert (Nat.ltb 1000 (strLength content) = true) as ->
    by by apply Nat.ltb_lt.
  done.
Qed.

(** The bounds of a comment. A text of white space only is refused by
    POST /create and POST /reply with 400 "评论内容不能为空" (resp.
    "回复..."), however long it is; any other text of more than 1000 code
    units is refused with 400 "评论内容长度不能超过1000个字符" (resp.
    "回复..."). Nothing is stored, and the blog or comment need not
    exist. *)
Theorem comment_bounds_refused env user content db :
  truthy content = true →
  (trim content = [] ∨ (1000 < strLength content)%nat) →
  (∀ blogId,
     blogId ≠ EmptyString →
     createComment env user (createRequest content blogId) db
     = (reply 400 false
          (if bool_decide (trim content = []) then js "评论内容不能为空"
           else js "评论内容长度不能超过1000个字符"), db))
  ∧ (∀ commentId replyTo blogId,
       commentId ≠ EmptyString → blogId ≠ EmptyString →
       replyTo ≠ Some EmptyString →
       createReply env user
         (replyRequest content commentId replyTo blogId) db
       = (reply 400 false
            (if bool_decide (trim content = []) then js "回复内容不能为空"
             else js "回复内容长度不能超过1000个字符"), db)).
Proof.
  intros Htruthy Hunfit.
  assert (∃ reason,
            validateContent content contentOptions
            = {| vIsValid := false; vMessage := reason;
                 vFoundWords := None |}
            ∧ js "评论" ++ reason
              = (if bool_decide (trim content = [])
                 then js "评论内容不能为空"
                 else js "评论内容长度不能超过1000个字符")
            ∧ js "回复" ++ reason
              = (if bool_decide (trim content = [])
                 then js "回复内容不能为空"
                 else js "回复内容长度不能超过1000个字符"))
    as (reason & Hvalidate & Hcreate & Hreply).
  { case_bool_decide as Htrim.
    - eexists. split; [by apply validateContent_blank|].
      split; vm_compute; reflexivity.
    - destruct Hunfit as [?|Hlong]; [done|].
      eexists. split; [by apply validateContent_long|].
      split; vm_compute; reflexivity. }
  split.
  - intros blogId Hid%idTruthy_ne.
    unfold createComment, createRequest, joiString. simpl.
    by rewrite Htruthy, Hid, Hvalidate, <- Hcreate.
  - intros commentId replyTo blogId Hid%idTruthy_ne Hbid%idTruthy_ne HreplyTo.
    assert (joiOptional "replyTo" replyTo = inr replyTo) as Hopt.
    { destruct replyTo as [r|]; [|done]. unfold joiOptional.
      destruct (idTruthy r) eqn:Hr; [done|].
      destruct r; [done|discriminate]. }
    unfold createReply, replyRequest, joiString. simpl.
    by rewrite Htruthy, Hid, Hopt, Hbid, Hvalidate, <- Hreply.
Qed.

End BoundsFacts.

Section ThreadWitnesses.
Import ContentFilter CommentRoutes Threads Moderation.

Lemma banned_content_refused_witness :
  createComment Sample.env0 (Sample.token Sample.alice Role.user)
    (createRequest (js "老虎机真好玩") Sample.blog1) Sample.db0
  = (reply 400 false (js "评论" ++ js "内容包含不当词汇，请修改后重试"),
     Sample.db0).
Proof.
  destruct (banned_content_refused Sample.env0
              (Sample.token Sample.alice Role.user) (js "老虎机真好玩")
              (js "老虎机") Sample.db0) as [Hcreate _].
  - by_evaluation.
  - vm_compute. reflexivity.
  - vm_compute. reflexivity.
  - apply Nat.leb_le. vm_compute. reflexivity.
  - apply Hcreate. discriminate.
Defined.

Lemma stored_comments_are_clean_witness :
  all_clean
    (comments
       (createComment Sample.env0 (Sample.token Sample.alice Role.user)
          (createRequest (js "写得真好") Sample.blog1)
          (opening Sample.everyone (blogs Sample.db0))).2).
Proof.
  apply (stored_comments_are_clean
           (createComment Sample.env0 (Sample.token Sample.alice Role.user)
              (createRequest (js "写得真好") Sample.blog1)
              (opening Sample.everyone (blogs Sample.db0))).2).
  apply reach_create; [apply reach_empty|].
  intros c Hc. by apply elem_of_nil in Hc.
Defined.

Lemma replies_keep_their_thread_witness :
  anchored
    (comments
       (createReply
          {| now := 3100; newId := Sample.comment2;
             notificationStoreUp := true |}
          (Sample.token Sample.carol Role.user)
          (replyRequest (js "周末就去") Sample.comment3 None Sample.blog1)
          (createComment Sample.env0 (Sample.token Sample.bob Role.user)
             (createRequest (js "欢迎大家来逛") Sample.blog1)
             (opening Sample.everyone (blogs Sample.db0))).2).2).
Proof.
  apply (replies_keep_their_thread
           (createReply
              {| now := 3100; newId := Sample.comment2;
                 notificationStoreUp := true |}
              (Sample.token Sample.carol Role.user)
              (replyRequest (js "周末就去") Sample.comment3 None Sample.blog1)
              (createComment Sample.env0 (Sample.token Sample.bob Role.user)
                 (createRequest (js "欢迎大家来逛") Sample.blog1)
                 (opening Sample.everyone (blogs Sample.db0))).2).2).
  apply reach_reply.
  - apply reach_create; [apply reach_empty|].
    intros c Hc. by apply elem_of_nil in Hc.
  - unfold fresh. apply Forall_forall. by_evaluation.
Defined.

Lemma delete_is_for_admins_witness :
  Comment.user Sample.bobsComment
  = Token.userId (Sample.token Sample.bob Role.user)
  ∧ deleteComment (Sample.token Sample.bob Role.user) Sample.comment1
      Sample.db0
    = (reply 403 false (js "只能删除自己的评论"), Sample.db0).
Proof.
  split; [reflexivity|].
  destruct (delete_is_for_admins (Sample.token Sample.bob Role.user)
              Sample.comment1 Sample.db0 Sample.bobsComment) as [_ Hother].
  - vm_compute. reflexivity.
  - apply Hother. discriminate.
Defined.

Lemma toggle_like_frame_witness :
  users (toggleLike Sample.env0 (Sample.token Sample.alice Role.user)
           (likeRequest Sample.comment1) Sample.db0).2 = users Sample.db0
  ∧ blogs (toggleLike Sample.env0 (Sample.token Sample.alice Role.user)
             (likeRequest Sample.comment1) Sample.db0).2 = blogs Sample.db0
  ∧ Forall2
      (λ d d',
         same_but_likes d d'
         ∧ (Some (Comment._id d)
            ≠ LikeBody.commentId (likeRequest Sample.comment1) → d' = d))
      (comments Sample.db0)
      (comments (toggleLike Sample.env0 (Sample.token Sample.alice Role.user)
                   (likeRequest Sample.comment1) Sample.db0).2).
Proof.
  refine (toggle_like_frame Sample.env0 (Sample.token Sample.alice Role.user)
            (likeRequest Sample.comment1) Sample.db0 _).
  by_evaluation.
Defined.

Lemma reply_notification_witness :
  ∃ n,
    notifications
      (createReply Sample.env0 (Sample.token Sample.carol Role.user)
         (replyRequest (js "周末就去") Sample.comment1 None Sample.blog1)
         Sample.db0).2
    = notifications Sample.db0 ++ [n]
    ∧ Notification.recipient n = Sample.bob
    ∧ Notification.content n
      = js "undefined" ++ js " 回复了您在《" ++ js "开业第一天"
        ++ js "》中的评论".
Proof.
  assert (vIsValid (validateContent (js "周末就去") contentOptions) = true)
    as Hvalid by (vm_compute; reflexivity).
  assert (Comment.findById Sample.comment1 (comments Sample.db0)
          = Some Sample.bobsComment) as Hfind by (vm_compute; reflexivity).
  pose proof (reply_notification Sample.env0
                (Sample.token Sample.carol Role.user) (js "周末就去")
                Sample.comment1 None Sample.blog1 Sample.bobsComment
                Sample.db0 Hvalid ltac:(discriminate) ltac:(discriminate)
                ltac:(discriminate) Hfind) as Hthm.
  cbv zeta in Hthm. destruct Hthm as (_ & _ & Hnotify).
  destruct (Hnotify (Sample.doc "carol" [] []) Sample.bobsBlog)
    as (n & Hn & Hr & _ & _ & _ & _ & Hc).
  - by_evaluation.
  - vm_compute. reflexivity.
  - vm_compute. reflexivity.
  - apply Nat.leb_le. vm_compute. reflexivity.
  - reflexivity.
  - exists n. split; [exact Hn|]. split; [exact Hr|exact Hc].
Defined.

Lemma comment_collection_invariant_witness :
  wf (comments
        (toggleLike Sample.env0 (Sample.token Sample.alice Role.user)
           (likeRequest Sample.comment3)
           (createComment Sample.env0 (Sample.token Sample.bob Role.user)
              (createRequest (js "欢迎大家来逛") Sample.blog1)
              (opening Sample.everyone (blogs Sample.db0))).2).2).
Proof.
  apply (comment_collection_invariant
           (toggleLike Sample.env0 (Sample.token Sample.alice Role.user)
              (likeRequest Sample.comment3)
              (createComment Sample.env0 (Sample.token Sample.bob Role.user)
                 (createRequest (js "欢迎大家来逛") Sample.blog1)
                 (opening Sample.everyone (blogs Sample.db0))).2).2).
  apply reach_like. apply reach_create; [apply reach_empty|].
  intros c Hc. by apply elem_of_nil in Hc.
Defined.

Lemma comment_bounds_refused_witness :
  createComment Sample.env0 (Sample.token Sample.alice Role.user)
    (createRequest (replicate 1001 0x20 ++ js "好") Sample.blog1) Sample.db0
  = (reply 400 false
       (if bool_decide (trim (replicate 1001 0x20 ++ js "好") = [])
        then js "评论内容不能为空"
        else js "评论内容长度不能超过1000个字符"), Sample.db0)
  ∧ bool_decide (trim (replicate 1001 0x20 ++ js "好") = []) = false.
Proof.
  split; [|vm_compute; reflexivity].
  destruct (comment_bounds_refused Sample.env0
              (Sample.token Sample.alice Role.user)
              (replicate 1001 0x20 ++ js "好") Sample.db0) as [Hcreate _].
  - vm_compute. reflexivity.
  - right. apply Nat.ltb_lt. vm_compute. reflexivity.
  - apply Hcreate. discriminate.
Defined.

End ThreadWitnesses.
